(** * Saros DLMM dashboard: health grading, rebalancing recommendations,
      strategy simulation and portfolio roll-ups

    A shallow embedding of the decision logic of the TypeScript services

    - [SarosSdkService]        (src/services/sarosSdkService.ts),
    - [SarosApiService]        (the REST variant, file sarosAPIService.ts),
    - [WalletSarosApiService]  (the copy of [SarosApiService] that lives in
                                src/services/walletService.ts, with the
                                pool-position conversion path),
    - [RealSarosService]       (the price-domain variant),

    followed by the properties proved about them. *)

From Stdlib Require Import ZArith QArith List String Ascii Bool Lia.
From Stdlib Require Import DecimalString.
Import ListNotations.

Set Implicit Arguments.

(* ================================================================== *)
(** * Part I.  The embedding                                           *)
(* ================================================================== *)

(** ** JavaScript numbers and runtime values *)

Module JS.

Open Scope Q_scope.

(** A JavaScript [number].  A finite double is represented by the rational
    it denotes, and the arithmetic below is exact: it does not round, it does
    not overflow to an infinity, and there is a single zero, which behaves as
    [+0].  The three special values that the code can produce by dividing by
    zero are explicit.

    The code computes with IEEE-754 doubles.  Its sums, differences and
    comparisons of integers of magnitude at most [2 ^ 52] ([exact_integer])
    are exact; rounding a quotient or a product to the nearest double keeps
    the order of the exact results; and at moderate magnitudes ([moderate],
    [moderate_positive]) nothing overflows or underflows.  The properties
    proved here are stated for inputs on which what they state does not
    depend on a rounding: they carry these bounds as hypotheses where the
    value of a sum, a difference, a product or a quotient matters, and they
    make no statement about the sign of a zero. *)
Inductive number : Type :=
| Fin (q : Q)
| PosInf
| NegInf
| NaN.

Definition of_Z (z : Z) : number := Fin (inject_Z z).
Definition of_nat (n : nat) : number := of_Z (Z.of_nat n).

(** Integers whose sums and differences the code computes exactly: of
    magnitude at most [2 ^ 52], so that the sum or the difference of two of
    them is at most [2 ^ 53] in magnitude, where every integer is a double. *)
Definition exact_integer (z : Z) : Prop := (Z.abs z <= 2 ^ 52)%Z.

(** Magnitudes at which sums and differences of two doubles are finite. *)
Definition moderate (x : Q) : Prop :=
  - inject_Z (10 ^ 300) <= x <= inject_Z (10 ^ 300).

(** Positive magnitudes at which, moreover, a product with a constant near 1
    is a normal double. *)
Definition moderate_positive (x : Q) : Prop :=
  / inject_Z (10 ^ 300) <= x <= inject_Z (10 ^ 300).

(** The double nearest to the integer [z], ties to even.  Up to [2 ^ 53] in
    magnitude it is [z]; for [2 ^ (52 + e) <= |z| < 2 ^ (53 + e)] the doubles
    are the multiples of [2 ^ e].  (Overflow, from [2 ^ 1024] on, is left
    out.) *)
Definition round_integer (z : Z) : Z :=
  let e := (Z.log2 (Z.abs z) - 52)%Z in
  if (e <=? 0)%Z then z
  else
    let ulp := (2 ^ e)%Z in
    let q := (z / ulp)%Z in
    let r := (z mod ulp)%Z in
    if (2 * r <? ulp)%Z then (q * ulp)%Z
    else if (ulp <? 2 * r)%Z then ((q + 1) * ulp)%Z
    else if Z.even q then (q * ulp)%Z else ((q + 1) * ulp)%Z.

(** [i++] on a counter that holds the integer [i]: the sum [i + 1] as a
    double. *)
Definition increment (i : Z) : Z := round_integer (i + 1).

(** The values the counter of [for (let i = lower; i <= upper; i++)] takes with
    integer bounds, from [i] on.  The answer is [None] when a turn leaves the
    counter where it was, which it does from [2 ^ 53] on: the loop then has
    no last turn.  A counter that advances advances by at least 1, so
    [upper - i + 1] turns are enough ([turns] only makes the recursion
    structural). *)
Fixpoint count_up (turns : nat) (i upper : Z) : option (list Z) :=
  if (upper <? i)%Z then Some []
  else
    match turns with
    | O => None
    | S turns' =>
        if (increment i <=? i)%Z then None
        else option_map (cons i) (count_up turns' (increment i) upper)
    end.

Definition counter_values (lower upper : Z) : option (list Z) :=
  count_up (Z.to_nat (upper - lower + 1)) lower upper.

(** The largest length of an array. *)
Definition max_array_length : Z := 2 ^ 32 - 1.

Definition Qltb (a b : Q) : bool := negb (Qle_bool b a).

(** unary [-x] *)
Definition neg (a : number) : number :=
  match a with
  | Fin x => Fin (- x)
  | PosInf => NegInf
  | NegInf => PosInf
  | NaN => NaN
  end.

(** [a + b] on numbers *)
Definition add (a b : number) : number :=
  match a, b with
  | NaN, _ | _, NaN => NaN
  | Fin x, Fin y => Fin (x + y)
  | PosInf, NegInf | NegInf, PosInf => NaN
  | PosInf, _ | _, PosInf => PosInf
  | NegInf, _ | _, NegInf => NegInf
  end.

(** [a - b] *)
Definition sub (a b : number) : number := add a (neg b).

(** the sign of an infinity multiplied or divided by a finite [x] *)
Definition scale_inf (inf : number) (x : Q) : number :=
  match x ?= 0 with
  | Eq => NaN
  | Gt => inf
  | Lt => neg inf
  end.

(** [a * b] *)
Definition mul (a b : number) : number :=
  match a, b with
  | NaN, _ | _, NaN => NaN
  | Fin x, Fin y => Fin (x * y)
  | Fin x, inf | inf, Fin x => scale_inf inf x
  | PosInf, PosInf | NegInf, NegInf => PosInf
  | PosInf, NegInf | NegInf, PosInf => NegInf
  end.

(** [a / b]: a zero divisor gives [NaN] for [0 / 0] and a signed infinity
    otherwise; nothing is thrown. *)
Definition div (a b : number) : number :=
  match a, b with
  | NaN, _ | _, NaN => NaN
  | Fin x, Fin y =>
      if Qeq_bool y 0
      then match x ?= 0 with
           | Eq => NaN
           | Gt => PosInf
           | Lt => NegInf
           end
      else Fin (x / y)
  | Fin _, _ => Fin 0
  | inf, Fin y => if Qltb y 0 then neg inf else inf
  | _, _ => NaN
  end.

(** [a < b]; any comparison with [NaN] is [false] *)
Definition lt (a b : number) : bool :=
  match a, b with
  | NaN, _ | _, NaN => false
  | Fin x, Fin y => Qltb x y
  | NegInf, NegInf => false
  | NegInf, _ => true
  | _, PosInf => match a with PosInf => false | _ => true end
  | _, _ => false
  end.

(** [a > b] *)
Definition gt (a b : number) : bool := lt b a.

(** [a === b] on numbers *)
Definition strict_eq (a b : number) : bool :=
  match a, b with
  | Fin x, Fin y => Qeq_bool x y
  | PosInf, PosInf | NegInf, NegInf => true
  | _, _ => false
  end.

(** [Math.min(a, b)] *)
Definition Math_min (a b : number) : number :=
  match a, b with
  | NaN, _ | _, NaN => NaN
  | _, _ => if lt b a then b else a
  end.

(** [Math.max(a, b)] *)
Definition Math_max (a b : number) : number :=
  match a, b with
  | NaN, _ | _, NaN => NaN
  | _, _ => if lt a b then b else a
  end.

(** [Math.floor] on the non-negative integers used as array indices *)
Definition floor_half (n : nat) : nat := Nat.div n 2.

(** Equality of numbers up to the representation of a rational. *)
Definition num_eq (a b : number) : Prop :=
  match a, b with
  | Fin x, Fin y => x == y
  | PosInf, PosInf | NegInf, NegInf | NaN, NaN => True
  | _, _ => False
  end.

(** A field that the interfaces declare as [number] but that arrives from an
    unvalidated payload.  The code observes such a field in two ways only:
    through a relational comparison, which first converts it with ToNumber,
    and through a call of [toFixed], which exists on numbers alone.  A value
    of any other type (for instance the JSON string "75") is therefore
    represented by its ToNumber conversion. *)
Inductive field : Type :=
| Number (n : number)
| NonNumber (toNumber : number).

Definition ToNumber (v : field) : number :=
  match v with
  | Number n => n
  | NonNumber n => n
  end.

(** What a [throw] carries.  The wording of an engine's [TypeError] message
    is replaced by the expression whose evaluation failed. *)
Inductive error : Type :=
| TypeError (message : string)
| Error (message : string).

Definition message_of (e : error) : string :=
  match e with
  | TypeError m => m
  | Error m => m
  end.

(** The completion of a statement or call: normal, or abrupt by [throw].
    For an [async] function, [Normal] is the fulfilled promise and [Throw]
    the rejected one. *)
Inductive completion (A : Type) : Type :=
| Normal (a : A)
| Throw (e : error).
Arguments Normal {A} a.
Arguments Throw {A} e.

(** The part of the outside world the services touch: the clock behind
    [Date.now()], the generator behind [Math.random()] and the console.
    The [k]-th call of [Date.now()] returns [now k]; the [k]-th call of
    [Math.random()] returns [random k]. *)
Record World : Type := {
  now : nat -> Z;
  ticks : nat;
  random : nat -> Q;
  draws : nat;
  console : list (string * error)
}.

(** Effectful code over a state [S]: the state survives a [throw]. *)
Definition Eff (S A : Type) : Type := S -> completion A * S.

Definition ret {S A : Type} (a : A) : Eff S A := fun s => (Normal a, s).

Definition bind {S A B : Type} (m : Eff S A) (k : A -> Eff S B) : Eff S B :=
  fun s =>
    match m s with
    | (Normal a, s') => k a s'
    | (Throw e, s') => (Throw e, s')
    end.

Definition throw {S A : Type} (e : error) : Eff S A := fun s => (Throw e, s).

(** a pure computation that may throw *)
Definition lift {S A : Type} (c : completion A) : Eff S A := fun s => (c, s).

(** The object behind [element.name], for an [element] of an array that came
    from a payload: [None] is a [null] or [undefined] element, on which every
    property access is a [TypeError]. *)
Definition object_of {A : Type} (what : string) (element : option A) : completion A :=
  match element with
  | Some object => Normal object
  | None => Throw (TypeError ("Cannot read properties of undefined: " ++ what))
  end.

(** [try { body } catch (error) { handler }] *)
Definition try_catch {S A : Type} (body : Eff S A) (handler : error -> Eff S A)
  : Eff S A :=
  fun s =>
    match body s with
    | (Normal a, s') => (Normal a, s')
    | (Throw e, s') => handler e s'
    end.

(** [if (c) { body }] with no [else] *)
Definition when {S : Type} (c : bool) (body : Eff S unit) : Eff S unit :=
  if c then body else ret tt.

(** [for (const x of xs) { body }] *)
Fixpoint for_of {S A : Type} (xs : list A) (body : A -> Eff S unit) : Eff S unit :=
  match xs with
  | [] => ret tt
  | x :: xs' => bind (body x) (fun _ => for_of xs' body)
  end.

(** [Date.now()] *)
Definition Date_now : Eff World Z :=
  fun w => (Normal (now w (ticks w)),
            {| now := now w; ticks := S (ticks w); random := random w;
               draws := draws w; console := console w |}).

(** [Math.random()] *)
Definition Math_random : Eff World number :=
  fun w => (Normal (Fin (random w (draws w))),
            {| now := now w; ticks := ticks w; random := random w;
               draws := S (draws w); console := console w |}).

(** [console.error(label, error)] *)
Definition console_error (label : string) (e : error) : Eff World unit :=
  fun w => (Normal tt,
            {| now := now w; ticks := ticks w; random := random w;
               draws := draws w; console := console w ++ [(label, e)] |}).

(** The pieces of a template literal: literal text, an interpolated number
    and an interpolated [n.toFixed(digits)].  The digits of a number are not
    rendered; the interpolation is kept with its arguments. *)
Inductive chunk : Type :=
| Lit (s : string)
| Interp (n : number)
| Fixed (n : number) (digits : nat).

(** A template literal with numbers interpolated. *)
Definition template : Type := list chunk.

(** [v.toFixed(digits)]: a method of numbers only; on any other value the
    call throws. *)
Definition toFixed (what : string) (v : field) (digits : nat) : completion chunk :=
  match v with
  | Number n => Normal (Fixed n digits)
  | NonNumber _ => Throw (TypeError (what ++ ".toFixed is not a function"))
  end.

(** The decimal rendering of an integer, as in [`${Date.now()}`]. *)
Definition string_of_Z (z : Z) : string := NilZero.string_of_int (Z.to_int z).

(** Names every object literal inherits from [Object.prototype]: a lookup
    [obj[name]] with one of them finds an inherited function (or, for
    [__proto__], the prototype itself) rather than [undefined]. *)
Definition Object_prototype : list string :=
  ["constructor"; "hasOwnProperty"; "isPrototypeOf"; "propertyIsEnumerable";
   "toLocaleString"; "toString"; "valueOf"; "__proto__";
   "__defineGetter__"; "__defineSetter__"; "__lookupGetter__";
   "__lookupSetter__"]%string.

Definition inherited (name : string) : bool :=
  existsb (String.eqb name) Object_prototype.

(** The result of [table[name]] on an object literal. *)
Inductive property (A : Type) : Type :=
| Own (a : A)
| Inherited
| Undefined.
Arguments Own {A} a.
Arguments Inherited {A}.
Arguments Undefined {A}.

Definition lookup {A : Type} (table : list (string * A)) (name : string)
  : property A :=
  match find (fun kv => String.eqb name (fst kv)) table with
  | Some kv => Own (snd kv)
  | None => if inherited name then Inherited else Undefined
  end.

(** [config.key] for a [config] obtained by [lookup]: a property of an own
    entry, [undefined] on an inherited function, a [TypeError] on
    [undefined]. *)
Definition get {A B : Type} (what : string) (config : property A) (key : A -> B)
  : completion (option B) :=
  match config with
  | Own c => Normal (Some (key c))
  | Inherited => Normal None
  | Undefined => Throw (TypeError ("Cannot read properties of undefined: " ++ what))
  end.

(** ToNumber of a number-or-[undefined] *)
Definition num (v : option number) : number :=
  match v with
  | Some n => n
  | None => NaN
  end.

(** [Array.prototype.sort(compare)].  The sort is stable and orders [a]
    before [b] when [compare(a, b) < 0]; a [NaN] result counts as [0].  For
    a consistent comparator every engine returns the same array; it is
    computed here by insertion from the right. *)
Fixpoint sort_insert {A : Type} (compare : A -> A -> number) (x : A) (l : list A)
  : list A :=
  match l with
  | [] => [x]
  | y :: l' =>
      if gt (compare x y) (of_Z 0) then y :: sort_insert compare x l'
      else x :: y :: l'
  end.

Definition Array_sort {A : Type} (compare : A -> A -> number) (l : list A)
  : list A :=
  fold_right (sort_insert compare) [] l.

(** [a >= b]; [false] when either side is [NaN] *)
Definition ge (a b : number) : bool :=
  match a, b with
  | NaN, _ | _, NaN => false
  | _, _ => negb (lt a b)
  end.

(** [Math.abs(a)] *)
Definition Math_abs (a : number) : number :=
  match a with
  | Fin x => Fin (if Qltb x 0 then - x else x)
  | PosInf | NegInf => PosInf
  | NaN => NaN
  end.

End JS.

Module JSNotations.
Notation "x <- m ;; k" := (JS.bind m (fun x => k))
  (at level 61, m at next level, right associativity).
Notation "m ;;; k" := (JS.bind m (fun _ => k))
  (at level 61, right associativity).
End JSNotations.

Import JSNotations.

(** ** The data model (src/types, and the declarations at the end of
       SarosDLMMDashboard.tsx that the REST services rely on)

    Labels that only the views read (pair names, token symbols, dates,
    [rawPosition]) are left out of the records. *)

Inductive Health : Type := Excellent | Good | Fair | Poor.

(** The position of a grade in the order Poor < Fair < Good < Excellent. *)
Definition grade (h : Health) : nat :=
  match h with
  | Poor => 0
  | Fair => 1
  | Good => 2
  | Excellent => 3
  end.

Module BinDistribution.
Record t : Type := {
  id : JS.number;
  binId : JS.number;
  price : JS.number;
  liquidityX : JS.number;
  liquidityY : JS.number;
  feeAPR : JS.number;
  percentage : option JS.number
}.
End BinDistribution.

Module Position.
Record binRange_t : Type := { lower : JS.number; upper : JS.number; active : JS.number }.
Record distribution_t : Type := { tokenA : JS.number; tokenB : JS.number }.
Record priceRange_t : Type := { min : JS.number; max : JS.number; current : JS.number }.

(** A position as the interface declares it. *)
Record t : Type := {
  id : string;
  liquidity : JS.number;
  totalLiquidity : JS.number;
  value : JS.number;
  currentValue : JS.number;
  change24h : JS.number;
  apy : JS.number;
  currentAPY : JS.number;
  apr : JS.number;
  feesEarned : JS.number;
  fees24h : JS.number;
  feesTotal : JS.number;
  unclaimedFees : JS.number;
  pnl : JS.number;
  pnlPercentage : JS.number;
  binRange : binRange_t;
  lowerBinId : JS.number;
  upperBinId : JS.number;
  distribution : distribution_t;
  priceRange : priceRange_t;
  strategy : string;
  health : Health;
  binCount : JS.number;
  binDistribution : list BinDistribution.t;
  impermanentLoss : option JS.number
}.
End Position.

(** A position object as the recommendation engines and the simulators meet
    it at run time: a plain object, as [JSON.parse] yields it, so that reading
    a field has no effect and cannot throw, and with a string for its [id].
    Only what the engines read is kept.  The objects a [try] block guards may
    be absent ([None] is [undefined] or [null]); the two fields on which
    [toFixed] is called are runtime values.  An element of a [positions] array
    that is itself [null] or [undefined] is the [None] of
    [option RawPosition.t]. *)
Module RawPosition.
Record t : Type := {
  id : string;
  totalLiquidity : JS.number;
  priceRange : option Position.priceRange_t;
  lowerBinId : JS.number;
  upperBinId : JS.number;
  unclaimedFees : JS.field;
  pnlPercentage : JS.field;
  binDistribution : option (list (option BinDistribution.t))
}.

(** A declared position, seen by the engine. *)
Definition of_position (p : Position.t) : t :=
  {| id := Position.id p;
     totalLiquidity := Position.totalLiquidity p;
     priceRange := Some (Position.priceRange p);
     lowerBinId := Position.lowerBinId p;
     upperBinId := Position.upperBinId p;
     unclaimedFees := JS.Number (Position.unclaimedFees p);
     pnlPercentage := JS.Number (Position.pnlPercentage p);
     binDistribution := Some (map Some (Position.binDistribution p)) |}.
End RawPosition.

Module PriceRange.
Record t : Type := {
  min : JS.number;
  max : JS.number;
  lowerBinId : option JS.number;
  upperBinId : option JS.number
}.
End PriceRange.

Module ExecutionParams.
Inductive type_t : Type := shift_up | shift_down | add_liquidity.
Record t : Type := {
  type : type_t;
  currentRange : option PriceRange.t;
  suggestedRange : option PriceRange.t
}.
End ExecutionParams.

Module RebalanceRecommendation.
Inductive type_t : Type := rebalance | expand | narrow | exit.
Inductive priority_t : Type := high | medium | low.

Record expectedImpact_t : Type := {
  feesIncrease : JS.number;
  ilReduction : JS.number;
  confidenceScore : JS.number
}.

Record t : Type := {
  id : option string;
  positionId : string;
  type : type_t;
  priority : priority_t;
  reason : JS.template;
  expectedImpact : expectedImpact_t;
  suggestedAction : JS.template;
  executionParams : option ExecutionParams.t
}.



End RebalanceRecommendation.

Module StrategySimulationResult.
Record details_t : Type := {
  feesProjected : JS.number;
  ilProjected : JS.number;
  capitalEfficiency : JS.number
}.

(** [None] in a number field is [undefined]. *)
Record t : Type := {
  strategy : string;
  expectedReturn : option JS.number;
  risk : option JS.number;
  timeHorizon : string;
  confidence : JS.number;
  riskScore : option JS.number;
  details : details_t
}.
End StrategySimulationResult.

Module PortfolioData.
Record summary_t : Type := {
  totalActivePositions : nat;
  totalUnclaimedFees : JS.number;
  averageAPR : JS.number
}.

Record t : Type := {
  totalValue : JS.number;
  totalValueChange : JS.number;
  totalFeesEarned : JS.number;
  totalIL : option JS.number;
  totalPnL : option JS.number;
  totalPnLPercentage : option JS.number;
  avgApy : JS.number;
  positions : list Position.t;
  summary : option summary_t
}.
End PortfolioData.

Module HistoricalPriceData.
Record t : Type := {
  timestamp : JS.number;
  price : JS.number;
  volume : JS.number;
  liquidity : JS.number
}.
End HistoricalPriceData.

Module PerformanceDataPoint.
Record t : Type := {
  date : string;
  value : JS.number;
  fees : JS.number;
  il : option JS.number
}.
End PerformanceDataPoint.

(** [xs.reduce((sum, x) => sum + f(x), 0)] *)
Definition reduce_sum {A : Type} (f : A -> JS.number) (xs : list A) : JS.number :=
  fold_left (fun sum x => JS.add sum (f x)) xs (JS.of_Z 0).

(** A local array next to the world: the [recommendations] array of the
    engines lives in the second component, so that what was pushed before a
    [throw] is still there when the [catch] block runs. *)
Definition in_world {L A : Type} (m : JS.Eff JS.World A) : JS.Eff (JS.World * L) A :=
  fun s => let (r, w') := m (fst s) in (r, (w', snd s)).

(** [array.push(x)] *)
Definition push {A : Type} (x : A) : JS.Eff (JS.World * list A) unit :=
  fun s => (JS.Normal tt, (fst s, snd s ++ [x])).

(** [const array = []; body; return array] *)
Definition returning_array {A : Type} (body : JS.Eff (JS.World * list A) unit)
  : JS.Eff JS.World (list A) :=
  fun w =>
    match body (w, []) with
    | (JS.Normal _, (w', array)) => (JS.Normal array, w')
    | (JS.Throw e, (w', _)) => (JS.Throw e, w')
    end.

(** The integers [lower], [lower + 1], ..., [upper]: the values the counter
    of a [for] loop takes between integer bounds below [2 ^ 53] in magnitude
    (see [JS.counter_values] for the counter beyond). *)
Definition Z_upto (lower upper : Z) : list Z :=
  map (fun k => (lower + Z.of_nat k)%Z) (seq 0 (Z.to_nat (upper - lower + 1))).

Local Open Scope string_scope.
Local Open Scope Q_scope.

(** ** SarosSdkService (src/services/sarosSdkService.ts) *)

Module SarosSdkService.

Definition calculateHealth (activeBin lowerBin upperBin : JS.number) : Health :=
  let range := JS.sub upperBin lowerBin in
  if JS.strict_eq range (JS.of_Z 0) then Poor
  else
    let distanceFromLower := JS.sub activeBin lowerBin in
    let distanceFromUpper := JS.sub upperBin activeBin in
    let minDistance := JS.Math_min distanceFromLower distanceFromUpper in
    let healthRatio := JS.mul (JS.div minDistance range) (JS.of_Z 100) in
    if JS.gt healthRatio (JS.of_Z 30) then Excellent
    else if JS.gt healthRatio (JS.of_Z 20) then Good
    else if JS.gt healthRatio (JS.of_Z 10) then Fair
    else Poor.

(** The local [averageAPR] of [calculatePortfolioData]:
    [positions.length > 0 ? sum / positions.length : 0]. *)
Definition averageAPR (positions : list Position.t) : JS.number :=
  if Nat.ltb 0 (List.length positions)
  then JS.div (reduce_sum Position.apr positions) (JS.of_nat (List.length positions))
  else JS.of_Z 0.

Definition calculatePortfolioData (positions : list Position.t) : PortfolioData.t :=
  let totalValue := reduce_sum Position.currentValue positions in
  let totalPnL := reduce_sum Position.pnl positions in
  let totalUnclaimedFees := reduce_sum Position.unclaimedFees positions in
  let averageAPR := averageAPR positions in
  {| PortfolioData.totalValue := totalValue;
     PortfolioData.totalValueChange := JS.of_Z 0;
     PortfolioData.totalFeesEarned := totalUnclaimedFees;
     PortfolioData.totalIL := None;
     PortfolioData.totalPnL := Some totalPnL;
     PortfolioData.totalPnLPercentage :=
       Some (if JS.gt totalValue (JS.of_Z 0)
             then JS.mul (JS.div totalPnL (JS.sub totalValue totalPnL)) (JS.of_Z 100)
             else JS.of_Z 0);
     PortfolioData.avgApy := averageAPR;
     PortfolioData.positions := positions;
     PortfolioData.summary :=
       Some {| PortfolioData.totalActivePositions := List.length positions;
               PortfolioData.totalUnclaimedFees := totalUnclaimedFees;
               PortfolioData.averageAPR := averageAPR |} |}.

(** [convertSdkPositions]: every SDK position becomes the same placeholder,
    which differs only in its id ([sdkPos.publicKey?.toString() || 'unknown']). *)
Definition convertSdkPosition (publicKey : option string) : Position.t :=
  let zero := JS.of_Z 0 in
  {| Position.id := match publicKey with
                    | Some (String c s) => String c s
                    | _ => "unknown"
                    end;
     Position.liquidity := zero;
     Position.totalLiquidity := zero;
     Position.value := zero;
     Position.currentValue := zero;
     Position.change24h := zero;
     Position.apy := zero;
     Position.currentAPY := zero;
     Position.apr := zero;
     Position.feesEarned := zero;
     Position.fees24h := zero;
     Position.feesTotal := zero;
     Position.unclaimedFees := zero;
     Position.pnl := zero;
     Position.pnlPercentage := zero;
     Position.binRange := {| Position.lower := zero; Position.upper := zero;
                             Position.active := zero |};
     Position.lowerBinId := zero;
     Position.upperBinId := zero;
     Position.distribution := {| Position.tokenA := zero; Position.tokenB := zero |};
     Position.priceRange := {| Position.min := zero; Position.max := zero;
                               Position.current := zero |};
     Position.strategy := "balanced";
     Position.health := Good;
     Position.binCount := zero;
     Position.binDistribution := [];
     Position.impermanentLoss := None |}.

Definition convertSdkPositions (sdkPositions : list (option string)) : list Position.t :=
  map convertSdkPosition sdkPositions.

(** The two stubs that complete the [ISarosService] interface. *)
Definition generateRebalanceRecommendations (positions : list RawPosition.t)
  : JS.Eff JS.World (list RebalanceRecommendation.t) :=
  JS.ret [].

Definition simulateStrategy (position : RawPosition.t) (strategy : string)
  (timeHorizon : option string) : JS.Eff JS.World StrategySimulationResult.t :=
  JS.ret
    {| StrategySimulationResult.strategy := strategy;
       StrategySimulationResult.expectedReturn := Some (JS.of_Z 0);
       StrategySimulationResult.risk := None;
       StrategySimulationResult.timeHorizon :=
         match timeHorizon with
         | Some (String c s) => String c s
         | _ => "30d"
         end;
       StrategySimulationResult.confidence := JS.of_Z 0;
       StrategySimulationResult.riskScore := None;
       StrategySimulationResult.details :=
         {| StrategySimulationResult.feesProjected := JS.of_Z 0;
            StrategySimulationResult.ilProjected := JS.of_Z 0;
            StrategySimulationResult.capitalEfficiency := JS.of_Z 0 |} |}.

End SarosSdkService.

(** ** SarosApiService (the REST variant, sarosAPIService.ts) *)

Module SarosApiService.

Definition calculateHealth (activeBin lowerBin upperBin : JS.number) : Health :=
  let range := JS.sub upperBin lowerBin in
  let distanceFromLower := JS.sub activeBin lowerBin in
  let distanceFromUpper := JS.sub upperBin activeBin in
  let minDistance := JS.Math_min distanceFromLower distanceFromUpper in
  let healthRatio := JS.mul (JS.div minDistance range) (JS.of_Z 100) in
  if JS.gt healthRatio (JS.of_Z 30) then Excellent
  else if JS.gt healthRatio (JS.of_Z 20) then Good
  else if JS.gt healthRatio (JS.of_Z 10) then Fair
  else Poor.

(** [b.binId] for an array element [b]: a [TypeError] when the element is
    [undefined] (index out of bounds) or [null]. *)
Definition binId_of (what : string) (b : option (option BinDistribution.t))
  : JS.completion JS.number :=
  match b with
  | Some (Some bin) => JS.Normal (BinDistribution.binId bin)
  | _ => JS.Throw (JS.TypeError ("Cannot read properties of undefined: " ++ what))
  end.

(** [distribution.filter(b => b.liquidityX > 0 && b.liquidityY > 0)]: the
    callback throws on a [null] element. *)
Fixpoint filter_active (distribution : list (option BinDistribution.t))
  : JS.completion (list (option BinDistribution.t)) :=
  match distribution with
  | [] => JS.Normal []
  | None :: _ => JS.Throw (JS.TypeError "Cannot read properties of null: b.liquidityX")
  | Some b :: rest =>
      let keep := JS.gt (BinDistribution.liquidityX b) (JS.of_Z 0)
                  && JS.gt (BinDistribution.liquidityY b) (JS.of_Z 0) in
      match filter_active rest with
      | JS.Normal activeBins => JS.Normal (if keep then Some b :: activeBins else activeBins)
      | JS.Throw e => JS.Throw e
      end
  end.

Definition findActiveBin (distribution : option (list (option BinDistribution.t)))
  : JS.completion JS.number :=
  match distribution with
  | None => JS.Throw (JS.TypeError "Cannot read properties of undefined: distribution.length")
  | Some distribution =>
      if Nat.eqb (List.length distribution) 0 then JS.Normal (JS.of_Z 0)
      else
        match filter_active distribution with
        | JS.Throw e => JS.Throw e
        | JS.Normal activeBins =>
            if Nat.ltb 0 (List.length activeBins)
            then binId_of "activeBins[0].binId" (nth_error activeBins 0)
            else binId_of "distribution[...].binId"
                   (nth_error distribution (JS.floor_half (List.length distribution)))
        end
  end.

(** The body of the loop of [generateRebalanceRecommendations]: the
    [try]/[catch] statement run for one element of [positions].  The first
    statement of the [try] block reads [position.binDistribution] and the
    [catch] block reads [position.id] for its message: on a [null] or
    [undefined] element both throw, the second one out of the loop. *)
Definition analyzePosition (element : option RawPosition.t)
  : JS.Eff (JS.World * list RebalanceRecommendation.t) unit :=
  JS.try_catch
    (position <- JS.lift (JS.object_of "position.binDistribution" element) ;;
     let binDistribution := RawPosition.binDistribution position in
     activeBinId <- JS.lift (findActiveBin binDistribution) ;;
     let isOutOfRange :=
       JS.lt activeBinId (RawPosition.lowerBinId position)
       || JS.gt activeBinId (RawPosition.upperBinId position) in
     JS.when isOutOfRange
       (stamp <- in_world JS.Date_now ;;
        push
          {| RebalanceRecommendation.id :=
               Some ("rebalance_" ++ RawPosition.id position ++ "_"
                     ++ JS.string_of_Z stamp);
             RebalanceRecommendation.positionId := RawPosition.id position;
             RebalanceRecommendation.type := RebalanceRecommendation.rebalance;
             RebalanceRecommendation.priority := RebalanceRecommendation.high;
             RebalanceRecommendation.reason :=
               [JS.Lit "Position is out of active range. Current active bin: ";
                JS.Interp activeBinId;
                JS.Lit ", Your range: ";
                JS.Interp (RawPosition.lowerBinId position);
                JS.Lit "-";
                JS.Interp (RawPosition.upperBinId position)];
             RebalanceRecommendation.expectedImpact :=
               {| RebalanceRecommendation.feesIncrease := JS.Fin 5.0;
                  RebalanceRecommendation.ilReduction := JS.Fin 2.0;
                  RebalanceRecommendation.confidenceScore := JS.Fin 0.85 |};
             RebalanceRecommendation.suggestedAction :=
               [JS.Lit "Rebalance to include active bin"];
             RebalanceRecommendation.executionParams :=
               Some {| ExecutionParams.type := ExecutionParams.shift_up;
                       ExecutionParams.currentRange := None;
                       ExecutionParams.suggestedRange :=
                         Some {| PriceRange.min := JS.sub activeBinId (JS.of_Z 10);
                                 PriceRange.max := JS.add activeBinId (JS.of_Z 10);
                                 PriceRange.lowerBinId :=
                                   Some (JS.sub activeBinId (JS.of_Z 10));
                                 PriceRange.upperBinId :=
                                   Some (JS.add activeBinId (JS.of_Z 10)) |} |} |}) ;;;
     JS.when (JS.gt (JS.ToNumber (RawPosition.unclaimedFees position)) (JS.of_Z 50))
       (stamp <- in_world JS.Date_now ;;
        fees <- JS.lift (JS.toFixed "position.unclaimedFees"
                           (RawPosition.unclaimedFees position) 2) ;;
        push
          {| RebalanceRecommendation.id :=
               Some ("fees_" ++ RawPosition.id position ++ "_"
                     ++ JS.string_of_Z stamp);
             RebalanceRecommendation.positionId := RawPosition.id position;
             RebalanceRecommendation.type := RebalanceRecommendation.expand;
             RebalanceRecommendation.priority := RebalanceRecommendation.medium;
             RebalanceRecommendation.reason :=
               [JS.Lit "High unclaimed fees: $"; fees];
             RebalanceRecommendation.expectedImpact :=
               {| RebalanceRecommendation.feesIncrease := JS.Fin 2.5;
                  RebalanceRecommendation.ilReduction := JS.Fin 0.5;
                  RebalanceRecommendation.confidenceScore := JS.Fin 0.75 |};
             RebalanceRecommendation.suggestedAction :=
               [JS.Lit "Consider compounding fees back into position"];
             RebalanceRecommendation.executionParams :=
               Some {| ExecutionParams.type := ExecutionParams.add_liquidity;
                       ExecutionParams.currentRange := None;
                       ExecutionParams.suggestedRange := None |} |}) ;;;
     JS.when (JS.lt (JS.ToNumber (RawPosition.pnlPercentage position)) (JS.of_Z (-10)))
       (stamp <- in_world JS.Date_now ;;
        loss <- JS.lift (JS.toFixed "position.pnlPercentage"
                           (RawPosition.pnlPercentage position) 2) ;;
        push
          {| RebalanceRecommendation.id :=
               Some ("close_" ++ RawPosition.id position ++ "_"
                     ++ JS.string_of_Z stamp);
             RebalanceRecommendation.positionId := RawPosition.id position;
             RebalanceRecommendation.type := RebalanceRecommendation.exit;
             RebalanceRecommendation.priority := RebalanceRecommendation.high;
             RebalanceRecommendation.reason :=
               [JS.Lit "Significant loss: "; loss; JS.Lit "%"];
             RebalanceRecommendation.expectedImpact :=
               {| RebalanceRecommendation.feesIncrease := JS.of_Z 0;
                  RebalanceRecommendation.ilReduction := JS.Fin 10.0;
                  RebalanceRecommendation.confidenceScore := JS.Fin 0.9 |};
             RebalanceRecommendation.suggestedAction :=
               [JS.Lit "Consider closing position and reallocating capital"];
             RebalanceRecommendation.executionParams :=
               Some {| ExecutionParams.type := ExecutionParams.shift_down;
                       ExecutionParams.currentRange := None;
                       ExecutionParams.suggestedRange := None |} |}))
    (fun error =>
       position <- JS.lift (JS.object_of "position.id" element) ;;
       in_world (JS.console_error
                   ("Error analyzing position " ++ RawPosition.id position ++ ":")
                   error)).

(** [positions] is the array as it arrives: an element is a position object
    ([Some]) or [null]/[undefined] ([None]). *)
Definition generateRebalanceRecommendations (positions : list (option RawPosition.t))
  : JS.Eff JS.World (list RebalanceRecommendation.t) :=
  returning_array (JS.for_of positions analyzePosition).

Record config_t : Type := {
  risk : JS.number;
  expectedReturn : JS.number;
  apr : JS.number;
  binRange : JS.number
}.

Definition strategyConfigs : list (string * config_t) :=
  [("narrow", {| risk := JS.Fin 0.8; expectedReturn := JS.Fin 0.12;
                 apr := JS.of_Z 65; binRange := JS.of_Z 5 |});
   ("wide", {| risk := JS.Fin 0.3; expectedReturn := JS.Fin 0.06;
               apr := JS.of_Z 25; binRange := JS.of_Z 50 |});
   ("balanced", {| risk := JS.Fin 0.5; expectedReturn := JS.Fin 0.09;
                   apr := JS.of_Z 45; binRange := JS.of_Z 20 |})].

(** [timeHorizon] is [None] when the argument is omitted; the unused
    [marketConditions] parameter is dropped. *)
Definition simulateStrategy (position : RawPosition.t) (strategy : string)
  (timeHorizon : option string) : JS.Eff JS.World StrategySimulationResult.t :=
  let timeHorizon := match timeHorizon with Some t => t | None => "30d" end in
  let config := JS.lookup strategyConfigs strategy in
  config_expectedReturn <- JS.lift (JS.get "config.expectedReturn" config expectedReturn) ;;
  config_risk <- JS.lift (JS.get "config.risk" config risk) ;;
  JS.ret
    {| StrategySimulationResult.strategy := strategy;
       StrategySimulationResult.expectedReturn := config_expectedReturn;
       StrategySimulationResult.risk := config_risk;
       StrategySimulationResult.timeHorizon := timeHorizon;
       StrategySimulationResult.confidence := JS.Fin 0.75;
       StrategySimulationResult.riskScore := config_risk;
       StrategySimulationResult.details :=
         {| StrategySimulationResult.feesProjected :=
              JS.mul (JS.num config_expectedReturn) (JS.Fin 0.8);
            StrategySimulationResult.ilProjected :=
              if String.eqb strategy "narrow" then JS.Fin 0.05 else JS.Fin 0.02;
            StrategySimulationResult.capitalEfficiency :=
              if String.eqb strategy "narrow" then JS.Fin 0.95 else JS.Fin 0.6 |} |}.

(** [generateMockBinDistribution], for integer bin ids (the same text is in
    sarosSdkService.ts).  The answer is [None] when the loop counter stops
    advancing before it passes [upperBin]: the loop then pushes without end
    and the call returns no array. *)
Definition generateMockBinDistribution (lowerBin upperBin activeBin : Z)
  : option (JS.Eff JS.World (list BinDistribution.t)) :=
  let range := JS.sub (JS.of_Z upperBin) (JS.of_Z lowerBin) in
  match JS.counter_values lowerBin upperBin with
  | None => None
  | Some counters =>
  Some (returning_array
    (JS.for_of counters (fun i =>
       let distanceFromActive := JS.Math_abs (JS.sub (JS.of_Z i) (JS.of_Z activeBin)) in
       let liquidity :=
         JS.Math_max (JS.sub (JS.of_Z 1000) (JS.mul distanceFromActive (JS.of_Z 50)))
                     (JS.of_Z 100) in
       r <- in_world JS.Math_random ;;
       push
         {| BinDistribution.id := JS.of_Z i;
            BinDistribution.binId := JS.of_Z i;
            BinDistribution.price :=
              JS.add (JS.of_Z 100)
                     (JS.mul (JS.sub (JS.of_Z i) (JS.of_Z activeBin)) (JS.Fin 0.2));
            BinDistribution.liquidityX :=
              if JS.lt (JS.of_Z i) (JS.of_Z activeBin) then liquidity else JS.of_Z 0;
            BinDistribution.liquidityY :=
              if JS.gt (JS.of_Z i) (JS.of_Z activeBin) then liquidity
              else if JS.strict_eq (JS.of_Z i) (JS.of_Z activeBin)
                   then JS.div liquidity (JS.of_Z 2)
                   else JS.of_Z 0;
            BinDistribution.feeAPR := JS.add (JS.of_Z 45) (JS.mul r (JS.of_Z 20));
            BinDistribution.percentage :=
              Some (JS.mul (JS.div liquidity (JS.mul range (JS.of_Z 575)))
                           (JS.of_Z 100)) |})))
  end.

(** The loop of [getHistoricalData]: [countdown] lists the values of the
    counter [i], and [basePrice] is the variable the loop updates. *)
Fixpoint priceWalk (countdown : list Z) (now intervalMs : Z) (basePrice : JS.number)
  : JS.Eff (JS.World * list HistoricalPriceData.t) unit :=
  match countdown with
  | [] => JS.ret tt
  | i :: rest =>
      let timestamp := (now - i * intervalMs)%Z in
      r1 <- in_world JS.Math_random ;;
      let priceChange := JS.mul (JS.sub r1 (JS.Fin 0.5)) (JS.of_Z 3) in
      let basePrice := JS.Math_max (JS.add basePrice priceChange) (JS.of_Z 1) in
      r2 <- in_world JS.Math_random ;;
      r3 <- in_world JS.Math_random ;;
      push
        {| HistoricalPriceData.timestamp := JS.of_Z timestamp;
           HistoricalPriceData.price := basePrice;
           HistoricalPriceData.volume :=
             JS.add (JS.of_Z 500000) (JS.mul r2 (JS.of_Z 1000000));
           HistoricalPriceData.liquidity :=
             JS.add (JS.of_Z 2000000) (JS.mul r3 (JS.of_Z 3000000)) |} ;;;
      priceWalk rest now intervalMs basePrice
  end.

(** The number of intervals and their length for a [timeframe]. *)
Definition intervals (timeframe : string) : Z :=
  if String.eqb timeframe "1h" then 24
  else if String.eqb timeframe "1d" then 30 else 90.

Definition intervalMs (timeframe : string) : Z :=
  if String.eqb timeframe "1h" then 3600000 else 86400000.

Definition getHistoricalData (pair timeframe : string)
  : JS.Eff JS.World (list HistoricalPriceData.t) :=
  now <- JS.Date_now ;;
  returning_array
    (priceWalk (rev (Z_upto 0 (intervals timeframe))) now (intervalMs timeframe)
               (JS.of_Z 100)).

End SarosApiService.

(** ** The SarosApiService of src/services/walletService.ts

    Its [calculateHealth], [findActiveBin], [generateRebalanceRecommendations]
    and [simulateStrategy] repeat the text of the REST variant above; what it
    adds is the conversion of pool positions and the portfolio roll-up. *)

Module WalletSarosApiService.

Record SarosBinPosition : Type := {
  bin_pair_id : string;
  bin_id : JS.number;
  token_x_amount : JS.number;
  token_y_amount : JS.number;
  liquidity_shares : JS.number;
  price : JS.number
}.

Record SarosPoolPosition : Type := {
  pair_id : string;
  total_liquidity : JS.number;
  total_token_x : JS.number;
  total_token_y : JS.number;
  bin_step : JS.number;
  active_bin_id : JS.number;
  fees_24h : JS.number;
  apr_24h : JS.number
}.

Definition calculateHealth := SarosApiService.calculateHealth.
Definition findActiveBin := SarosApiService.findActiveBin.
Definition generateRebalanceRecommendations :=
  SarosApiService.generateRebalanceRecommendations.
Definition simulateStrategy := SarosApiService.simulateStrategy.

(** [binPositions] is [None] when the payload is missing or has no
    [positions] array. *)
Definition getBinDistributionForPosition (pairId : string)
  (binPositions : option (list SarosBinPosition)) : list BinDistribution.t :=
  match binPositions with
  | None => []
  | Some positions =>
      let positionBins := filter (fun bp => String.eqb (bin_pair_id bp) pairId) positions in
      map (fun bin =>
             {| BinDistribution.id := bin_id bin;
                BinDistribution.binId := bin_id bin;
                BinDistribution.price := price bin;
                BinDistribution.liquidityX := token_x_amount bin;
                BinDistribution.liquidityY := token_y_amount bin;
                BinDistribution.feeAPR := JS.of_Z 0;
                BinDistribution.percentage :=
                  Some (JS.div (liquidity_shares bin) (JS.of_Z 10000)) |})
          positionBins
  end.

(** [Math.min(...xs)] and [Math.max(...xs)] *)
Definition Math_min_of (xs : list JS.number) : JS.number :=
  fold_left JS.Math_min xs JS.PosInf.

Definition Math_max_of (xs : list JS.number) : JS.number :=
  fold_left JS.Math_max xs JS.NegInf.

(** The body of the loop of [convertPoolPositionsToPositions]. *)
Definition convertPoolPosition (poolPos : SarosPoolPosition)
  (binPositions : option (list SarosBinPosition)) : Position.t :=
  let currentValue := JS.add (total_token_x poolPos) (total_token_y poolPos) in
  let binDistribution := getBinDistributionForPosition (pair_id poolPos) binPositions in
  let lowerBinId :=
    if Nat.ltb 0 (List.length binDistribution)
    then Math_min_of (map BinDistribution.binId binDistribution)
    else JS.sub (active_bin_id poolPos) (JS.of_Z 10) in
  let upperBinId :=
    if Nat.ltb 0 (List.length binDistribution)
    then Math_max_of (map BinDistribution.binId binDistribution)
    else JS.add (active_bin_id poolPos) (JS.of_Z 10) in
  {| Position.id := pair_id poolPos;
     Position.liquidity := total_liquidity poolPos;
     Position.totalLiquidity := total_liquidity poolPos;
     Position.value := currentValue;
     Position.currentValue := currentValue;
     Position.change24h := JS.of_Z 0;
     Position.apy := apr_24h poolPos;
     Position.currentAPY := apr_24h poolPos;
     Position.apr := apr_24h poolPos;
     Position.feesEarned := fees_24h poolPos;
     Position.fees24h := fees_24h poolPos;
     Position.feesTotal := fees_24h poolPos;
     Position.unclaimedFees := fees_24h poolPos;
     Position.pnl := JS.sub currentValue (total_liquidity poolPos);
     Position.pnlPercentage :=
       JS.mul (JS.div (JS.sub currentValue (total_liquidity poolPos))
                      (total_liquidity poolPos))
              (JS.of_Z 100);
     Position.binRange := {| Position.lower := lowerBinId;
                             Position.upper := upperBinId;
                             Position.active := active_bin_id poolPos |};
     Position.lowerBinId := lowerBinId;
     Position.upperBinId := upperBinId;
     Position.distribution := {| Position.tokenA := total_token_x poolPos;
                                 Position.tokenB := total_token_y poolPos |};
     Position.priceRange :=
       {| Position.min := JS.mul lowerBinId (bin_step poolPos);
          Position.max := JS.mul upperBinId (bin_step poolPos);
          Position.current := JS.mul (active_bin_id poolPos) (bin_step poolPos) |};
     Position.strategy := "active";
     Position.health := calculateHealth (active_bin_id poolPos) lowerBinId upperBinId;
     Position.binCount := JS.add (JS.sub upperBinId lowerBinId) (JS.of_Z 1);
     Position.binDistribution := binDistribution;
     Position.impermanentLoss := None |}.

(** With pool positions of the declared type nothing in the loop body can
    throw, so every pool position is converted and pushed. *)
Definition convertPoolPositionsToPositions (poolPositions : list SarosPoolPosition)
  (binPositions : option (list SarosBinPosition)) : list Position.t :=
  map (fun poolPos => convertPoolPosition poolPos binPositions) poolPositions.

Definition averageAPR := SarosSdkService.averageAPR.

(** The roll-up has the text of [SarosSdkService.calculatePortfolioData]; the
    randomly generated [performanceData] is not part of the record. *)
Definition calculatePortfolioData := SarosSdkService.calculatePortfolioData.

End WalletSarosApiService.

(** ** RealSarosService (the price-domain variant) *)

Module RealSarosService.

(** [v || 0]: the falsy numbers are [0] and [NaN]; [None] is [undefined]. *)
Definition or_zero (v : option JS.number) : JS.number :=
  match v with
  | None | Some JS.NaN => JS.of_Z 0
  | Some il => if JS.strict_eq il (JS.of_Z 0) then JS.of_Z 0 else il
  end.

(** The roll-up inside [getPortfolioData], for the positions that
    [generateMockPositions] returned. *)
Definition avgApy (positions : list Position.t) : JS.number :=
  if Nat.ltb 0 (List.length positions)
  then JS.div (reduce_sum Position.currentAPY positions) (JS.of_nat (List.length positions))
  else JS.of_Z 0.

Definition getPortfolioData (positions : list Position.t) (totalValueChange : JS.number)
  : PortfolioData.t :=
  let totalValue := reduce_sum Position.totalLiquidity positions in
  let totalFeesEarned := reduce_sum Position.feesTotal positions in
  let avgApy := avgApy positions in
  {| PortfolioData.totalValue := totalValue;
     PortfolioData.totalValueChange := totalValueChange;
     PortfolioData.totalFeesEarned := totalFeesEarned;
     PortfolioData.totalIL :=
       Some (reduce_sum (fun pos => or_zero (Position.impermanentLoss pos)) positions);
     PortfolioData.totalPnL := None;
     PortfolioData.totalPnLPercentage := None;
     PortfolioData.avgApy := avgApy;
     PortfolioData.positions := positions;
     PortfolioData.summary := None |}.

(** [const { current, min, max } = position.priceRange] *)
Definition priceRange_of (position : RawPosition.t) : JS.completion Position.priceRange_t :=
  match RawPosition.priceRange position with
  | Some range => JS.Normal range
  | None => JS.Throw (JS.TypeError "Cannot destructure position.priceRange")
  end.

Definition priorityOrder (priority : RebalanceRecommendation.priority_t) : JS.number :=
  match priority with
  | RebalanceRecommendation.high => JS.of_Z 3
  | RebalanceRecommendation.medium => JS.of_Z 2
  | RebalanceRecommendation.low => JS.of_Z 1
  end.

(** The body of the loop of [generateRebalanceRecommendations]: the
    [try]/[catch] statement run for one element of [positions].  The [try]
    block starts by reading [position.priceRange] and the [catch] block reads
    [position.id] for its message: on a [null] or [undefined] element both
    throw, the second one out of the loop. *)
Definition analyzePosition (element : option RawPosition.t)
  : JS.Eff (JS.World * list RebalanceRecommendation.t) unit :=
  JS.try_catch
    (position <- JS.lift (JS.object_of "position.priceRange" element) ;;
     range <- JS.lift (priceRange_of position) ;;
     let current := Position.current range in
     let min := Position.min range in
     let max := Position.max range in
     let rangeUtilization := JS.div (JS.sub current min) (JS.sub max min) in
     if JS.lt rangeUtilization (JS.Fin 0.1) then
       push
         {| RebalanceRecommendation.id := None;
            RebalanceRecommendation.positionId := RawPosition.id position;
            RebalanceRecommendation.type := RebalanceRecommendation.rebalance;
            RebalanceRecommendation.priority := RebalanceRecommendation.high;
            RebalanceRecommendation.reason :=
              [JS.Lit "Price near lower bound - consider shifting range up"];
            RebalanceRecommendation.expectedImpact :=
              {| RebalanceRecommendation.feesIncrease := JS.Fin 0.4;
                 RebalanceRecommendation.ilReduction := JS.Fin 0.2;
                 RebalanceRecommendation.confidenceScore := JS.Fin 0.85 |};
            RebalanceRecommendation.suggestedAction :=
              [JS.Lit "Shift range up to ";
               JS.Fixed (JS.mul current (JS.Fin 0.95)) 2;
               JS.Lit " - ";
               JS.Fixed (JS.mul current (JS.Fin 1.15)) 2];
            RebalanceRecommendation.executionParams :=
              Some {| ExecutionParams.type := ExecutionParams.shift_up;
                      ExecutionParams.currentRange :=
                        Some {| PriceRange.min := min; PriceRange.max := max;
                                PriceRange.lowerBinId := None;
                                PriceRange.upperBinId := None |};
                      ExecutionParams.suggestedRange :=
                        Some {| PriceRange.min := JS.mul current (JS.Fin 0.95);
                                PriceRange.max := JS.mul current (JS.Fin 1.15);
                                PriceRange.lowerBinId := None;
                                PriceRange.upperBinId := None |} |} |}
     else if JS.gt rangeUtilization (JS.Fin 0.9) then
       push
         {| RebalanceRecommendation.id := None;
            RebalanceRecommendation.positionId := RawPosition.id position;
            RebalanceRecommendation.type := RebalanceRecommendation.rebalance;
            RebalanceRecommendation.priority := RebalanceRecommendation.high;
            RebalanceRecommendation.reason :=
              [JS.Lit "Price near upper bound - consider shifting range down"];
            RebalanceRecommendation.expectedImpact :=
              {| RebalanceRecommendation.feesIncrease := JS.Fin 0.4;
                 RebalanceRecommendation.ilReduction := JS.Fin 0.2;
                 RebalanceRecommendation.confidenceScore := JS.Fin 0.85 |};
            RebalanceRecommendation.suggestedAction :=
              [JS.Lit "Shift range down to ";
               JS.Fixed (JS.mul current (JS.Fin 0.85)) 2;
               JS.Lit " - ";
               JS.Fixed (JS.mul current (JS.Fin 1.05)) 2];
            RebalanceRecommendation.executionParams :=
              Some {| ExecutionParams.type := ExecutionParams.shift_down;
                      ExecutionParams.currentRange :=
                        Some {| PriceRange.min := min; PriceRange.max := max;
                                PriceRange.lowerBinId := None;
                                PriceRange.upperBinId := None |};
                      ExecutionParams.suggestedRange :=
                        Some {| PriceRange.min := JS.mul current (JS.Fin 0.85);
                                PriceRange.max := JS.mul current (JS.Fin 1.05);
                                PriceRange.lowerBinId := None;
                                PriceRange.upperBinId := None |} |} |}
     else if JS.lt rangeUtilization (JS.Fin 0.2) || JS.gt rangeUtilization (JS.Fin 0.8) then
       push
         {| RebalanceRecommendation.id := None;
            RebalanceRecommendation.positionId := RawPosition.id position;
            RebalanceRecommendation.type := RebalanceRecommendation.expand;
            RebalanceRecommendation.priority := RebalanceRecommendation.medium;
            RebalanceRecommendation.reason :=
              [JS.Lit "Consider adding liquidity to active bins"];
            RebalanceRecommendation.expectedImpact :=
              {| RebalanceRecommendation.feesIncrease := JS.Fin 0.2;
                 RebalanceRecommendation.ilReduction := JS.Fin 0.1;
                 RebalanceRecommendation.confidenceScore := JS.Fin 0.7 |};
            RebalanceRecommendation.suggestedAction :=
              [JS.Lit "Add liquidity to bins closer to current price"];
            RebalanceRecommendation.executionParams := None |}
     else JS.ret tt)
    (fun error =>
       position <- JS.lift (JS.object_of "position.id" element) ;;
       in_world (JS.console_error
                   ("Error generating recommendation for " ++ RawPosition.id position ++ ":")
                   error)).

(** The array [recommendations] as the loop leaves it, before the sort. *)
Definition collectRecommendations (positions : list (option RawPosition.t))
  : JS.Eff JS.World (list RebalanceRecommendation.t) :=
  returning_array (JS.for_of positions analyzePosition).

(** The comparator [(a, b) => priorityOrder[b.priority] - priorityOrder[a.priority]]. *)
Definition byPriority (a b : RebalanceRecommendation.t) : JS.number :=
  JS.sub (priorityOrder (RebalanceRecommendation.priority b))
         (priorityOrder (RebalanceRecommendation.priority a)).

Definition generateRebalanceRecommendations (positions : list (option RawPosition.t))
  : JS.Eff JS.World (list RebalanceRecommendation.t) :=
  recommendations <- collectRecommendations positions ;;
  JS.ret (JS.Array_sort byPriority recommendations).

Record config_t : Type := {
  rangeMultiplier : JS.number;
  expectedAPY : JS.number;
  riskScore : JS.number
}.

Definition strategyConfigs : list (string * config_t) :=
  [("conservative", {| rangeMultiplier := JS.Fin 0.2; expectedAPY := JS.of_Z 15;
                       riskScore := JS.of_Z 2 |});
   ("balanced", {| rangeMultiplier := JS.Fin 0.1; expectedAPY := JS.of_Z 25;
                   riskScore := JS.of_Z 5 |});
   ("aggressive", {| rangeMultiplier := JS.Fin 0.05; expectedAPY := JS.of_Z 40;
                     riskScore := JS.of_Z 8 |})].

Definition estimateVolatility (position : RawPosition.t) : JS.completion JS.number :=
  match priceRange_of position with
  | JS.Throw e => JS.Throw e
  | JS.Normal range =>
      let rangeSize := JS.div (JS.sub (Position.max range) (Position.min range))
                              (Position.current range) in
      JS.Normal (JS.Math_min (JS.mul rangeSize (JS.of_Z 2)) (JS.Fin 0.5))
  end.

(** [c.toUpperCase()] on the letters a to z; other characters are kept. *)
Definition toUpperCase (c : ascii) : ascii :=
  let n := nat_of_ascii c in
  if Nat.leb 97 n && Nat.leb n 122 then ascii_of_nat (n - 32) else c.

(** [strategy.charAt(0).toUpperCase() + strategy.slice(1)] *)
Definition capitalize (strategy : string) : string :=
  match strategy with
  | EmptyString => EmptyString
  | String c rest => String (toUpperCase c) rest
  end.

(** [timeHorizon] is [None] when the argument is omitted; the unused [amount]
    parameter is dropped. *)
Definition simulateStrategy (position : RawPosition.t) (strategy : string)
  (timeHorizon : option string) : JS.Eff JS.World StrategySimulationResult.t :=
  JS.try_catch
    (let config := JS.lookup strategyConfigs strategy in
     let baseValue := RawPosition.totalLiquidity position in
     currentVolatility <- JS.lift (estimateVolatility position) ;;
     config_expectedAPY <- JS.lift (JS.get "config.expectedAPY" config expectedAPY) ;;
     config_rangeMultiplier <-
       JS.lift (JS.get "config.rangeMultiplier" config rangeMultiplier) ;;
     let adjustedAPY :=
       JS.mul (JS.num config_expectedAPY)
              (JS.sub (JS.of_Z 1)
                      (JS.mul currentVolatility (JS.num config_rangeMultiplier))) in
     config_riskScore <- JS.lift (JS.get "config.riskScore" config riskScore) ;;
     r <- JS.Math_random ;;
     JS.ret
       {| StrategySimulationResult.strategy := capitalize strategy;
          StrategySimulationResult.expectedReturn :=
            Some (JS.div (JS.Math_max (JS.of_Z 5) (JS.Math_min adjustedAPY (JS.of_Z 100)))
                         (JS.of_Z 100));
          StrategySimulationResult.risk := None;
          StrategySimulationResult.timeHorizon :=
            match timeHorizon with
            | Some (String c s) => String c s
            | _ => "30d"
            end;
          StrategySimulationResult.confidence := JS.add (JS.Fin 0.75) (JS.mul r (JS.Fin 0.2));
          StrategySimulationResult.riskScore := config_riskScore;
          StrategySimulationResult.details :=
            {| StrategySimulationResult.feesProjected :=
                 JS.mul (JS.div (JS.mul baseValue adjustedAPY) (JS.of_Z 100)) (JS.Fin 0.25);
               StrategySimulationResult.ilProjected :=
                 JS.mul (JS.mul currentVolatility (JS.num config_rangeMultiplier)) baseValue;
               StrategySimulationResult.capitalEfficiency :=
                 JS.div (JS.div (JS.num config_expectedAPY) (JS.of_Z 100))
                        (JS.num config_riskScore) |} |})
    (fun error =>
       JS.console_error "Error simulating strategy:" error ;;;
       JS.throw (JS.Error ("Strategy simulation failed: " ++ JS.message_of error))).

(** [calculateValueChange]: the difference of the values of the last two
    points; reading a point that is not there would throw. *)
Definition point_value (what : string) (point : option PerformanceDataPoint.t)
  : JS.completion JS.number :=
  match point with
  | Some p => JS.Normal (PerformanceDataPoint.value p)
  | None => JS.Throw (JS.TypeError ("Cannot read properties of undefined: " ++ what))
  end.

Definition calculateValueChange (performanceData : list PerformanceDataPoint.t)
  : JS.completion JS.number :=
  if Nat.ltb (List.length performanceData) 2 then JS.Normal (JS.of_Z 0)
  else
    let latest := nth_error performanceData (List.length performanceData - 1) in
    let previous := nth_error performanceData (List.length performanceData - 2) in
    match point_value "latest.value" latest with
    | JS.Throw e => JS.Throw e
    | JS.Normal latest_value =>
        match point_value "previous.value" previous with
        | JS.Throw e => JS.Throw e
        | JS.Normal previous_value => JS.Normal (JS.sub latest_value previous_value)
        end
    end.

End RealSarosService.

(** ** The dashboard (src/components/SarosDLMMDashboard.tsx) *)

Module Dashboard.

Record portfolioMetrics_t : Type := {
  totalPositions : nat;
  activePositions : nat;
  totalFeesThisWeek : JS.number;
  avgHealthScore : JS.number;
  portfolioHealth : Health
}.

Definition healthScores (health : Health) : JS.number :=
  match health with
  | Excellent => JS.of_Z 4
  | Good => JS.of_Z 3
  | Fair => JS.of_Z 2
  | Poor => JS.of_Z 1
  end.

(** The memoized [portfolioMetrics] of the dashboard. *)
Definition portfolioMetrics (portfolioData : PortfolioData.t) : portfolioMetrics_t :=
  let positions := PortfolioData.positions portfolioData in
  let totalPositions := List.length positions in
  let activePositions :=
    List.length (filter (fun p => match Position.health p with
                                  | Poor => false
                                  | _ => true
                                  end) positions) in
  let totalFeesThisWeek :=
    reduce_sum (fun pos => JS.mul (RealSarosService.or_zero (Some (Position.feesEarned pos)))
                                  (JS.Fin 0.3)) positions in
  let avgHealthScore :=
    JS.div (reduce_sum (fun pos => healthScores (Position.health pos)) positions)
           (JS.Math_max (JS.of_nat totalPositions) (JS.of_Z 1)) in
  {| totalPositions := totalPositions;
     activePositions := activePositions;
     totalFeesThisWeek := totalFeesThisWeek;
     avgHealthScore := avgHealthScore;
     portfolioHealth :=
       if JS.ge avgHealthScore (JS.Fin 3.5) then Excellent
       else if JS.ge avgHealthScore (JS.Fin 2.5) then Good
       else if JS.ge avgHealthScore (JS.Fin 1.5) then Fair
       else Poor |}.

End Dashboard.

(** ** Auxiliary definitions of the statements and proofs

    The health ratio over exact rationals, a division that reports a zero
    divisor, what a loop leaves in the array, and the like. *)

(** An array all of whose elements are objects. *)
Definition objects {A : Type} (xs : list A) : list (option A) := map Some xs.

(** A loop body over array elements, at an element that is an object. *)
Definition at_object {A B : Type} (body : option A -> B) (x : A) : B := body (Some x).

(** The smaller of two rationals. *)
Definition minQ (x y : Q) : Q := if JS.Qltb y x then y else x.

(** [minDistance = min(activeBin - lowerBin, upperBin - activeBin)] *)
Definition minDistance (activeBin lowerBin upperBin : Q) : Q :=
  minQ (activeBin - lowerBin) (upperBin - activeBin).

(** The thresholds on the health ratio: above 30 Excellent, above 20 Good,
    above 10 Fair, else Poor. *)
Definition gradeOfRatio (healthRatio : Q) : Health :=
  if JS.Qltb 30 healthRatio then Excellent
  else if JS.Qltb 20 healthRatio then Good
  else if JS.Qltb 10 healthRatio then Fair
  else Poor.

(** A division that reports a zero divisor instead of answering [NaN] or an
    infinity. *)
Definition checked_div (a b : JS.number) : option JS.number :=
  if JS.strict_eq b (JS.of_Z 0) then None else Some (JS.div a b).

(** The guarded average of the roll-ups,
    [positions.length > 0 ? sum / positions.length : 0], with its division
    checked. *)
Definition checked_average (f : Position.t -> JS.number) (positions : list Position.t)
  : option JS.number :=
  if Nat.ltb 0 (List.length positions)
  then checked_div (reduce_sum f positions) (JS.of_nat (List.length positions))
  else Some (JS.of_Z 0).

(** What a run of effectful code over a world and an array leaves behind. *)
Definition pushed {R A : Type} (r : JS.completion A * (JS.World * list R)) : list R :=
  snd (snd r).

Definition world_after {R A : Type} (r : JS.completion A * (JS.World * list R))
  : JS.World :=
  fst (snd r).

(** A computation is framed when it only ever appends to the array: started
    with [acc] in the array it completes as it does from the empty array,
    with [acc] in front of what it pushed. *)
Definition framed {R A : Type} (m : JS.Eff (JS.World * list R) A) : Prop :=
  forall w acc,
    m (w, acc) = (fst (m (w, [])),
                  (world_after (m (w, [])), (acc ++ pushed (m (w, [])))%list)).


(** [name] is an own key of the profile table. *)
Definition known {A : Type} (table : list (string * A)) (name : string) : bool :=
  existsb (fun kv => String.eqb name (fst kv)) table.

(** The type and priority of each recommendation of a list. *)
Definition kinds (recs : list RebalanceRecommendation.t)
  : list (RebalanceRecommendation.type_t * RebalanceRecommendation.priority_t) :=
  map (fun r => (RebalanceRecommendation.type r, RebalanceRecommendation.priority r)) recs.

(** ** Sample inputs *)

(** A clock that reads 1000 and advances by one millisecond per reading. *)
Definition world0 : JS.World :=
  {| JS.now := fun k => Z.of_nat (1000 + k);
     JS.ticks := 0;
     JS.random := fun _ => 0.5;
     JS.draws := 0;
     JS.console := [] |}.

Definition bin (binId liquidityX liquidityY : Z) : BinDistribution.t :=
  {| BinDistribution.id := JS.of_Z binId;
     BinDistribution.binId := JS.of_Z binId;
     BinDistribution.price := JS.of_Z 100;
     BinDistribution.liquidityX := JS.of_Z liquidityX;
     BinDistribution.liquidityY := JS.of_Z liquidityY;
     BinDistribution.feeAPR := JS.of_Z 45;
     BinDistribution.percentage := None |}.

(** A position with the bin range 100 to 120 and the price range 95 to 105
    around 100. *)
Definition sample (id : string) (unclaimedFees pnlPercentage : JS.field)
  (binDistribution : option (list (option BinDistribution.t))) : RawPosition.t :=
  {| RawPosition.id := id;
     RawPosition.totalLiquidity := JS.of_Z 5000;
     RawPosition.priceRange :=
       Some {| Position.min := JS.of_Z 95; Position.max := JS.of_Z 105;
               Position.current := JS.of_Z 100 |};
     RawPosition.lowerBinId := JS.of_Z 100;
     RawPosition.upperBinId := JS.of_Z 120;
     RawPosition.unclaimedFees := unclaimedFees;
     RawPosition.pnlPercentage := pnlPercentage;
     RawPosition.binDistribution := binDistribution |}.

(** Range 100 to 120, active bin 50, unclaimed fees 75, PnL -15 %. *)
Definition outOfRangeLosing : RawPosition.t :=
  sample "p1" (JS.Number (JS.of_Z 75)) (JS.Number (JS.of_Z (-15)))
         (Some [Some (bin 50 10 10)]).

(** The fees arrived as the JSON string "75"; the distribution is empty, so
    the active bin resolves to 0. *)
Definition textFees : RawPosition.t :=
  sample "p2" (JS.NonNumber (JS.of_Z 75)) (JS.Number (JS.of_Z 0)) (Some []).

(** The same economics as [outOfRangeLosing], without a [binDistribution]. *)
Definition noDistribution : RawPosition.t :=
  sample "p3" (JS.Number (JS.of_Z 75)) (JS.Number (JS.of_Z (-15))) None.

(** The centred position of the mock portfolio: range 8388598 to 8388618,
    active bin 8388608, fees 25, PnL 5 %. *)
Definition centred : RawPosition.t :=
  {| RawPosition.id := "mock-sol-usdc";
     RawPosition.totalLiquidity := JS.of_Z 5000;
     RawPosition.priceRange :=
       Some {| Position.min := JS.of_Z 95; Position.max := JS.of_Z 105;
               Position.current := JS.of_Z 100 |};
     RawPosition.lowerBinId := JS.of_Z 8388598;
     RawPosition.upperBinId := JS.of_Z 8388618;
     RawPosition.unclaimedFees := JS.Number (JS.of_Z 25);
     RawPosition.pnlPercentage := JS.Number (JS.Fin 5.0);
     RawPosition.binDistribution :=
       Some [Some (bin 8388607 950 0); Some (bin 8388608 0 500);
             Some (bin 8388609 0 950)] |}.

(** A position with the price range 0 to 100 and the given current price. *)
Definition atPrice (id : string) (current : Z) : RawPosition.t :=
  {| RawPosition.id := id;
     RawPosition.totalLiquidity := JS.of_Z 1000;
     RawPosition.priceRange :=
       Some {| Position.min := JS.of_Z 0; Position.max := JS.of_Z 100;
               Position.current := JS.of_Z current |};
     RawPosition.lowerBinId := JS.of_Z 0;
     RawPosition.upperBinId := JS.of_Z 0;
     RawPosition.unclaimedFees := JS.Number (JS.of_Z 0);
     RawPosition.pnlPercentage := JS.Number (JS.of_Z 0);
     RawPosition.binDistribution := Some [] |}.

(** A pool position whose liquidity was withdrawn while one token unit is
    still accounted for. *)
Definition emptied : WalletSarosApiService.SarosPoolPosition :=
  {| WalletSarosApiService.pair_id := "SOL-USDC";
     WalletSarosApiService.total_liquidity := JS.of_Z 0;
     WalletSarosApiService.total_token_x := JS.of_Z 1;
     WalletSarosApiService.total_token_y := JS.of_Z 0;
     WalletSarosApiService.bin_step := JS.of_Z 10;
     WalletSarosApiService.active_bin_id := JS.of_Z 100;
     WalletSarosApiService.fees_24h := JS.of_Z 0;
     WalletSarosApiService.apr_24h := JS.of_Z 0 |}.

(** ** Further definitions of the statements

    Predicates on bins, ranges and worlds, and inputs of the examples. *)

(** The bin holds both tokens: the test of the filter in [findActiveBin]. *)
Definition straddled (b : BinDistribution.t) : bool :=
  JS.gt (BinDistribution.liquidityX b) (JS.of_Z 0)
  && JS.gt (BinDistribution.liquidityY b) (JS.of_Z 0).

(** The execution parameters of a recommendation that asks to move the bin
    range to ten bins on either side of [activeBin]. *)
Definition centred_on (activeBin : JS.number) : ExecutionParams.t :=
  {| ExecutionParams.type := ExecutionParams.shift_up;
     ExecutionParams.currentRange := None;
     ExecutionParams.suggestedRange :=
       Some {| PriceRange.min := JS.sub activeBin (JS.of_Z 10);
               PriceRange.max := JS.add activeBin (JS.of_Z 10);
               PriceRange.lowerBinId := Some (JS.sub activeBin (JS.of_Z 10));
               PriceRange.upperBinId := Some (JS.add activeBin (JS.of_Z 10)) |} |}.

(** The position with its price range replaced by a suggested one, at the
    same current price. *)
Definition re_ranged (position : RawPosition.t) (suggested : PriceRange.t)
  : RawPosition.t :=
  {| RawPosition.id := RawPosition.id position;
     RawPosition.totalLiquidity := RawPosition.totalLiquidity position;
     RawPosition.priceRange :=
       match RawPosition.priceRange position with
       | Some range =>
           Some {| Position.min := PriceRange.min suggested;
                   Position.max := PriceRange.max suggested;
                   Position.current := Position.current range |}
       | None => None
       end;
     RawPosition.lowerBinId := RawPosition.lowerBinId position;
     RawPosition.upperBinId := RawPosition.upperBinId position;
     RawPosition.unclaimedFees := RawPosition.unclaimedFees position;
     RawPosition.pnlPercentage := RawPosition.pnlPercentage position;
     RawPosition.binDistribution := RawPosition.binDistribution position |}.

(** The range a recommendation suggests, if it suggests one. *)
Definition suggestedRange_of (r : RebalanceRecommendation.t) : option PriceRange.t :=
  match RebalanceRecommendation.executionParams r with
  | Some params => ExecutionParams.suggestedRange params
  | None => None
  end.

(** Two worlds that differ at most in what the console shows. *)
Definition same_but_console (w1 w2 : JS.World) : Prop :=
  JS.now w1 = JS.now w2 /\ JS.ticks w1 = JS.ticks w2
  /\ JS.random w1 = JS.random w2 /\ JS.draws w1 = JS.draws w2.

(** [n] is [NaN] or a finite number between [lo] and [hi]. *)
Definition NaN_or_within (lo hi : Q) (n : JS.number) : Prop :=
  n = JS.NaN \/ exists q, n = JS.Fin q /\ lo <= q <= hi.

(** [n] is a finite number. *)
Definition finite (n : JS.number) : Prop := exists q, n = JS.Fin q.

(** The active bin that the engine resolves for [position] lies inside the
    position's bin range. *)
Definition in_range (position : RawPosition.t) : Prop :=
  exists activeBin,
    SarosApiService.findActiveBin (RawPosition.binDistribution position)
    = JS.Normal activeBin
    /\ JS.lt activeBin (RawPosition.lowerBinId position) = false
    /\ JS.gt activeBin (RawPosition.upperBinId position) = false.

(** What one turn of the loop of [generateMockBinDistribution] pushes for the
    counter [i]. *)
Definition mock_bin (i : Z) (b : BinDistribution.t) : Prop :=
  BinDistribution.binId b = JS.of_Z i /\ straddled b = false.

(** A portfolio that holds [positions]; its totals are not read by the
    dashboard metrics. *)
Definition holding (positions : list Position.t) : PortfolioData.t :=
  {| PortfolioData.totalValue := JS.of_Z 0;
     PortfolioData.totalValueChange := JS.of_Z 0;
     PortfolioData.totalFeesEarned := JS.of_Z 0;
     PortfolioData.totalIL := None;
     PortfolioData.totalPnL := None;
     PortfolioData.totalPnLPercentage := None;
     PortfolioData.avgApy := JS.of_Z 0;
     PortfolioData.positions := positions;
     PortfolioData.summary := None |}.

(** The score of a grade as a rational: Poor 1, Fair 2, Good 3, Excellent 4. *)
Definition scoreQ (health : Health) : Q := inject_Z (Z.of_nat (S (grade health))).

(** A grade between two grades. *)
Definition graded_between (lo hi health : Health) : Prop :=
  (grade lo <= grade health <= grade hi)%nat.

(** A bin of the pool "SOL-USDC" that holds liquidity on one side. *)
Definition heldBin (binId : Z) : WalletSarosApiService.SarosBinPosition :=
  {| WalletSarosApiService.bin_pair_id := "SOL-USDC";
     WalletSarosApiService.bin_id := JS.of_Z binId;
     WalletSarosApiService.token_x_amount := JS.of_Z 10;
     WalletSarosApiService.token_y_amount := JS.of_Z 0;
     WalletSarosApiService.liquidity_shares := JS.of_Z 100;
     WalletSarosApiService.price := JS.of_Z 100 |}.

(* ================================================================== *)
(** * Part II.  Properties                                             *)
(* ================================================================== *)

Local Close Scope string_scope.

From Stdlib Require Import Lqa Permutation.

(** ** Numbers *)

Module NumberFacts.

Lemma Qltb_true (x y : Q) : JS.Qltb x y = true <-> x < y.
Proof.
  unfold JS.Qltb. rewrite negb_true_iff. split; intro H.
  - apply Qnot_le_lt. intro Hle. apply Qle_bool_iff in Hle. congruence.
  - destruct (Qle_bool y x) eqn:E; [|reflexivity].
    apply Qle_bool_iff in E. exfalso. apply (Qlt_not_le _ _ H E).
Qed.

Lemma Qltb_false (x y : Q) : JS.Qltb x y = false <-> y <= x.
Proof.
  unfold JS.Qltb. rewrite negb_false_iff. apply Qle_bool_iff.
Qed.

Lemma Qeq_bool_false (x y : Q) : ~ x == y -> Qeq_bool x y = false.
Proof.
  intro H. destruct (Qeq_bool x y) eqn:E; [|reflexivity].
  apply Qeq_bool_iff in E. contradiction.
Qed.

Lemma Qeq_bool_true (x y : Q) : x == y -> Qeq_bool x y = true.
Proof. apply Qeq_bool_iff. Qed.

Lemma Math_min_Fin (x y : Q) : JS.Math_min (JS.Fin x) (JS.Fin y) = JS.Fin (minQ x y).
Proof. unfold JS.Math_min, minQ, JS.lt. destruct (JS.Qltb y x); reflexivity. Qed.

Lemma minQ_le_l (x y : Q) : minQ x y <= x.
Proof.
  unfold minQ. destruct (JS.Qltb y x) eqn:E.
  - apply Qltb_true in E. apply Qlt_le_weak, E.
  - apply Qle_refl.
Qed.

Lemma minQ_le_r (x y : Q) : minQ x y <= y.
Proof.
  unfold minQ. destruct (JS.Qltb y x) eqn:E.
  - apply Qle_refl.
  - apply Qltb_false in E. exact E.
Qed.

Lemma minQ_cases (x y : Q) : minQ x y = x \/ minQ x y = y.
Proof. unfold minQ. destruct (JS.Qltb y x); auto. Qed.

Lemma sub_Fin (x y : Q) : JS.sub (JS.Fin x) (JS.Fin y) = JS.Fin (x + - y).
Proof. reflexivity. Qed.

End NumberFacts.

(** ** The health classifier *)

Module HealthFacts.
Import NumberFacts.

Lemma unguarded_pos_range (a l u : Q) :
  l < u ->
  SarosApiService.calculateHealth (JS.Fin a) (JS.Fin l) (JS.Fin u)
  = gradeOfRatio (minDistance a l u / (u - l) * 100).
Proof.
  intro H. unfold SarosApiService.calculateHealth.
  rewrite !sub_Fin, Math_min_Fin.
  unfold JS.div. rewrite Qeq_bool_false by lra.
  reflexivity.
Qed.

Lemma unguarded_zero_range (a l u : Q) :
  u == l ->
  SarosApiService.calculateHealth (JS.Fin a) (JS.Fin l) (JS.Fin u) = Poor.
Proof.
  intro H. unfold SarosApiService.calculateHealth.
  rewrite !sub_Fin, Math_min_Fin.
  unfold JS.div. rewrite Qeq_bool_true by lra.
  assert (Hm : minQ (a + - l) (u + - a) <= 0).
  { pose proof (minQ_le_l (a + - l) (u + - a)). pose proof (minQ_le_r (a + - l) (u + - a)).
    destruct (Qlt_le_dec a l); lra. }
  destruct (minQ (a + - l) (u + - a) ?= 0) eqn:E.
  - reflexivity.
  - reflexivity.
  - apply Qgt_alt in E. lra.
Qed.

Lemma gradeOfRatio_low (q : Q) : q <= 10 -> gradeOfRatio q = Poor.
Proof.
  intro H. unfold gradeOfRatio.
  assert (E30 : JS.Qltb 30 q = false) by (apply Qltb_false; lra).
  assert (E20 : JS.Qltb 20 q = false) by (apply Qltb_false; lra).
  assert (E10 : JS.Qltb 10 q = false) by (apply Qltb_false; lra).
  rewrite E30, E20, E10. reflexivity.
Qed.

Lemma gradeOfRatio_mono (p q : Q) :
  p <= q -> (grade (gradeOfRatio p) <= grade (gradeOfRatio q))%nat.
Proof.
  intro H. unfold gradeOfRatio.
  destruct (JS.Qltb 30 p) eqn:P30; destruct (JS.Qltb 30 q) eqn:Q30;
  destruct (JS.Qltb 20 p) eqn:P20; destruct (JS.Qltb 20 q) eqn:Q20;
  destruct (JS.Qltb 10 p) eqn:P10; destruct (JS.Qltb 10 q) eqn:Q10;
  simpl; try lia;
  repeat match goal with
         | E : JS.Qltb _ _ = true |- _ => apply Qltb_true in E
         | E : JS.Qltb _ _ = false |- _ => apply Qltb_false in E
         end; lra.
Qed.

Lemma ratio_mono (m1 m2 r : Q) :
  0 < r -> m1 <= m2 -> m1 / r * 100 <= m2 / r * 100.
Proof.
  intros Hr Hm. apply Qmult_le_compat_r; [|lra].
  unfold Qdiv. apply Qmult_le_compat_r; [exact Hm|].
  apply Qlt_le_weak, Qinv_lt_0_compat, Hr.
Qed.

Lemma ratio_nonpos (m r : Q) : 0 < r -> m <= 0 -> m / r * 100 <= 0.
Proof.
  intros Hr Hm. pose proof (ratio_mono Hr Hm) as H.
  assert (E : 0 / r * 100 == 0) by (unfold Qdiv; ring).
  rewrite E in H. exact H.
Qed.

Lemma minDistance_outside (a l u : Q) : a < l \/ u < a -> minDistance a l u < 0.
Proof.
  intro H. unfold minDistance.
  pose proof (minQ_le_l (a - l) (u - a)). pose proof (minQ_le_r (a - l) (u - a)).
  destruct H; lra.
Qed.

Lemma unguarded_outside (a l u : Q) :
  l <= u -> a < l \/ u < a ->
  SarosApiService.calculateHealth (JS.Fin a) (JS.Fin l) (JS.Fin u) = Poor.
Proof.
  intros Hlu Hout. destruct (Qlt_le_dec l u) as [Hlt|Hge].
  - rewrite unguarded_pos_range by exact Hlt.
    apply gradeOfRatio_low.
    pose proof (minDistance_outside Hout).
    assert (minDistance a l u / (u - l) * 100 <= 0); [|lra].
    apply ratio_nonpos; lra.
  - apply unguarded_zero_range. lra.
Qed.

Lemma guarded_eq_unguarded (a l u : Q) :
  SarosSdkService.calculateHealth (JS.Fin a) (JS.Fin l) (JS.Fin u)
  = SarosApiService.calculateHealth (JS.Fin a) (JS.Fin l) (JS.Fin u).
Proof.
  unfold SarosSdkService.calculateHealth.
  rewrite sub_Fin. unfold JS.strict_eq, JS.of_Z.
  destruct (Qeq_bool (u + - l) (inject_Z 0)) eqn:E.
  - apply Qeq_bool_iff in E. symmetry. apply unguarded_zero_range.
    change (inject_Z 0) with 0 in E. lra.
  - reflexivity.
Qed.

Lemma minDistance_inject (a l u : Z) :
  minDistance (inject_Z a) (inject_Z l) (inject_Z u)
  == inject_Z (Z.min (a - l) (u - a)).
Proof.
  unfold minDistance, minQ.
  destruct (JS.Qltb (inject_Z u - inject_Z a) (inject_Z a - inject_Z l)) eqn:E.
  - apply Qltb_true in E.
    assert (H : (u - a < a - l)%Z).
    { rewrite Zlt_Qlt. unfold Z.sub. rewrite !inject_Z_plus, !inject_Z_opp. lra. }
    rewrite Z.min_r by lia. unfold Z.sub. rewrite inject_Z_plus, inject_Z_opp. lra.
  - apply Qltb_false in E.
    assert (H : (a - l <= u - a)%Z).
    { rewrite Zle_Qle. unfold Z.sub. rewrite !inject_Z_plus, !inject_Z_opp. lra. }
    rewrite Z.min_l by lia. unfold Z.sub. rewrite inject_Z_plus, inject_Z_opp. lra.
Qed.

End HealthFacts.

Import NumberFacts HealthFacts.

(** C3.  For every bin id [b] and every active bin id [a], the classifier
    applied to the zero-width range [b, b] returns Poor: in the guarded copy
    of sarosSdkService.ts by the explicit test, in the unguarded copies because
    the quotient is [NaN] or [-Infinity] and fails every threshold. *)
Theorem degenerate_range_is_Poor (b a : Z) :
  SarosSdkService.calculateHealth (JS.of_Z a) (JS.of_Z b) (JS.of_Z b) = Poor
  /\ SarosApiService.calculateHealth (JS.of_Z a) (JS.of_Z b) (JS.of_Z b) = Poor
  /\ WalletSarosApiService.calculateHealth (JS.of_Z a) (JS.of_Z b) (JS.of_Z b) = Poor.
Proof.
  assert (H : SarosApiService.calculateHealth (JS.of_Z a) (JS.of_Z b) (JS.of_Z b) = Poor)
    by (apply unguarded_zero_range; reflexivity).
  unfold JS.of_Z in *. rewrite guarded_eq_unguarded. auto.
Qed.

(** C4.  For every range with [lowerBinId <= upperBinId] and every active bin
    outside it, the classifier returns Poor, however far outside the active
    bin lies. *)
Theorem out_of_range_is_Poor (lowerBinId upperBinId activeBinId : Z) :
  (lowerBinId <= upperBinId)%Z ->
  (activeBinId < lowerBinId \/ activeBinId > upperBinId)%Z ->
  SarosApiService.calculateHealth
    (JS.of_Z activeBinId) (JS.of_Z lowerBinId) (JS.of_Z upperBinId) = Poor
  /\ SarosSdkService.calculateHealth
       (JS.of_Z activeBinId) (JS.of_Z lowerBinId) (JS.of_Z upperBinId) = Poor.
Proof.
  intros Hlu Hout.
  assert (H : SarosApiService.calculateHealth
                (JS.of_Z activeBinId) (JS.of_Z lowerBinId) (JS.of_Z upperBinId) = Poor).
  { apply unguarded_outside.
    - rewrite <- Zle_Qle. exact Hlu.
    - destruct Hout as [Hl|Hu]; [left|right]; rewrite <- Zlt_Qlt; lia. }
  unfold JS.of_Z in *. rewrite guarded_eq_unguarded. auto.
Qed.

Lemma out_of_range_is_Poor_witness :
  SarosApiService.calculateHealth (JS.of_Z 50) (JS.of_Z 100) (JS.of_Z 120) = Poor
  /\ SarosSdkService.calculateHealth (JS.of_Z 50) (JS.of_Z 100) (JS.of_Z 120) = Poor.
Proof. apply (@out_of_range_is_Poor 100 120 50); lia. Defined.

(** C5.  On a fixed range of positive width, for two active bins inside the
    range, a smaller (or equal) minimum distance to a range edge gives a
    smaller (or equal) grade in the order Poor < Fair < Good < Excellent. *)
Theorem health_monotone_in_minDistance (lowerBinId upperBinId a1 a2 : Z) :
  (upperBinId - lowerBinId > 0)%Z ->
  (lowerBinId <= a1 <= upperBinId)%Z ->
  (lowerBinId <= a2 <= upperBinId)%Z ->
  (Z.min (a1 - lowerBinId) (upperBinId - a1)
   <= Z.min (a2 - lowerBinId) (upperBinId - a2))%Z ->
  (grade (SarosApiService.calculateHealth
            (JS.of_Z a1) (JS.of_Z lowerBinId) (JS.of_Z upperBinId))
   <= grade (SarosApiService.calculateHealth
               (JS.of_Z a2) (JS.of_Z lowerBinId) (JS.of_Z upperBinId)))%nat
  /\ (grade (SarosSdkService.calculateHealth
               (JS.of_Z a1) (JS.of_Z lowerBinId) (JS.of_Z upperBinId))
      <= grade (SarosSdkService.calculateHealth
                  (JS.of_Z a2) (JS.of_Z lowerBinId) (JS.of_Z upperBinId)))%nat.
Proof.
  intros Hw _ _ Hmin.
  assert (Hr : inject_Z lowerBinId < inject_Z upperBinId)
    by (rewrite <- Zlt_Qlt; lia).
  unfold JS.of_Z. rewrite !guarded_eq_unguarded.
  rewrite !unguarded_pos_range by exact Hr.
  assert (H : (grade (gradeOfRatio
                        (minDistance (inject_Z a1) (inject_Z lowerBinId) (inject_Z upperBinId)
                         / (inject_Z upperBinId - inject_Z lowerBinId) * 100))
               <= grade (gradeOfRatio
                           (minDistance (inject_Z a2) (inject_Z lowerBinId) (inject_Z upperBinId)
                            / (inject_Z upperBinId - inject_Z lowerBinId) * 100)))%nat).
  { apply gradeOfRatio_mono, ratio_mono; [lra|].
    rewrite !minDistance_inject, <- Zle_Qle. exact Hmin. }
  auto.
Qed.

Lemma health_monotone_in_minDistance_witness :
  (grade (SarosApiService.calculateHealth (JS.of_Z 101) (JS.of_Z 100) (JS.of_Z 120))
   <= grade (SarosApiService.calculateHealth (JS.of_Z 110) (JS.of_Z 100) (JS.of_Z 120)))%nat
  /\ (grade (SarosSdkService.calculateHealth (JS.of_Z 101) (JS.of_Z 100) (JS.of_Z 120))
      <= grade (SarosSdkService.calculateHealth (JS.of_Z 110) (JS.of_Z 100) (JS.of_Z 120)))%nat.
Proof. apply (@health_monotone_in_minDistance 100 120 101 110); lia. Defined.
(** ** Portfolio roll-up and conversion *)

Module PortfolioFacts.

Lemma length_divisor_nonzero (n : nat) :
  JS.strict_eq (JS.of_nat (S n)) (JS.of_Z 0) = false.
Proof.
  unfold JS.strict_eq, JS.of_nat, JS.of_Z. apply Qeq_bool_false.
  intro H. unfold Qeq in H. simpl in H. lia.
Qed.

Lemma checked_average_total (f : Position.t -> JS.number) (positions : list Position.t) :
  checked_average f positions
  = Some (if Nat.ltb 0 (List.length positions)
          then JS.div (reduce_sum f positions) (JS.of_nat (List.length positions))
          else JS.of_Z 0).
Proof.
  unfold checked_average, checked_div.
  destruct positions as [|p ps]; [reflexivity|].
  cbn [List.length Nat.ltb Nat.leb]. rewrite length_divisor_nonzero. reflexivity.
Qed.

End PortfolioFacts.

Import PortfolioFacts.

(** C10.  For the empty position list the roll-ups of [calculatePortfolioData]
    and [getPortfolioData] return 0 for the average APR/APY and 0 for every
    summed total; and for every list the division behind the average never
    meets a zero divisor: the checked division always answers, with the value
    the code computes. *)
Theorem empty_portfolio_rollup :
  (let data := SarosSdkService.calculatePortfolioData [] in
   PortfolioData.avgApy data = JS.of_Z 0
   /\ option_map PortfolioData.averageAPR (PortfolioData.summary data) = Some (JS.of_Z 0)
   /\ PortfolioData.totalValue data = JS.of_Z 0
   /\ PortfolioData.totalPnL data = Some (JS.of_Z 0)
   /\ PortfolioData.totalPnLPercentage data = Some (JS.of_Z 0)
   /\ PortfolioData.totalFeesEarned data = JS.of_Z 0)
  /\ (forall change,
        let data := RealSarosService.getPortfolioData [] change in
        PortfolioData.avgApy data = JS.of_Z 0
        /\ PortfolioData.totalValue data = JS.of_Z 0
        /\ PortfolioData.totalFeesEarned data = JS.of_Z 0
        /\ PortfolioData.totalIL data = Some (JS.of_Z 0))
  /\ (forall positions,
        checked_average Position.apr positions
        = Some (SarosSdkService.averageAPR positions)
        /\ checked_average Position.currentAPY positions
           = Some (RealSarosService.avgApy positions)).
Proof.
  split; [|split].
  - cbv. repeat split.
  - intro change. cbv. repeat split.
  - intro positions. split; apply checked_average_total.
Qed.

(** C9, at the failing input.  For the pool position [emptied] the
    denominator [currentValue - pnl] of the converted position is zero and its
    [pnlPercentage] is [Infinity], not 0: the division of
    [convertPoolPositionsToPositions] is not guarded. *)
Theorem pnlPercentage_zero_denominator :
  let p := WalletSarosApiService.convertPoolPosition emptied None in
  JS.num_eq (JS.sub (Position.currentValue p) (Position.pnl p)) (JS.of_Z 0)
  /\ Position.pnlPercentage p = JS.PosInf
  /\ WalletSarosApiService.convertPoolPositionsToPositions [emptied] None = [p].
Proof. cbv. repeat split. Qed.

(** The sibling conversion of sarosSdkService.ts does answer 0 on a zero
    denominator. *)
Lemma convertSdkPosition_zero_denominator (publicKey : option string) :
  let p := SarosSdkService.convertSdkPosition publicKey in
  JS.sub (Position.currentValue p) (Position.pnl p) = JS.Fin (0 + - 0)
  /\ Position.pnlPercentage p = JS.of_Z 0.
Proof. split; reflexivity. Qed.

(** The part of C9 that the conversion does satisfy: with finite amounts and
    a nonzero denominator, [pnlPercentage] is [pnl / (currentValue - pnl) * 100]. *)
Lemma pnlPercentage_nonzero_denominator (poolPos : WalletSarosApiService.SarosPoolPosition)
  bins (x y l : Q) :
  WalletSarosApiService.total_token_x poolPos = JS.Fin x ->
  WalletSarosApiService.total_token_y poolPos = JS.Fin y ->
  WalletSarosApiService.total_liquidity poolPos = JS.Fin l ->
  let p := WalletSarosApiService.convertPoolPosition poolPos bins in
  forall cv pnl,
  Position.currentValue p = JS.Fin cv ->
  Position.pnl p = JS.Fin pnl ->
  ~ cv - pnl == 0 ->
  JS.num_eq (Position.pnlPercentage p) (JS.Fin (pnl / (cv - pnl) * 100)).
Proof.
  intros Hx Hy Hl p cv pnl Hcv Hpnl Hden.
  subst p. unfold WalletSarosApiService.convertPoolPosition in *.
  cbn [Position.currentValue Position.pnl Position.pnlPercentage] in *.
  rewrite Hx, Hy, Hl in *. cbn [JS.add JS.sub JS.neg] in *.
  injection Hcv as Hcv. injection Hpnl as Hpnl. subst cv pnl.
  unfold JS.div. rewrite Qeq_bool_false.
  - cbn [JS.mul JS.of_Z JS.num_eq].
    assert (E : x + y - (x + y + - l) == l) by ring.
    rewrite E. reflexivity.
  - intro E. apply Hden. rewrite E. ring.
Qed.

(** ** Appending to the array of recommendations *)

Module FrameFacts.

Section Frame.
Context {R : Type}.

Lemma framed_ret {A} (a : A) : framed (@JS.ret (JS.World * list R) A a).
Proof. intros w acc. unfold pushed, world_after. cbn. rewrite app_nil_r. reflexivity. Qed.

Lemma framed_lift {A} (c : JS.completion A) :
  framed (@JS.lift (JS.World * list R) A c).
Proof. intros w acc. unfold pushed, world_after. cbn. rewrite app_nil_r. reflexivity. Qed.

Lemma framed_throw {A} e : framed (@JS.throw (JS.World * list R) A e).
Proof. intros w acc. unfold pushed, world_after. cbn. rewrite app_nil_r. reflexivity. Qed.

Lemma framed_in_world {A} (m : JS.Eff JS.World A) :
  framed (@in_world (list R) A m).
Proof.
  intros w acc. unfold in_world, pushed, world_after. cbn. destruct (m w) as [c w'].
  cbn. rewrite app_nil_r. reflexivity.
Qed.

Lemma framed_push (x : R) : framed (push x).
Proof. intros w acc. reflexivity. Qed.

Lemma framed_bind {A B} (m : JS.Eff (JS.World * list R) A) (k : A -> JS.Eff (JS.World * list R) B) :
  framed m -> (forall a, framed (k a)) -> framed (JS.bind m k).
Proof.
  intros Hm Hk w acc. unfold JS.bind.
  rewrite (Hm w acc). unfold pushed, world_after.
  destruct (m (w, [])) as [[a|e] [w1 r1]]; cbn.
  - rewrite (Hk a w1 (acc ++ r1)), (Hk a w1 r1). unfold pushed, world_after.
    destruct (k a (w1, [])) as [c [w2 r2]]; cbn.
    rewrite app_assoc. reflexivity.
  - reflexivity.
Qed.

Lemma framed_try_catch {A} (body : JS.Eff (JS.World * list R) A) (handler : JS.error -> JS.Eff (JS.World * list R) A) :
  framed body -> (forall e, framed (handler e)) -> framed (JS.try_catch body handler).
Proof.
  intros Hm Hk w acc. unfold JS.try_catch.
  rewrite (Hm w acc). unfold pushed, world_after.
  destruct (body (w, [])) as [[a|e] [w1 r1]]; cbn.
  - reflexivity.
  - rewrite (Hk e w1 (acc ++ r1)), (Hk e w1 r1). unfold pushed, world_after.
    destruct (handler e (w1, [])) as [c [w2 r2]]; cbn.
    rewrite app_assoc. reflexivity.
Qed.

Lemma framed_when (c : bool) (body : JS.Eff (JS.World * list R) unit) :
  framed body -> framed (JS.when c body).
Proof. intro H. destruct c; [exact H|apply framed_ret]. Qed.

Lemma framed_if {A} (c : bool) (m1 m2 : JS.Eff (JS.World * list R) A) :
  framed m1 -> framed m2 -> framed (if c then m1 else m2).
Proof. destruct c; auto. Qed.

Lemma framed_for_of {A} (xs : list A) (body : A -> JS.Eff (JS.World * list R) unit) :
  (forall x, framed (body x)) -> framed (JS.for_of xs body).
Proof.
  intro H. induction xs as [|x xs IH]; cbn [JS.for_of].
  - apply framed_ret.
  - apply framed_bind; auto.
Qed.

(** The loop over an array of objects is the loop of the body at objects. *)
Lemma for_of_objects {A} (xs : list A) (body : option A -> JS.Eff (JS.World * list R) unit) :
  JS.for_of (objects xs) body = JS.for_of xs (at_object body).
Proof.
  induction xs as [|x xs IH]; [reflexivity|].
  unfold objects in *. cbn [map JS.for_of]. rewrite IH. reflexivity.
Qed.

End Frame.

(** Decompose a loop body into its statements. *)
Ltac framed :=
  repeat first
    [ apply framed_try_catch | apply framed_bind | apply framed_when
    | apply framed_if | apply framed_push | apply framed_in_world
    | apply framed_lift | apply framed_ret | apply framed_throw | intro ].

Section Loop.
Context {R A : Type} (step : A -> JS.Eff (JS.World * list R) unit).
Hypothesis step_framed : forall x, framed (step x).
Hypothesis step_normal : forall x s, fst (step x s) = JS.Normal tt.

Lemma for_of_normal (xs : list A) s : fst (JS.for_of xs step s) = JS.Normal tt.
Proof.
  revert s. induction xs as [|x xs IH]; intro s; cbn [JS.for_of]; [reflexivity|].
  unfold JS.bind. pose proof (step_normal x s) as H.
  destruct (step x s) as [c s']. cbn in H. subst c. apply IH.
Qed.

Lemma for_of_app (xs ys : list A) s :
  JS.for_of (xs ++ ys) step s = JS.for_of ys step (snd (JS.for_of xs step s)).
Proof.
  revert s. induction xs as [|x xs IH]; intro s; cbn [JS.for_of app]; [reflexivity|].
  unfold JS.bind. pose proof (step_normal x s) as H.
  destruct (step x s) as [c s']. cbn in H. subst c. apply IH.
Qed.

Lemma returning_array_normal (xs : list A) w :
  returning_array (JS.for_of xs step) w
  = (JS.Normal (pushed (JS.for_of xs step (w, []))),
     world_after (JS.for_of xs step (w, []))).
Proof.
  unfold returning_array, pushed, world_after.
  pose proof (for_of_normal xs (w, [])) as H.
  destruct (JS.for_of xs step (w, [])) as [c [w' array]]. cbn in H. subst c. reflexivity.
Qed.

(** The loop over [xs ++ ys] is the loop over [xs] followed by the loop over
    [ys] in the world the first one leaves. *)
Lemma returning_array_app (xs ys : list A) w :
  exists r1 w1 r2 w2,
    returning_array (JS.for_of xs step) w = (JS.Normal r1, w1)
    /\ returning_array (JS.for_of ys step) w1 = (JS.Normal r2, w2)
    /\ returning_array (JS.for_of (xs ++ ys) step) w = (JS.Normal (r1 ++ r2), w2).
Proof.
  rewrite !returning_array_normal.
  do 4 eexists. split; [reflexivity|].
  rewrite returning_array_normal. split; [reflexivity|].
  rewrite for_of_app. unfold pushed, world_after.
  destruct (JS.for_of xs step (w, [])) as [c [w1 r1]]. cbn [snd fst].
  rewrite (framed_for_of ys step step_framed w1 r1).
  reflexivity.
Qed.


End Loop.

End FrameFacts.

Import FrameFacts.

(** ** The recommendation engines *)

Module EngineFacts.

Lemma Api_step_framed position : framed (at_object SarosApiService.analyzePosition position).
Proof. unfold at_object, SarosApiService.analyzePosition, JS.object_of. framed. Qed.

Lemma Real_step_framed position : framed (at_object RealSarosService.analyzePosition position).
Proof. unfold at_object, RealSarosService.analyzePosition, JS.object_of. framed. Qed.


Lemma Api_step_normal position s :
  fst (at_object SarosApiService.analyzePosition position s) = JS.Normal tt.
Proof.
  unfold at_object, SarosApiService.analyzePosition, JS.object_of, JS.try_catch.
  match goal with |- context [match ?b s with _ => _ end] => destruct (b s) as [[[]|e] s'] end;
  reflexivity.
Qed.


Lemma Real_step_normal position s :
  fst (at_object RealSarosService.analyzePosition position s) = JS.Normal tt.
Proof.
  unfold at_object, RealSarosService.analyzePosition, JS.object_of, JS.try_catch.
  match goal with |- context [match ?b s with _ => _ end] => destruct (b s) as [[[]|e] s'] end;
  reflexivity.
Qed.


Lemma Api_generate_normal positions w :
  SarosApiService.generateRebalanceRecommendations (objects positions) w
  = (JS.Normal (pushed (JS.for_of positions (at_object SarosApiService.analyzePosition) (w, []))),
     world_after (JS.for_of positions (at_object SarosApiService.analyzePosition) (w, []))).
Proof.
  unfold SarosApiService.generateRebalanceRecommendations. rewrite for_of_objects.
  apply returning_array_normal, Api_step_normal.
Qed.

Lemma Real_collect_normal positions w :
  RealSarosService.collectRecommendations (objects positions) w
  = (JS.Normal (pushed (JS.for_of positions (at_object RealSarosService.analyzePosition) (w, []))),
     world_after (JS.for_of positions (at_object RealSarosService.analyzePosition) (w, []))).
Proof.
  unfold RealSarosService.collectRecommendations. rewrite for_of_objects.
  apply returning_array_normal, Real_step_normal.
Qed.

End EngineFacts.

Import EngineFacts.




(** C6.  A single position whose resolved active bin lies outside its range,
    whose unclaimed fees exceed 50 and whose PnL percentage is below -10
    yields exactly three recommendations: rebalance/high, expand/medium and
    exit/high; the three rules fire in the same run. *)
Theorem three_rules_fire (position : RawPosition.t) (activeBin fees loss : JS.number)
  (w : JS.World) :
  SarosApiService.findActiveBin (RawPosition.binDistribution position) = JS.Normal activeBin ->
  JS.lt activeBin (RawPosition.lowerBinId position) = true
  \/ JS.gt activeBin (RawPosition.upperBinId position) = true ->
  RawPosition.unclaimedFees position = JS.Number fees ->
  JS.gt fees (JS.of_Z 50) = true ->
  RawPosition.pnlPercentage position = JS.Number loss ->
  JS.lt loss (JS.of_Z (-10)) = true ->
  exists r1 r2 r3 w',
    SarosApiService.generateRebalanceRecommendations (objects [position]) w
    = (JS.Normal [r1; r2; r3], w')
    /\ kinds [r1; r2; r3]
       = [(RebalanceRecommendation.rebalance, RebalanceRecommendation.high);
          (RebalanceRecommendation.expand, RebalanceRecommendation.medium);
          (RebalanceRecommendation.exit, RebalanceRecommendation.high)].
Proof.
  intros Hactive Hout Hfees Hgt Hloss Hlt.
  assert (Hor : JS.lt activeBin (RawPosition.lowerBinId position)
                || JS.gt activeBin (RawPosition.upperBinId position) = true)
    by (apply orb_true_iff; exact Hout).
  unfold SarosApiService.generateRebalanceRecommendations, returning_array, objects.
  cbn [map JS.for_of]. unfold JS.bind at 1.
  unfold SarosApiService.analyzePosition, JS.object_of.
  unfold JS.try_catch, JS.bind, JS.lift, JS.when, in_world, push, JS.ret,
    JS.Date_now, JS.console_error.
  rewrite Hactive, Hor, Hfees, Hloss. cbn [JS.ToNumber JS.toFixed].
  rewrite Hgt, Hlt. cbn [fst snd app].
  do 4 eexists. split; reflexivity.
Qed.

Lemma three_rules_fire_witness :
  exists r1 r2 r3 w',
    SarosApiService.generateRebalanceRecommendations (objects [outOfRangeLosing]) world0
    = (JS.Normal [r1; r2; r3], w')
    /\ kinds [r1; r2; r3]
       = [(RebalanceRecommendation.rebalance, RebalanceRecommendation.high);
          (RebalanceRecommendation.expand, RebalanceRecommendation.medium);
          (RebalanceRecommendation.exit, RebalanceRecommendation.high)].
Proof.
  apply (@three_rules_fire outOfRangeLosing (JS.of_Z 50) (JS.of_Z 75) (JS.of_Z (-15)) world0);
    try reflexivity.
  left. reflexivity.
Defined.

(** ** Elements that are not objects *)

Module NullFacts.

(** A loop whose body returns at every object and throws at [None] throws as
    soon as the array holds a [None]. *)
Lemma for_of_null {S : Type} (body : option RawPosition.t -> JS.Eff S unit)
  (thrown : JS.error) :
  (forall position s, fst (body (Some position) s) = JS.Normal tt) ->
  (forall s, body None s = (JS.Throw thrown, s)) ->
  forall elements s, In None elements ->
    exists s', JS.for_of elements body s = (JS.Throw thrown, s').
Proof.
  intros Hobject Hnull elements.
  induction elements as [|[position|] elements IH]; intros s H.
  - destruct H.
  - destruct H as [H|H]; [discriminate|].
    cbn [JS.for_of]. unfold JS.bind.
    pose proof (Hobject position s) as N.
    destruct (body (Some position) s) as [c s1]. cbn in N. subst c.
    apply IH, H.
  - cbn [JS.for_of]. unfold JS.bind. rewrite Hnull. eexists. reflexivity.
Qed.

Lemma Api_null_element (elements : list (option RawPosition.t)) (w : JS.World) :
  In None elements ->
  exists w',
    SarosApiService.generateRebalanceRecommendations elements w
    = (JS.Throw (JS.TypeError "Cannot read properties of undefined: position.id"), w').
Proof.
  intro H. unfold SarosApiService.generateRebalanceRecommendations, returning_array.
  destruct (@for_of_null _ SarosApiService.analyzePosition
              (JS.TypeError "Cannot read properties of undefined: position.id")
              Api_step_normal (fun s => eq_refl) elements (w, []) H) as [[w' array] E].
  rewrite E. eexists. reflexivity.
Qed.

Lemma Real_null_element (elements : list (option RawPosition.t)) (w : JS.World) :
  In None elements ->
  exists w',
    RealSarosService.generateRebalanceRecommendations elements w
    = (JS.Throw (JS.TypeError "Cannot read properties of undefined: position.id"), w').
Proof.
  intro H.
  unfold RealSarosService.generateRebalanceRecommendations,
    RealSarosService.collectRecommendations, returning_array, JS.bind.
  destruct (@for_of_null _ RealSarosService.analyzePosition
              (JS.TypeError "Cannot read properties of undefined: position.id")
              Real_step_normal (fun s => eq_refl) elements (w, []) H) as [[w' array] E].
  rewrite E. eexists. reflexivity.
Qed.

End NullFacts.
Import NullFacts.

(** C8, as amended.  On an array of position objects the call returns whatever
    one position does: the exception is caught inside the iteration.  The
    positions before and after it yield exactly what they yield on their own
    from the world they are reached in, and the result is the concatenation,
    in input order.  A position whose [binDistribution] makes [findActiveBin]
    throw contributes no recommendation.  A [null] or [undefined] element is
    not isolated: the [catch] block throws in turn, on [position.id], and the
    call rejects with that [TypeError]. *)
Theorem partial_failure_isolation (before after : list RawPosition.t)
  (failing : RawPosition.t) (elements : list (option RawPosition.t)) (w : JS.World) :
  (exists recs1 w1 recsFailing w2 recs2 w3,
     SarosApiService.generateRebalanceRecommendations (objects before) w
     = (JS.Normal recs1, w1)
     /\ SarosApiService.generateRebalanceRecommendations (objects [failing]) w1
        = (JS.Normal recsFailing, w2)
     /\ SarosApiService.generateRebalanceRecommendations (objects after) w2
        = (JS.Normal recs2, w3)
     /\ SarosApiService.generateRebalanceRecommendations
          (objects (before ++ failing :: after)) w
        = (JS.Normal (recs1 ++ recsFailing ++ recs2), w3)
     /\ (forall e,
           SarosApiService.findActiveBin (RawPosition.binDistribution failing)
           = JS.Throw e ->
           recsFailing = []))
  /\ (In None elements ->
      exists message w',
        SarosApiService.generateRebalanceRecommendations elements w
        = (JS.Throw (JS.TypeError message), w')).
Proof.
  split.
  - unfold SarosApiService.generateRebalanceRecommendations; rewrite ?for_of_objects.
    destruct (returning_array_app (at_object SarosApiService.analyzePosition)
                Api_step_framed Api_step_normal before (failing :: after) w)
      as (r1 & w1 & r23 & w3 & H1 & H23 & H).
    destruct (returning_array_app (at_object SarosApiService.analyzePosition)
                Api_step_framed Api_step_normal [failing] after w1)
      as (r2 & w2 & r3 & w3' & H2 & H3 & H23').
    cbn [app] in H23'. rewrite H23 in H23'. injection H23' as -> ->.
    exists r1, w1, r2, w2, r3, w3'. repeat split; auto.
    intros e He.
    unfold returning_array in H2. cbn [JS.for_of] in H2. unfold JS.bind at 1 in H2.
    unfold at_object, SarosApiService.analyzePosition, JS.object_of in H2.
    unfold JS.try_catch, JS.bind at 1, JS.lift in H2. rewrite He in H2.
    cbn in H2. injection H2 as <- _. reflexivity.
  - intro H. destruct (Api_null_element elements w H) as [w' E].
    eexists _, w'. exact E.
Qed.

Lemma partial_failure_isolation_witness :
  (exists recs1 w1 recsFailing w2 recs2 w3,
     SarosApiService.generateRebalanceRecommendations (objects [outOfRangeLosing]) world0
     = (JS.Normal recs1, w1)
     /\ SarosApiService.generateRebalanceRecommendations (objects [noDistribution]) w1
        = (JS.Normal recsFailing, w2)
     /\ SarosApiService.generateRebalanceRecommendations (objects [outOfRangeLosing]) w2
        = (JS.Normal recs2, w3)
     /\ SarosApiService.generateRebalanceRecommendations
          (objects ([outOfRangeLosing] ++ noDistribution :: [outOfRangeLosing])) world0
        = (JS.Normal (recs1 ++ recsFailing ++ recs2), w3)
     /\ (forall e,
           SarosApiService.findActiveBin (RawPosition.binDistribution noDistribution)
           = JS.Throw e ->
           recsFailing = []))
  /\ (exists message w',
        SarosApiService.generateRebalanceRecommendations
          [Some outOfRangeLosing; None; Some outOfRangeLosing] world0
        = (JS.Throw (JS.TypeError message), w')).
Proof.
  destruct (partial_failure_isolation [outOfRangeLosing] [outOfRangeLosing] noDistribution
              [Some outOfRangeLosing; None; Some outOfRangeLosing] world0)
    as [Hobjects Hnull].
  split; [exact Hobjects|].
  apply Hnull. right. left. reflexivity.
Defined.

(** C8 as stated fails, in two ways.  The evaluation of [textFees] throws (the
    [catch] block logs the [TypeError] of [toFixed]) after the out-of-range
    recommendation was pushed, and that recommendation is returned.  And a
    [null] between two positions aborts the call: nothing is logged for it,
    and the three recommendations of the position before it are lost. *)
Lemma failure_is_not_isolated :
  (exists r w,
     SarosApiService.generateRebalanceRecommendations (objects [textFees]) world0
     = (JS.Normal [r], w)
     /\ kinds [r] = [(RebalanceRecommendation.rebalance, RebalanceRecommendation.high)]
     /\ JS.console w
        = [("Error analyzing position p2:"%string,
            JS.TypeError "position.unclaimedFees.toFixed is not a function")])
  /\ (exists w,
        SarosApiService.generateRebalanceRecommendations
          [Some outOfRangeLosing; None; Some outOfRangeLosing] world0
        = (JS.Throw (JS.TypeError "Cannot read properties of undefined: position.id"), w)
        /\ JS.console w = []
        /\ JS.ticks w = 3%nat).
Proof.
  split.
  - vm_compute. do 2 eexists. repeat split.
  - vm_compute. eexists. repeat split.
Qed.


(** ** The strategy simulators *)

Module SimulatorFacts.

Lemma lookup_unknown {A : Type} (table : list (string * A)) (name : string) :
  known table name = false -> JS.inherited name = false ->
  JS.lookup table name = JS.Undefined.
Proof.
  intros Hk Hi. unfold JS.lookup.
  assert (E : find (fun kv => String.eqb name (fst kv)) table = None).
  { unfold known in Hk. induction table as [|kv table IH]; [reflexivity|].
    cbn in Hk |- *. apply orb_false_iff in Hk as [H1 H2].
    rewrite H1. apply IH, H2. }
  rewrite E, Hi. reflexivity.
Qed.

End SimulatorFacts.
Import SimulatorFacts.

(** C7, as amended.  For a strategy name that is neither a key of the
    profile table nor a property every object inherits, the lookup gives
    [undefined] and the simulator fails: [SarosApiService] with the
    [TypeError] of the first property read, in an unchanged world,
    [RealSarosService] with the [Error] its [catch] block rethrows.  No
    default profile is substituted. *)
Theorem unknown_strategy_throws (position : RawPosition.t) (strategy : string)
  (timeHorizon : option string) (w : JS.World) :
  JS.inherited strategy = false ->
  (known SarosApiService.strategyConfigs strategy = false ->
   exists message,
     SarosApiService.simulateStrategy position strategy timeHorizon w
     = (JS.Throw (JS.TypeError message), w))
  /\ (known RealSarosService.strategyConfigs strategy = false ->
      exists message w',
        RealSarosService.simulateStrategy position strategy timeHorizon w
        = (JS.Throw (JS.Error message), w')).
Proof.
  intro Hi. split; intro Hk.
  - unfold SarosApiService.simulateStrategy.
    rewrite (lookup_unknown _ _ Hk Hi).
    eexists. reflexivity.
  - unfold RealSarosService.simulateStrategy.
    rewrite (lookup_unknown _ _ Hk Hi).
    unfold JS.try_catch, JS.bind, JS.lift, JS.console_error, JS.throw,
      RealSarosService.estimateVolatility, RealSarosService.priceRange_of.
    destruct (RawPosition.priceRange position); do 2 eexists; reflexivity.
Qed.

Lemma unknown_strategy_throws_witness :
  (exists message,
     SarosApiService.simulateStrategy outOfRangeLosing "conservative"%string None world0
     = (JS.Throw (JS.TypeError message), world0))
  /\ (exists message w',
        RealSarosService.simulateStrategy outOfRangeLosing "narrow" None world0
        = (JS.Throw (JS.Error message), w')).
Proof.
  split.
  - apply (proj1 (@unknown_strategy_throws outOfRangeLosing "conservative" None world0
                    eq_refl)).
    reflexivity.
  - apply (proj2 (@unknown_strategy_throws outOfRangeLosing "narrow" None world0 eq_refl)).
    reflexivity.
Defined.

(** C7 as stated fails: "constructor" is not a profile, yet both simulators
    return a result for it, with [undefined] or [NaN] where the profile's
    numbers should be. *)
Lemma inherited_name_is_simulated :
  known SarosApiService.strategyConfigs "constructor" = false
  /\ known RealSarosService.strategyConfigs "constructor" = false
  /\ (exists result w,
        SarosApiService.simulateStrategy outOfRangeLosing "constructor" None world0
        = (JS.Normal result, w)
        /\ StrategySimulationResult.expectedReturn result = None)
  /\ (exists result w,
        RealSarosService.simulateStrategy outOfRangeLosing "constructor" None world0
        = (JS.Normal result, w)
        /\ StrategySimulationResult.expectedReturn result = Some JS.NaN).
Proof.
  split; [reflexivity|]. split; [reflexivity|].
  split; vm_compute; do 2 eexists; split; reflexivity.
Qed.

Module SortFacts.
Import RebalanceRecommendation.

Import RealSarosService.






End SortFacts.

Import SortFacts.


(** ** The scenarios of the specification *)

(** The centred position is graded Excellent and draws no recommendation. *)
Example centred_position :
  SarosApiService.calculateHealth (JS.of_Z 8388608) (JS.of_Z 8388598) (JS.of_Z 8388618)
  = Excellent
  /\ SarosApiService.findActiveBin (RawPosition.binDistribution centred)
     = JS.Normal (JS.of_Z 8388608)
  /\ fst (SarosApiService.generateRebalanceRecommendations (objects [centred]) world0)
     = JS.Normal [].
Proof. vm_compute. repeat split. Qed.

(** Fees of exactly 50 and a PnL of exactly -10 % trigger nothing. *)
Example strict_thresholds :
  fst (SarosApiService.generateRebalanceRecommendations
         (objects [sample "edge" (JS.Number (JS.of_Z 50)) (JS.Number (JS.of_Z (-10)))
                          (Some [Some (bin 110 10 10)])])
         world0)
  = JS.Normal [].
Proof. vm_compute. reflexivity. Qed.

(** The grades at the thresholds: a ratio of exactly 30, 20 or 10 stays in the
    lower grade. *)
Example threshold_grades :
  map (fun a => SarosApiService.calculateHealth (JS.of_Z a) (JS.of_Z 0) (JS.of_Z 100))
      [50; 31; 30; 21; 20; 11; 10; 0]%Z
  = [Excellent; Excellent; Good; Good; Fair; Fair; Poor; Poor].
Proof. vm_compute. reflexivity. Qed.

(** A mixed list is sorted high, high, medium, medium by [RealSarosService]. *)
Example RealSarosService_sorts :
  match fst (RealSarosService.generateRebalanceRecommendations
               (objects [atPrice "a" 15; atPrice "b" 5; atPrice "c" 50;
                         atPrice "d" 85; atPrice "e" 95])
               world0) with
  | JS.Normal recs =>
      map (fun r => (RebalanceRecommendation.positionId r,
                     RebalanceRecommendation.priority r)) recs
      = [("b", RebalanceRecommendation.high); ("e", RebalanceRecommendation.high);
         ("a", RebalanceRecommendation.medium); ("d", RebalanceRecommendation.medium)]%string
  | JS.Throw _ => False
  end.
Proof. vm_compute. reflexivity. Qed.

(** ** Further properties of the services *)

Module ActiveBinFacts.

Lemma filter_active_well_formed (bins : list BinDistribution.t) :
  SarosApiService.filter_active (map Some bins)
  = JS.Normal (map Some (filter straddled bins)).
Proof.
  induction bins as [|b bins IH]; [reflexivity|].
  cbn [map SarosApiService.filter_active filter]. rewrite IH.
  unfold straddled. destruct (_ && _); reflexivity.
Qed.

Lemma filter_active_null (l : list (option BinDistribution.t)) :
  In None l -> exists e, SarosApiService.filter_active l = JS.Throw e.
Proof.
  induction l as [|[b|] l IH]; intro H.
  - destruct H.
  - destruct H as [H|H]; [discriminate|].
    destruct (IH H) as [e He]. cbn [SarosApiService.filter_active]. rewrite He.
    eexists. reflexivity.
  - eexists. reflexivity.
Qed.

Lemma null_or_well_formed (l : list (option BinDistribution.t)) :
  In None l \/ exists bins, l = map Some bins.
Proof.
  induction l as [|[b|] l IH].
  - right. exists []. reflexivity.
  - destruct IH as [H|[bins ->]].
    + left. right. exact H.
    + right. exists (b :: bins). reflexivity.
  - left. left. reflexivity.
Qed.

Lemma findActiveBin_well_formed (bins : list BinDistribution.t) :
  SarosApiService.findActiveBin (Some (map Some bins))
  = JS.Normal
      match bins with
      | [] => JS.of_Z 0
      | first :: _ =>
          match filter straddled bins with
          | b :: _ => BinDistribution.binId b
          | [] => BinDistribution.binId
                    (nth (Nat.div (List.length bins) 2) bins first)
          end
      end.
Proof.
  unfold SarosApiService.findActiveBin. rewrite length_map.
  destruct bins as [|first rest]; [reflexivity|].
  cbn [List.length Nat.eqb]. rewrite filter_active_well_formed.
  destruct (filter straddled (first :: rest)) as [|b actives] eqn:E.
  - change (map Some (@nil BinDistribution.t)) with (@nil (option BinDistribution.t)).
    cbn [List.length Nat.ltb Nat.leb]. unfold JS.floor_half.
    change (S (List.length rest)) with (List.length (first :: rest)).
    rewrite nth_error_map.
    assert (Hlt : (Nat.div (List.length (first :: rest)) 2 < List.length (first :: rest))%nat).
    { cbn [List.length]. apply Nat.div_lt; lia. }
    rewrite (nth_error_nth' _ first Hlt). reflexivity.
  - reflexivity.
Qed.

Lemma filter_straddled_none (bins : list BinDistribution.t) :
  Forall (fun x => straddled x = false) bins -> filter straddled bins = [].
Proof.
  induction 1 as [|x l Hx _ IH]; [reflexivity|].
  cbn [filter]. rewrite Hx. exact IH.
Qed.

End ActiveBinFacts.
Import ActiveBinFacts.

(** X1.  [findActiveBin] throws exactly when the distribution is missing or
    holds a [null] element; on every array of bins, the empty one included, it
    returns. *)
Theorem findActiveBin_throws_iff
  (distribution : option (list (option BinDistribution.t))) :
  (exists e, SarosApiService.findActiveBin distribution = JS.Throw e)
  <-> (distribution = None \/ exists l, distribution = Some l /\ In None l).
Proof.
  split.
  - intros [e He]. destruct distribution as [l|]; [|left; reflexivity].
    right. exists l. split; [reflexivity|].
    destruct (null_or_well_formed l) as [H|[bins ->]]; [exact H|].
    rewrite findActiveBin_well_formed in He. discriminate.
  - intros [->|[l [-> H]]].
    + eexists. reflexivity.
    + unfold SarosApiService.findActiveBin.
      destruct l as [|x l]; [destruct H|].
      cbn [List.length Nat.eqb].
      destruct (filter_active_null (x :: l) H) as [e ->].
      eexists. reflexivity.
Qed.

(** X2.  When some bin holds both tokens, [findActiveBin] answers the id of the
    first such bin. *)
Theorem findActiveBin_first_straddled (before after : list BinDistribution.t)
  (b : BinDistribution.t) :
  straddled b = true ->
  Forall (fun x => straddled x = false) before ->
  SarosApiService.findActiveBin (Some (map Some (before ++ b :: after)))
  = JS.Normal (BinDistribution.binId b).
Proof.
  intros Hb Hbefore. rewrite findActiveBin_well_formed.
  assert (E : filter straddled (before ++ b :: after)
              = b :: filter straddled after).
  { rewrite filter_app, (filter_straddled_none Hbefore).
    cbn [filter app]. rewrite Hb. reflexivity. }
  rewrite E. destruct before; reflexivity.
Qed.

Lemma findActiveBin_first_straddled_witness :
  SarosApiService.findActiveBin
    (Some (map Some ([bin 1 10 0] ++ bin 2 5 5 :: [bin 3 0 10])))
  = JS.Normal (BinDistribution.binId (bin 2 5 5)).
Proof.
  apply (@findActiveBin_first_straddled [bin 1 10 0] [bin 3 0 10] (bin 2 5 5)).
  - reflexivity.
  - repeat constructor.
Defined.

Lemma unstraddled_middle (bins : list BinDistribution.t) (b : BinDistribution.t) :
  Forall (fun x => straddled x = false) bins ->
  nth_error bins (Nat.div (List.length bins) 2) = Some b ->
  SarosApiService.findActiveBin (Some (map Some bins))
  = JS.Normal (BinDistribution.binId b).
Proof.
  intros Hnone Hmid. rewrite findActiveBin_well_formed.
  destruct bins as [|first rest]; [discriminate|].
  rewrite (filter_straddled_none Hnone). f_equal. f_equal.
  apply nth_error_nth. exact Hmid.
Qed.

(** X3.  When no bin holds both tokens, [findActiveBin] answers the id of the
    bin at index [floor(length / 2)]. *)
Theorem findActiveBin_middle (bins : list BinDistribution.t) (b : BinDistribution.t) :
  Forall (fun x => straddled x = false) bins ->
  nth_error bins (Nat.div (List.length bins) 2) = Some b ->
  SarosApiService.findActiveBin (Some (map Some bins))
  = JS.Normal (BinDistribution.binId b).
Proof. apply unstraddled_middle. Qed.

Lemma findActiveBin_middle_witness :
  SarosApiService.findActiveBin (Some (map Some [bin 1 10 0; bin 2 0 0; bin 3 0 10]))
  = JS.Normal (BinDistribution.binId (bin 2 0 0)).
Proof.
  apply (@findActiveBin_middle [bin 1 10 0; bin 2 0 0; bin 3 0 10] (bin 2 0 0)).
  - repeat constructor.
  - reflexivity.
Defined.

Module LoopFacts.

Section Steps.
Context {R A : Type} (step : A -> JS.Eff (JS.World * list R) unit).
Hypothesis step_framed : forall x, framed (step x).
Hypothesis step_normal : forall x s, fst (step x s) = JS.Normal tt.

(** One more turn of the loop: what the first step pushed, then what the
    rest of the loop pushes from the world the first step left. *)
Lemma for_of_cons (x : A) (xs : list A) (w : JS.World) :
  pushed (JS.for_of (x :: xs) step (w, []))
  = (pushed (step x (w, []))
     ++ pushed (JS.for_of xs step (world_after (step x (w, [])), [])))%list
  /\ world_after (JS.for_of (x :: xs) step (w, []))
     = world_after (JS.for_of xs step (world_after (step x (w, [])), [])).
Proof.
  cbn [JS.for_of]. unfold JS.bind.
  pose proof (step_normal x (w, [])) as N.
  unfold pushed, world_after.
  destruct (step x (w, [])) as [c [w1 r1]]. cbn in N. subst c. cbn [fst snd].
  rewrite (framed_for_of xs step step_framed w1 r1).
  unfold pushed, world_after. cbn [fst snd]. auto.
Qed.

(** What the loop pushes is the concatenation of what its steps push. *)
Lemma for_of_concat (Q : A -> list R -> Prop) :
  (forall x w, Q x (pushed (step x (w, [])))) ->
  forall xs w, exists ls,
    Forall2 Q xs ls /\ pushed (JS.for_of xs step (w, [])) = List.concat ls.
Proof.
  intros HQ xs. induction xs as [|x xs IH]; intro w.
  - exists []. split; [constructor|reflexivity].
  - destruct (for_of_cons x xs w) as [E _]. rewrite E.
    destruct (IH (world_after (step x (w, [])))) as (ls & Hls & Els).
    exists (pushed (step x (w, [])) :: ls). split.
    + constructor; [apply HQ|exact Hls].
    + cbn [List.concat]. rewrite Els. reflexivity.
Qed.

(** A relation between the world before and after that every step of the
    loop keeps is kept by the loop. *)
Lemma for_of_world (keeps : JS.World -> JS.World -> Prop) (xs : list A) :
  (forall w, keeps w w) ->
  (forall w1 w2 w3, keeps w1 w2 -> keeps w2 w3 -> keeps w1 w3) ->
  (forall x, In x xs -> forall w, keeps w (world_after (step x (w, [])))) ->
  forall w, keeps w (world_after (JS.for_of xs step (w, []))).
Proof.
  intros Hrefl Htrans. induction xs as [|x xs IH]; intros Hstep w.
  - apply Hrefl.
  - destruct (for_of_cons x xs w) as [_ E]. rewrite E.
    apply Htrans with (world_after (step x (w, []))).
    + apply Hstep. left. reflexivity.
    + apply IH. intros y Hy. apply Hstep. right. exact Hy.
Qed.

End Steps.

End LoopFacts.
Import LoopFacts.

Module RuleFacts.

Lemma Api_step_shape (position : RawPosition.t) (w : JS.World) :
  Forall (fun r => RebalanceRecommendation.positionId r = RawPosition.id position)
         (pushed (at_object SarosApiService.analyzePosition position (w, [])))
  /\ (List.length (pushed (at_object SarosApiService.analyzePosition position (w, []))) <= 3)%nat.
Proof.
  unfold at_object, SarosApiService.analyzePosition, JS.object_of, pushed.
  unfold JS.try_catch, JS.bind, JS.lift, JS.when, in_world, push, JS.ret,
    JS.Date_now, JS.console_error, JS.toFixed.
  destruct (SarosApiService.findActiveBin (RawPosition.binDistribution position))
    as [activeBinId|e]; [|cbn; auto].
  destruct (JS.lt activeBinId (RawPosition.lowerBinId position)
            || JS.gt activeBinId (RawPosition.upperBinId position));
  destruct (RawPosition.unclaimedFees position) as [fees|fees];
  destruct (RawPosition.pnlPercentage position) as [pnl|pnl];
  cbn [JS.ToNumber];
  destruct (JS.gt fees (JS.of_Z 50));
  destruct (JS.lt pnl (JS.of_Z (-10)));
  cbn; split; try lia; repeat constructor.
Qed.

End RuleFacts.
Import RuleFacts.

(** X4.  On an array of position objects the bin-domain engine returns; every
    recommendation carries the id of a position of the input, and there are at
    most three per position. *)
Theorem recommendations_refer_to_input (positions : list RawPosition.t) (w : JS.World) :
  exists recs w',
    SarosApiService.generateRebalanceRecommendations (objects positions) w = (JS.Normal recs, w')
    /\ (forall r, In r recs ->
          In (RebalanceRecommendation.positionId r) (map RawPosition.id positions))
    /\ (List.length recs <= 3 * List.length positions)%nat.
Proof.
  rewrite Api_generate_normal. do 2 eexists. split; [reflexivity|].
  destruct (for_of_concat (at_object SarosApiService.analyzePosition) Api_step_framed Api_step_normal
              (fun p l => Forall (fun r => RebalanceRecommendation.positionId r
                                           = RawPosition.id p) l
                          /\ (List.length l <= 3)%nat)
              Api_step_shape positions w) as (ls & Hls & ->).
  clear w. induction Hls as [|p l ps ls [Hid Hlen] _ [IH1 IH2]].
  - split; [intros r []|cbn; lia].
  - cbn [List.concat map List.length]. split.
    + intros r Hr. apply in_app_or in Hr as [Hr|Hr].
      * left. symmetry. rewrite Forall_forall in Hid. apply Hid, Hr.
      * right. apply IH1, Hr.
    + rewrite length_app. lia.
Qed.

Module DeclaredFacts.

Lemma Api_step_declared (position : Position.t) (w : JS.World) :
  let r := at_object SarosApiService.analyzePosition (RawPosition.of_position position) (w, []) in
  JS.console (world_after r) = JS.console w
  /\ JS.ticks (world_after r) = (JS.ticks w + List.length (pushed r))%nat.
Proof.
  unfold at_object, SarosApiService.analyzePosition, JS.object_of, pushed, world_after.
  unfold JS.try_catch, JS.bind, JS.lift, JS.when, in_world, push, JS.ret,
    JS.Date_now, JS.console_error, JS.toFixed.
  cbn [RawPosition.of_position RawPosition.binDistribution RawPosition.unclaimedFees
       RawPosition.pnlPercentage RawPosition.lowerBinId RawPosition.upperBinId
       RawPosition.id JS.ToNumber].
  rewrite findActiveBin_well_formed.
  set (activeBinId := match Position.binDistribution position with
                      | [] => _ | _ :: _ => _ end).
  destruct (JS.lt activeBinId (Position.lowerBinId position)
            || JS.gt activeBinId (Position.upperBinId position));
  destruct (JS.gt (Position.unclaimedFees position) (JS.of_Z 50));
  destruct (JS.lt (Position.pnlPercentage position) (JS.of_Z (-10)));
  cbn; split; try reflexivity; lia.
Qed.

End DeclaredFacts.
Import DeclaredFacts.

(** X5.  On positions of the declared type the bin-domain engine logs nothing:
    the console is left as it was, and the clock is read once per
    recommendation. *)
Theorem declared_positions_never_fail (positions : list Position.t) (w : JS.World) :
  exists recs w',
    SarosApiService.generateRebalanceRecommendations
      (objects (map RawPosition.of_position positions)) w = (JS.Normal recs, w')
    /\ JS.console w' = JS.console w
    /\ JS.ticks w' = (JS.ticks w + List.length recs)%nat.
Proof.
  rewrite Api_generate_normal. do 2 eexists. split; [reflexivity|].
  revert w. induction positions as [|p ps IH]; intro w.
  - cbn. split; [reflexivity|lia].
  - cbn [map].
    destruct (for_of_cons (at_object SarosApiService.analyzePosition) Api_step_framed Api_step_normal
                (RawPosition.of_position p) (map RawPosition.of_position ps) w)
      as [Ep Ew].
    rewrite Ep, Ew. clear Ep Ew.
    destruct (Api_step_declared p w) as [Hc Ht].
    destruct (IH (world_after ((at_object SarosApiService.analyzePosition)
                                 (RawPosition.of_position p) (w, [])))) as [IHc IHt].
    rewrite IHc, IHt, Hc, Ht, length_app. split; [reflexivity|lia].
Qed.

Module SuggestionFacts.

Lemma Qltb_Qeq (a b c d : Q) : a == c -> b == d -> JS.Qltb a b = JS.Qltb c d.
Proof.
  intros Hac Hbd. unfold JS.Qltb. f_equal.
  destruct (Qle_bool b a) eqn:E1, (Qle_bool d c) eqn:E2; try reflexivity.
  - apply Qle_bool_iff in E1. rewrite Hac, Hbd in E1. apply Qle_bool_iff in E1. congruence.
  - apply Qle_bool_iff in E2. rewrite <- Hac, <- Hbd in E2. apply Qle_bool_iff in E2.
    congruence.
Qed.

Lemma gradeOfRatio_Qeq (p q : Q) : p == q -> gradeOfRatio p = gradeOfRatio q.
Proof.
  intro H. unfold gradeOfRatio.
  rewrite (Qltb_Qeq (Qeq_refl 30) H), (Qltb_Qeq (Qeq_refl 20) H),
    (Qltb_Qeq (Qeq_refl 10) H).
  reflexivity.
Qed.

Lemma minDistance_Qeq (a l u m : Q) : a - l == m -> u - a == m -> minDistance a l u == m.
Proof.
  intros H1 H2. unfold minDistance.
  destruct (minQ_cases (a - l) (u - a)) as [-> | ->]; assumption.
Qed.

Lemma suggested_range_is_Excellent (q : Q) :
  SarosApiService.calculateHealth (JS.Fin q) (JS.sub (JS.Fin q) (JS.of_Z 10))
    (JS.add (JS.Fin q) (JS.of_Z 10)) = Excellent
  /\ JS.lt (JS.Fin q) (JS.sub (JS.Fin q) (JS.of_Z 10)) = false
  /\ JS.gt (JS.Fin q) (JS.add (JS.Fin q) (JS.of_Z 10)) = false.
Proof.
  cbn [JS.sub JS.add JS.neg JS.of_Z JS.lt JS.gt].
  change (inject_Z 10) with 10. split; [|split].
  - rewrite unguarded_pos_range by lra.
    rewrite (@gradeOfRatio_Qeq _ 50); [reflexivity|].
    rewrite (@minDistance_Qeq q (q + - 10) (q + 10) 10) by ring.
    field. lra.
  - apply Qltb_false. lra.
  - apply Qltb_false. lra.
Qed.

Lemma Api_step_rebalance (position : RawPosition.t) (w : JS.World) :
  Forall (fun r =>
            RebalanceRecommendation.type r = RebalanceRecommendation.rebalance ->
            exists activeBin,
              SarosApiService.findActiveBin (RawPosition.binDistribution position)
              = JS.Normal activeBin
              /\ RebalanceRecommendation.executionParams r = Some (centred_on activeBin))
         (pushed (at_object SarosApiService.analyzePosition position (w, []))).
Proof.
  unfold at_object, SarosApiService.analyzePosition, JS.object_of, pushed.
  unfold JS.try_catch, JS.bind, JS.lift, JS.when, in_world, push, JS.ret,
    JS.Date_now, JS.console_error, JS.toFixed.
  destruct (SarosApiService.findActiveBin (RawPosition.binDistribution position))
    as [activeBinId|e]; [|cbn; auto].
  destruct (JS.lt activeBinId (RawPosition.lowerBinId position)
            || JS.gt activeBinId (RawPosition.upperBinId position));
  destruct (RawPosition.unclaimedFees position) as [fees|fees];
  destruct (RawPosition.pnlPercentage position) as [pnl|pnl];
  cbn [JS.ToNumber];
  destruct (JS.gt fees (JS.of_Z 50));
  destruct (JS.lt pnl (JS.of_Z (-10)));
  cbn; repeat constructor; cbn; intro H; try discriminate H;
  exists activeBinId; split; reflexivity.
Qed.

End SuggestionFacts.
Import SuggestionFacts.

(** X6.  On an array of position objects, every rebalance recommendation of the
    bin-domain engine belongs to a position of the input whose active bin the
    engine resolved; when that active bin is an integer of magnitude at most [2
    ^ 52], the recommendation suggests the range of ten bins on either side of
    it, which contains it and grades Excellent. *)
Theorem rebalance_suggestion_is_centred (positions : list RawPosition.t) (w : JS.World) :
  exists recs w',
    SarosApiService.generateRebalanceRecommendations (objects positions) w = (JS.Normal recs, w')
    /\ forall r, In r recs ->
         RebalanceRecommendation.type r = RebalanceRecommendation.rebalance ->
         exists position activeBin,
           In position positions
           /\ SarosApiService.findActiveBin (RawPosition.binDistribution position)
              = JS.Normal activeBin
           /\ forall a, activeBin = JS.of_Z a -> JS.exact_integer a ->
                RebalanceRecommendation.executionParams r = Some (centred_on (JS.of_Z a))
                /\ SarosApiService.calculateHealth (JS.of_Z a)
                     (JS.sub (JS.of_Z a) (JS.of_Z 10)) (JS.add (JS.of_Z a) (JS.of_Z 10))
                   = Excellent
                /\ JS.lt (JS.of_Z a) (JS.sub (JS.of_Z a) (JS.of_Z 10)) = false
                /\ JS.gt (JS.of_Z a) (JS.add (JS.of_Z a) (JS.of_Z 10)) = false.
Proof.
  rewrite Api_generate_normal. do 2 eexists. split; [reflexivity|].
  destruct (for_of_concat (at_object SarosApiService.analyzePosition) Api_step_framed Api_step_normal
              (fun position l =>
                 Forall (fun r =>
                   RebalanceRecommendation.type r = RebalanceRecommendation.rebalance ->
                   exists activeBin,
                     SarosApiService.findActiveBin (RawPosition.binDistribution position)
                     = JS.Normal activeBin
                     /\ RebalanceRecommendation.executionParams r
                        = Some (centred_on activeBin)) l)
              Api_step_rebalance positions w) as (ls & Hls & ->).
  clear w. induction Hls as [|p l ps ls Hp _ IH]; intros r Hr Ht.
  - destruct Hr.
  - cbn [List.concat] in Hr. apply in_app_or in Hr as [Hr|Hr].
    + rewrite Forall_forall in Hp. destruct (Hp r Hr Ht) as (a & Ha & He).
      exists p, a. split; [left; reflexivity|]. split; [exact Ha|].
      intros z -> _. split; [exact He|]. apply suggested_range_is_Excellent.
    + destruct (IH r Hr Ht) as (p' & a & Hin & H).
      exists p', a. split; [right; exact Hin|exact H].
Qed.

Module PriceRuleFacts.

Lemma sort_insert_permutation {A : Type} (compare : A -> A -> JS.number) (x : A)
  (l : list A) : Permutation (JS.sort_insert compare x l) (x :: l).
Proof.
  induction l as [|y l IH]; [apply Permutation_refl|].
  cbn [JS.sort_insert]. destruct (JS.gt (compare x y) (JS.of_Z 0)).
  - apply Permutation_trans with (y :: x :: l).
    + apply perm_skip, IH.
    + apply perm_swap.
  - apply Permutation_refl.
Qed.

Lemma Array_sort_permutation {A : Type} (compare : A -> A -> JS.number) (l : list A) :
  Permutation (JS.Array_sort compare l) l.
Proof.
  induction l as [|x l IH]; [apply Permutation_refl|].
  unfold JS.Array_sort in *. cbn [fold_right].
  apply Permutation_trans with (x :: fold_right (JS.sort_insert compare) [] l).
  - apply sort_insert_permutation.
  - apply perm_skip, IH.
Qed.

Lemma Real_step_shape (position : RawPosition.t) (w : JS.World) :
  let r := at_object RealSarosService.analyzePosition position (w, []) in
  Forall (fun rec => RebalanceRecommendation.positionId rec = RawPosition.id position)
         (pushed r)
  /\ (List.length (pushed r) <= 1)%nat
  /\ same_but_console w (world_after r).
Proof.
  unfold at_object, RealSarosService.analyzePosition, JS.object_of, pushed, world_after, same_but_console.
  unfold JS.try_catch, JS.bind, JS.lift, in_world, push, JS.ret, JS.console_error,
    RealSarosService.priceRange_of.
  destruct (RawPosition.priceRange position) as [range|].
  - repeat match goal with
           | |- context [if ?c then _ else _] => destruct c
           end; cbn; repeat split; try lia; repeat constructor.
  - cbn. repeat split; try lia; constructor.
Qed.

End PriceRuleFacts.
Import PriceRuleFacts.

(** X7.  On an array of position objects the price-domain engine returns, with
    at most one recommendation per position, each carrying the id of a position
    of the input; it reads neither the clock nor the random source. *)
Theorem price_engine_one_per_position (positions : list RawPosition.t) (w : JS.World) :
  exists recs w',
    RealSarosService.generateRebalanceRecommendations (objects positions) w = (JS.Normal recs, w')
    /\ (List.length recs <= List.length positions)%nat
    /\ (forall r, In r recs ->
          In (RebalanceRecommendation.positionId r) (map RawPosition.id positions))
    /\ same_but_console w w'.
Proof.
  unfold RealSarosService.generateRebalanceRecommendations, JS.bind.
  rewrite Real_collect_normal. unfold JS.ret. do 2 eexists. split; [reflexivity|].
  set (sorted := JS.Array_sort _ _).
  assert (Hperm : Permutation sorted
                    (pushed (JS.for_of positions (at_object RealSarosService.analyzePosition) (w, []))))
    by apply Array_sort_permutation.
  assert (H : (List.length (pushed (JS.for_of positions
                                      (at_object RealSarosService.analyzePosition) (w, [])))
               <= List.length positions)%nat
              /\ (forall r, In r (pushed (JS.for_of positions
                                            (at_object RealSarosService.analyzePosition) (w, []))) ->
                    In (RebalanceRecommendation.positionId r)
                       (map RawPosition.id positions))
              /\ same_but_console w
                   (world_after (JS.for_of positions
                                   (at_object RealSarosService.analyzePosition) (w, [])))).
  { clear. revert w. induction positions as [|p ps IH]; intro w.
    - cbn. repeat split; [lia|intros r []].
    - destruct (for_of_cons (at_object RealSarosService.analyzePosition) Real_step_framed
                  Real_step_normal p ps w) as [Ep Ew].
      rewrite Ep, Ew. clear Ep Ew.
      destruct (Real_step_shape p w) as (Hid & Hlen & Hw).
      destruct (IH (world_after (at_object RealSarosService.analyzePosition p (w, []))))
        as (IHlen & IHid & IHw).
      split; [|split].
      + rewrite length_app. cbn [List.length]. lia.
      + intros r Hr. apply in_app_or in Hr as [Hr|Hr]; cbn [map].
        * left. symmetry. rewrite Forall_forall in Hid. apply Hid, Hr.
        * right. apply IHid, Hr.
      + unfold same_but_console in *.
        destruct Hw as (A1 & A2 & A3 & A4), IHw as (B1 & B2 & B3 & B4).
        repeat split; congruence. }
  destruct H as (Hlen & Hid & Hw). split; [|split].
  - rewrite (Permutation_length Hperm). exact Hlen.
  - intros r Hr. apply Hid. apply (Permutation_in _ Hperm Hr).
  - exact Hw.
Qed.

(** X30.  A [null] or [undefined] element makes the price-domain engine reject:
    the [catch] block throws in turn, on [position.id], and no recommendation is
    returned. *)
Theorem price_engine_null_element (elements : list (option RawPosition.t)) (w : JS.World) :
  In None elements ->
  exists message w',
    RealSarosService.generateRebalanceRecommendations elements w
    = (JS.Throw (JS.TypeError message), w').
Proof.
  intro H. destruct (Real_null_element elements w H) as [w' E]. eexists _, w'. exact E.
Qed.

Lemma price_engine_null_element_witness :
  exists message w',
    RealSarosService.generateRebalanceRecommendations
      [Some (atPrice "p" 150); None] world0
    = (JS.Throw (JS.TypeError message), w').
Proof.
  apply (@price_engine_null_element [Some (atPrice "p" 150); None] world0).
  right. left. reflexivity.
Defined.

Module PriceRuleFacts2.

Lemma Real_generate_single (position : RawPosition.t) (w : JS.World) :
  RealSarosService.generateRebalanceRecommendations (objects [position]) w
  = (JS.Normal (pushed (at_object RealSarosService.analyzePosition position (w, []))),
     world_after (at_object RealSarosService.analyzePosition position (w, []))).
Proof.
  unfold RealSarosService.generateRebalanceRecommendations, JS.bind.
  rewrite Real_collect_normal. unfold JS.ret.
  destruct (for_of_cons (at_object RealSarosService.analyzePosition) Real_step_framed
              Real_step_normal position [] w) as [Ep Ew].
  rewrite Ep, Ew. cbn [JS.for_of]. unfold JS.ret, pushed at 2, world_after at 1.
  cbn [fst snd]. rewrite app_nil_r.
  f_equal. destruct (Real_step_shape position w) as (_ & Hlen & _).
  destruct (pushed (at_object RealSarosService.analyzePosition position (w, []))) as [|r [|r' l]];
    [reflexivity|reflexivity|cbn in Hlen; lia].
Qed.

Lemma utilization_finite (mn mx c : Q) :
  ~ mx - mn == 0 ->
  JS.div (JS.sub (JS.Fin c) (JS.Fin mn)) (JS.sub (JS.Fin mx) (JS.Fin mn))
  = JS.Fin ((c - mn) / (mx - mn)).
Proof.
  intro H. cbn [JS.sub JS.add JS.neg JS.div]. rewrite Qeq_bool_false by exact H.
  reflexivity.
Qed.

(** A position whose price sits between 20 % and 80 % of its range draws
    nothing and leaves the world as it is. *)
Lemma Real_step_quiet (position : RawPosition.t) (mn mx c : Q) (w : JS.World) :
  RawPosition.priceRange position
  = Some {| Position.min := JS.Fin mn; Position.max := JS.Fin mx;
            Position.current := JS.Fin c |} ->
  0 < mx - mn -> 1 # 5 <= (c - mn) / (mx - mn) <= 4 # 5 ->
  at_object RealSarosService.analyzePosition position (w, []) = (JS.Normal tt, (w, [])).
Proof.
  intros Hrange Hpos [Hlo Hhi].
  unfold at_object, RealSarosService.analyzePosition, JS.object_of.
  unfold JS.try_catch, JS.bind, JS.lift, RealSarosService.priceRange_of.
  rewrite Hrange. cbn [Position.min Position.max Position.current].
  rewrite utilization_finite by lra.
  cbn [JS.lt JS.gt].
  assert (E1 : JS.Qltb ((c - mn) / (mx - mn)) 0.1 = false) by (apply Qltb_false; lra).
  assert (E2 : JS.Qltb 0.9 ((c - mn) / (mx - mn)) = false) by (apply Qltb_false; lra).
  assert (E3 : JS.Qltb ((c - mn) / (mx - mn)) 0.2 = false) by (apply Qltb_false; lra).
  assert (E4 : JS.Qltb 0.8 ((c - mn) / (mx - mn)) = false) by (apply Qltb_false; lra).
  rewrite E1, E2, E3, E4. reflexivity.
Qed.

Lemma settles_single (position : RawPosition.t)
  (range : Position.priceRange_t) (c : Q) (r : RebalanceRecommendation.t)
  (w : JS.World) :
  RawPosition.priceRange position = Some range ->
  Position.current range = JS.Fin c ->
  0 < c ->
  fst (RealSarosService.generateRebalanceRecommendations (objects [position]) w) = JS.Normal [r] ->
  RebalanceRecommendation.type r = RebalanceRecommendation.rebalance ->
  exists suggested,
    suggestedRange_of r = Some suggested
    /\ JS.lt (JS.Fin c) (PriceRange.min suggested) = false
    /\ JS.gt (JS.Fin c) (PriceRange.max suggested) = false
    /\ RealSarosService.generateRebalanceRecommendations
         (objects [re_ranged position suggested]) w = (JS.Normal [], w).
Proof.
  intros Hrange Hc Hpos Hrun Htype.
  rewrite Real_generate_single in Hrun. cbn [fst] in Hrun.
  unfold at_object, RealSarosService.analyzePosition, JS.object_of, pushed in Hrun.
  unfold JS.try_catch, JS.bind, JS.lift, RealSarosService.priceRange_of, push in Hrun.
  rewrite Hrange in Hrun. rewrite Hc in Hrun.
  set (u := JS.div _ _) in Hrun.
  assert (Hsettle : forall lo hi : Q,
            0 < hi - lo -> 1 # 5 <= (c - c * lo) / (c * hi - c * lo) <= 4 # 5 ->
            1 - lo >= 0 -> hi - 1 >= 0 ->
            forall suggested,
              suggested = {| PriceRange.min := JS.mul (JS.Fin c) (JS.Fin lo);
                             PriceRange.max := JS.mul (JS.Fin c) (JS.Fin hi);
                             PriceRange.lowerBinId := None;
                             PriceRange.upperBinId := None |} ->
              JS.lt (JS.Fin c) (PriceRange.min suggested) = false
              /\ JS.gt (JS.Fin c) (PriceRange.max suggested) = false
              /\ RealSarosService.generateRebalanceRecommendations
                   (objects [re_ranged position suggested]) w = (JS.Normal [], w)).
  { intros lo hi Hw Hu Hlo Hhi suggested ->.
    cbn [PriceRange.min PriceRange.max JS.mul JS.lt JS.gt].
    split; [apply Qltb_false; nra|]. split; [apply Qltb_false; nra|].
    rewrite Real_generate_single.
    rewrite (@Real_step_quiet _ (c * lo) (c * hi) c w).
    - reflexivity.
    - unfold re_ranged. cbn [RawPosition.priceRange]. rewrite Hrange, Hc. reflexivity.
    - nra.
    - exact Hu. }
  destruct (JS.lt u (JS.Fin 0.1)).
  - cbn in Hrun. injection Hrun as <-. eexists. split; [reflexivity|].
    apply (Hsettle 0.95 1.15); try lra; [|reflexivity].
    assert (E : (c - c * 0.95) / (c * 1.15 - c * 0.95) == 1 # 4) by (field; lra).
    rewrite E. split; lra.
  - destruct (JS.gt u (JS.Fin 0.9)).
    + cbn in Hrun. injection Hrun as <-. eexists. split; [reflexivity|].
      apply (Hsettle 0.85 1.05); try lra; [|reflexivity].
      assert (E : (c - c * 0.85) / (c * 1.05 - c * 0.85) == 3 # 4) by (field; lra).
      rewrite E. split; lra.
    + destruct (JS.lt u (JS.Fin 0.2) || JS.gt u (JS.Fin 0.8)).
      * cbn in Hrun. injection Hrun as <-. discriminate Htype.
      * cbn in Hrun. discriminate Hrun.
Qed.

Lemma moderate_positive_pos (c : Q) : JS.moderate_positive c -> 0 < c.
Proof.
  intros [H _]. apply Qlt_le_trans with (/ inject_Z (10 ^ 300)); [|exact H].
  apply Qinv_lt_0_compat. reflexivity.
Qed.

End PriceRuleFacts2.
Import PriceRuleFacts2.

(** X8.  A position object whose current price lies outside its price range, all
    three prices of moderate magnitude, draws exactly one recommendation,
    rebalance with priority high: a shift up below the range, a shift down above
    it. The world is left unchanged. *)
Theorem price_outside_range_rebalances (position : RawPosition.t) (mn mx c : Q)
  (w : JS.World) :
  RawPosition.priceRange position
  = Some {| Position.min := JS.Fin mn; Position.max := JS.Fin mx;
            Position.current := JS.Fin c |} ->
  JS.moderate mn -> JS.moderate mx -> JS.moderate c ->
  mn < mx ->
  c < mn \/ mx < c ->
  exists r,
    RealSarosService.generateRebalanceRecommendations (objects [position]) w = (JS.Normal [r], w)
    /\ RebalanceRecommendation.type r = RebalanceRecommendation.rebalance
    /\ RebalanceRecommendation.priority r = RebalanceRecommendation.high
    /\ option_map ExecutionParams.type (RebalanceRecommendation.executionParams r)
       = Some (if JS.Qltb c mn then ExecutionParams.shift_up
               else ExecutionParams.shift_down).
Proof.
  intros Hrange _ _ _ Hlt Hout. rewrite Real_generate_single.
  unfold at_object, RealSarosService.analyzePosition, JS.object_of, pushed, world_after.
  unfold JS.try_catch, JS.bind, JS.lift, RealSarosService.priceRange_of, push.
  rewrite Hrange. cbn [Position.min Position.max Position.current].
  rewrite utilization_finite by lra.
  cbn [JS.lt JS.gt].
  destruct Hout as [Hlow|Hhigh].
  - assert (E : JS.Qltb ((c - mn) / (mx - mn)) 0.1 = true).
    { apply Qltb_true. apply Qlt_shift_div_r; lra. }
    assert (Ec : JS.Qltb c mn = true) by (apply Qltb_true; exact Hlow).
    rewrite E, Ec. cbn. eexists. repeat split.
  - assert (E1 : JS.Qltb ((c - mn) / (mx - mn)) 0.1 = false).
    { apply Qltb_false. apply Qle_shift_div_l; lra. }
    assert (E2 : JS.Qltb 0.9 ((c - mn) / (mx - mn)) = true).
    { apply Qltb_true. apply Qlt_shift_div_l; lra. }
    assert (Ec : JS.Qltb c mn = false) by (apply Qltb_false; lra).
    rewrite E1, E2, Ec. cbn. eexists. repeat split.
Qed.

Lemma price_outside_range_rebalances_witness :
  exists r,
    RealSarosService.generateRebalanceRecommendations (objects [atPrice "p" 150]) world0
    = (JS.Normal [r], world0)
    /\ RebalanceRecommendation.type r = RebalanceRecommendation.rebalance
    /\ RebalanceRecommendation.priority r = RebalanceRecommendation.high
    /\ option_map ExecutionParams.type (RebalanceRecommendation.executionParams r)
       = Some ExecutionParams.shift_down.
Proof.
  apply (@price_outside_range_rebalances (atPrice "p" 150)
           (inject_Z 0) (inject_Z 100) (inject_Z 150) world0).
  - reflexivity.
  - split; vm_compute; discriminate.
  - split; vm_compute; discriminate.
  - split; vm_compute; discriminate.
  - reflexivity.
  - right. reflexivity.
Defined.

(** X9.  For a current price of moderate positive magnitude, the range a
    rebalance recommendation suggests contains the price, and the position moved
    to that range draws no recommendation. *)
Theorem suggested_price_range_settles (position : RawPosition.t)
  (range : Position.priceRange_t) (c : Q) (w : JS.World) :
  RawPosition.priceRange position = Some range ->
  Position.current range = JS.Fin c ->
  JS.moderate_positive c ->
  exists recs w',
    RealSarosService.generateRebalanceRecommendations (objects [position]) w = (JS.Normal recs, w')
    /\ forall r, In r recs ->
         RebalanceRecommendation.type r = RebalanceRecommendation.rebalance ->
         exists suggested,
           suggestedRange_of r = Some suggested
           /\ JS.lt (JS.Fin c) (PriceRange.min suggested) = false
           /\ JS.gt (JS.Fin c) (PriceRange.max suggested) = false
           /\ RealSarosService.generateRebalanceRecommendations
                (objects [re_ranged position suggested]) w = (JS.Normal [], w).
Proof.
  intros Hrange Hc Hmod. pose proof (moderate_positive_pos Hmod) as Hpos.
  pose proof (Real_generate_single position w) as E.
  destruct (Real_step_shape position w) as (_ & Hlen & _). cbv zeta in Hlen.
  do 2 eexists. split; [exact E|].
  intros r Hin Htype.
  destruct (pushed (at_object RealSarosService.analyzePosition position (w, []))) as [|r0 [|r1 l]]
    eqn:Ep; [destruct Hin| |cbn in Hlen; lia].
  destruct Hin as [<-|[]].
  apply (@settles_single position range c r0 w Hrange Hc Hpos); [|exact Htype].
  rewrite E. reflexivity.
Qed.

Lemma suggested_price_range_settles_witness :
  exists recs w',
    RealSarosService.generateRebalanceRecommendations (objects [atPrice "p" 150]) world0
    = (JS.Normal recs, w')
    /\ forall r, In r recs ->
         RebalanceRecommendation.type r = RebalanceRecommendation.rebalance ->
         exists suggested,
           suggestedRange_of r = Some suggested
           /\ JS.lt (JS.of_Z 150) (PriceRange.min suggested) = false
           /\ JS.gt (JS.of_Z 150) (PriceRange.max suggested) = false
           /\ RealSarosService.generateRebalanceRecommendations
                (objects [re_ranged (atPrice "p" 150) suggested]) world0
              = (JS.Normal [], world0).
Proof.
  apply (@suggested_price_range_settles (atPrice "p" 150)
           {| Position.min := JS.of_Z 0; Position.max := JS.of_Z 100;
              Position.current := JS.of_Z 150 |} (inject_Z 150) world0).
  - reflexivity.
  - reflexivity.
  - split; vm_compute; discriminate.
Defined.

Module SimulationFacts.

Lemma Math_min_capped (x : JS.number) (cap : Q) :
  JS.gt (JS.Math_min x (JS.Fin cap)) (JS.Fin cap) = false.
Proof.
  destruct x as [q| | |]; cbn [JS.Math_min JS.lt JS.gt]; try reflexivity.
  - destruct (JS.Qltb cap q) eqn:E; cbn [JS.lt].
    + apply Qltb_false. apply Qle_refl.
    + exact E.
  - apply Qltb_false. apply Qle_refl.
Qed.

Lemma clamp_percent (x : JS.number) :
  NaN_or_within 0.05 1
    (JS.div (JS.Math_max (JS.of_Z 5) (JS.Math_min x (JS.of_Z 100))) (JS.of_Z 100)).
Proof.
  assert (H : forall q, 5 <= q <= 100 ->
            NaN_or_within 0.05 1 (JS.div (JS.Fin q) (JS.of_Z 100))).
  { intros q Hq. right. exists (q / 100). split; [reflexivity|].
    split.
    - apply Qle_shift_div_l; lra.
    - apply Qle_shift_div_r; lra. }
  unfold JS.of_Z. change (inject_Z 5) with 5. change (inject_Z 100) with 100.
  destruct x as [q| | |]; cbn [JS.Math_min JS.Math_max JS.lt].
  - destruct (JS.Qltb 100 q) eqn:E1; cbn [JS.Math_max JS.lt].
    + apply (H 100). lra.
    + apply Qltb_false in E1.
      destruct (JS.Qltb 5 q) eqn:E2.
      * apply Qltb_true in E2. apply H. lra.
      * apply (H 5). lra.
  - apply (H 100). lra.
  - apply (H 5). lra.
  - left. reflexivity.
Qed.

Lemma volatility_capped_if_normal (position : RawPosition.t) (v : JS.number) :
  RealSarosService.estimateVolatility position = JS.Normal v ->
  JS.gt v (JS.Fin 0.5) = false.
Proof.
  unfold RealSarosService.estimateVolatility, RealSarosService.priceRange_of.
  destruct (RawPosition.priceRange position); [|discriminate].
  intro H. injection H as <-. apply Math_min_capped.
Qed.

Lemma return_clamped_if_normal (position : RawPosition.t) (strategy : string)
  (timeHorizon : option string) (w w' : JS.World) (result : StrategySimulationResult.t) :
  RealSarosService.simulateStrategy position strategy timeHorizon w
  = (JS.Normal result, w') ->
  exists expectedReturn,
    StrategySimulationResult.expectedReturn result = Some expectedReturn
    /\ NaN_or_within 0.05 1 expectedReturn.
Proof.
  unfold RealSarosService.simulateStrategy.
  unfold JS.try_catch, JS.bind, JS.lift, JS.get, JS.Math_random, JS.ret, JS.throw,
    JS.console_error.
  destruct (RealSarosService.estimateVolatility position) as [v|e]; [|discriminate].
  destruct (JS.lookup RealSarosService.strategyConfigs strategy) as [config| |];
    [| |discriminate];
    intro H; injection H as <- _; cbn [StrategySimulationResult.expectedReturn];
    eexists; (split; [reflexivity|first [apply clamp_percent | left; reflexivity]]).
Qed.

Lemma confidence_band_if_normal (position : RawPosition.t) (strategy : string)
  (timeHorizon : option string) (w w' : JS.World) (result : StrategySimulationResult.t) :
  0 <= JS.random w (JS.draws w) < 1 ->
  RealSarosService.simulateStrategy position strategy timeHorizon w
  = (JS.Normal result, w') ->
  JS.draws w' = S (JS.draws w)
  /\ exists q, StrategySimulationResult.confidence result = JS.Fin q
               /\ 0.75 <= q <= 0.95.
Proof.
  intro Hr.
  unfold RealSarosService.simulateStrategy.
  unfold JS.try_catch, JS.bind, JS.lift, JS.get, JS.Math_random, JS.ret, JS.throw,
    JS.console_error.
  destruct (RealSarosService.estimateVolatility position) as [v|e]; [|discriminate].
  destruct (JS.lookup RealSarosService.strategyConfigs strategy) as [config| |];
    [| |discriminate];
    intro H; injection H as <- <-;
    cbn [StrategySimulationResult.confidence JS.draws JS.add JS.mul];
    (split; [reflexivity|]); eexists; (split; [reflexivity|]); lra.
Qed.

Lemma known_lookup (A : Type) (table : list (string * A)) (name : string) :
  known table name = true -> exists config, JS.lookup table name = JS.Own config.
Proof.
  unfold known, JS.lookup. intro H.
  destruct (find (fun kv => String.eqb name (fst kv)) table) as [kv|] eqn:E.
  - exists (snd kv). reflexivity.
  - apply existsb_exists in H as (kv & Hin & Hkv).
    pose proof (find_none _ _ E kv Hin) as Hn. cbn beta in Hn. congruence.
Qed.

Lemma simulate_known_normal (position : RawPosition.t) (range : Position.priceRange_t)
  (strategy : string) (timeHorizon : option string) (w : JS.World) :
  RawPosition.priceRange position = Some range ->
  known RealSarosService.strategyConfigs strategy = true ->
  exists result w',
    RealSarosService.simulateStrategy position strategy timeHorizon w
    = (JS.Normal result, w')
    /\ JS.console w' = JS.console w.
Proof.
  intros Hrange Hknown. destruct (@known_lookup _ _ _ Hknown) as [config Hconfig].
  unfold RealSarosService.simulateStrategy.
  unfold JS.try_catch, JS.bind, JS.lift, JS.get, JS.Math_random, JS.ret, JS.throw,
    JS.console_error, RealSarosService.estimateVolatility, RealSarosService.priceRange_of.
  rewrite Hrange, Hconfig. do 2 eexists. split; reflexivity.
Qed.

End SimulationFacts.
Import SimulationFacts.

(** X10.  The volatility estimate of a position with a price range is never
    above 0.5. *)
Theorem estimateVolatility_capped (position : RawPosition.t)
  (range : Position.priceRange_t) :
  RawPosition.priceRange position = Some range ->
  exists v,
    RealSarosService.estimateVolatility position = JS.Normal v
    /\ JS.gt v (JS.Fin 0.5) = false.
Proof.
  intro Hrange.
  assert (E : exists v, RealSarosService.estimateVolatility position = JS.Normal v).
  { unfold RealSarosService.estimateVolatility, RealSarosService.priceRange_of.
    rewrite Hrange. eexists. reflexivity. }
  destruct E as [v E]. exists v. split; [exact E|].
  eapply volatility_capped_if_normal. exact E.
Qed.

Lemma estimateVolatility_capped_witness :
  exists v,
    RealSarosService.estimateVolatility outOfRangeLosing = JS.Normal v
    /\ JS.gt v (JS.Fin 0.5) = false.
Proof.
  apply (@estimateVolatility_capped outOfRangeLosing
           {| Position.min := JS.of_Z 95; Position.max := JS.of_Z 105;
              Position.current := JS.of_Z 100 |}).
  reflexivity.
Defined.

(** X11.  For a position with a price range and one of the three profiles, the
    price-domain simulation returns, writes nothing to the console, and its
    expected return is NaN or lies between 5 % and 100 %. *)
Theorem simulated_return_is_clamped (position : RawPosition.t)
  (range : Position.priceRange_t) (strategy : string) (timeHorizon : option string)
  (w : JS.World) :
  RawPosition.priceRange position = Some range ->
  known RealSarosService.strategyConfigs strategy = true ->
  exists result w',
    RealSarosService.simulateStrategy position strategy timeHorizon w
    = (JS.Normal result, w')
    /\ JS.console w' = JS.console w
    /\ exists expectedReturn,
         StrategySimulationResult.expectedReturn result = Some expectedReturn
         /\ NaN_or_within 0.05 1 expectedReturn.
Proof.
  intros Hrange Hknown.
  destruct (@simulate_known_normal position range strategy timeHorizon w Hrange Hknown)
    as (result & w' & E & Hconsole).
  exists result, w'. split; [exact E|]. split; [exact Hconsole|].
  eapply return_clamped_if_normal. exact E.
Qed.

Lemma simulated_return_is_clamped_witness :
  exists result w',
    RealSarosService.simulateStrategy outOfRangeLosing "balanced" None world0
    = (JS.Normal result, w')
    /\ JS.console w' = JS.console world0
    /\ exists expectedReturn,
         StrategySimulationResult.expectedReturn result = Some expectedReturn
         /\ NaN_or_within 0.05 1 expectedReturn.
Proof.
  apply (@simulated_return_is_clamped outOfRangeLosing
           {| Position.min := JS.of_Z 95; Position.max := JS.of_Z 105;
              Position.current := JS.of_Z 100 |} "balanced" None world0).
  - reflexivity.
  - reflexivity.
Defined.

(** X12.  With a draw of [Math.random] in [0, 1), the price-domain simulation
    consumes exactly that draw and reports a confidence from 0.75 to 0.95, both
    included. *)
Theorem simulated_confidence_band (position : RawPosition.t)
  (range : Position.priceRange_t) (strategy : string) (timeHorizon : option string)
  (w : JS.World) :
  RawPosition.priceRange position = Some range ->
  known RealSarosService.strategyConfigs strategy = true ->
  0 <= JS.random w (JS.draws w) < 1 ->
  exists result w',
    RealSarosService.simulateStrategy position strategy timeHorizon w
    = (JS.Normal result, w')
    /\ JS.draws w' = S (JS.draws w)
    /\ exists q, StrategySimulationResult.confidence result = JS.Fin q
                 /\ 0.75 <= q <= 0.95.
Proof.
  intros Hrange Hknown Hr.
  destruct (@simulate_known_normal position range strategy timeHorizon w Hrange Hknown)
    as (result & w' & E & _).
  exists result, w'. split; [exact E|].
  eapply confidence_band_if_normal; [exact Hr|exact E].
Qed.

Lemma simulated_confidence_band_witness :
  exists result w',
    RealSarosService.simulateStrategy outOfRangeLosing "aggressive" None world0
    = (JS.Normal result, w')
    /\ JS.draws w' = S (JS.draws world0)
    /\ exists q, StrategySimulationResult.confidence result = JS.Fin q
                 /\ 0.75 <= q <= 0.95.
Proof.
  apply (@simulated_confidence_band outOfRangeLosing
           {| Position.min := JS.of_Z 95; Position.max := JS.of_Z 105;
              Position.current := JS.of_Z 100 |} "aggressive" None world0).
  - reflexivity.
  - reflexivity.
  - split; [discriminate|reflexivity].
Defined.

Module ConversionFacts.
Import WalletSarosApiService.

Lemma finite_list (l : list JS.number) :
  Forall finite l -> exists qs, l = map JS.Fin qs.
Proof.
  induction 1 as [|x l [q ->] _ [qs ->]].
  - exists []. reflexivity.
  - exists (q :: qs). reflexivity.
Qed.

Lemma fold_min_Fin (qs : list Q) (a : Q) :
  exists m, fold_left JS.Math_min (map JS.Fin qs) (JS.Fin a) = JS.Fin m
            /\ m <= a /\ Forall (fun q => m <= q) qs.
Proof.
  revert a. induction qs as [|q qs IH]; intro a.
  - exists a. split; [reflexivity|]. split; [apply Qle_refl|constructor].
  - cbn [map fold_left]. rewrite Math_min_Fin.
    destruct (IH (minQ a q)) as (m & E & Hm & Hall).
    exists m. split; [exact E|].
    pose proof (minQ_le_l a q). pose proof (minQ_le_r a q).
    split; [lra|]. constructor; [lra|exact Hall].
Qed.

Lemma Math_min_of_Fin (q : Q) (qs : list Q) :
  exists m, Math_min_of (map JS.Fin (q :: qs)) = JS.Fin m
            /\ Forall (fun x => m <= x) (q :: qs).
Proof.
  unfold Math_min_of. cbn [map fold_left JS.Math_min JS.lt].
  destruct (fold_min_Fin qs q) as (m & E & Hm & Hall).
  exists m. split; [exact E|]. constructor; assumption.
Qed.

Lemma Math_max_Fin (x y : Q) :
  JS.Math_max (JS.Fin x) (JS.Fin y) = JS.Fin (if JS.Qltb x y then y else x).
Proof. unfold JS.Math_max, JS.lt. destruct (JS.Qltb x y); reflexivity. Qed.

Lemma fold_max_Fin (qs : list Q) (a : Q) :
  exists m, fold_left JS.Math_max (map JS.Fin qs) (JS.Fin a) = JS.Fin m
            /\ a <= m /\ Forall (fun q => q <= m) qs.
Proof.
  revert a. induction qs as [|q qs IH]; intro a.
  - exists a. split; [reflexivity|]. split; [apply Qle_refl|constructor].
  - cbn [map fold_left]. rewrite Math_max_Fin.
    destruct (IH (if JS.Qltb a q then q else a)) as (m & E & Hm & Hall).
    exists m. split; [exact E|].
    destruct (JS.Qltb a q) eqn:Eq.
    + apply Qltb_true in Eq. split; [lra|]. constructor; [lra|exact Hall].
    + apply Qltb_false in Eq. split; [lra|]. constructor; [lra|exact Hall].
Qed.

Lemma Math_max_of_Fin (q : Q) (qs : list Q) :
  exists m, Math_max_of (map JS.Fin (q :: qs)) = JS.Fin m
            /\ Forall (fun x => x <= m) (q :: qs).
Proof.
  unfold Math_max_of. cbn [map fold_left JS.Math_max JS.lt].
  destruct (fold_max_Fin qs q) as (m & E & Hm & Hall).
  exists m. split; [exact E|]. constructor; assumption.
Qed.

(** The bin range of a converted position that has bins. *)
Lemma converted_range (poolPos : SarosPoolPosition)
  (binPositions : option (list SarosBinPosition)) :
  let p := convertPoolPosition poolPos binPositions in
  Position.binDistribution p <> [] ->
  Forall finite (map BinDistribution.binId (Position.binDistribution p)) ->
  exists lo hi,
    Position.lowerBinId p = JS.Fin lo /\ Position.upperBinId p = JS.Fin hi
    /\ forall b, In b (Position.binDistribution p) ->
         exists q, BinDistribution.binId b = JS.Fin q /\ lo <= q <= hi.
Proof.
  intros p Hne Hfin. subst p.
  unfold convertPoolPosition in *.
  cbn [Position.binDistribution Position.lowerBinId Position.upperBinId] in *.
  set (bins := getBinDistributionForPosition (pair_id poolPos) binPositions) in *.
  destruct (finite_list Hfin) as [qs Hqs].
  destruct bins as [|b0 bins'] eqn:Eb; [contradiction|].
  cbn [List.length Nat.ltb Nat.leb].
  destruct qs as [|q0 qs']; [discriminate|].
  rewrite Hqs.
  destruct (Math_min_of_Fin q0 qs') as (lo & -> & Hlo).
  destruct (Math_max_of_Fin q0 qs') as (hi & -> & Hhi).
  exists lo, hi. split; [reflexivity|]. split; [reflexivity|].
  intros b Hb.
  assert (Hin : In (BinDistribution.binId b) (map JS.Fin (q0 :: qs'))).
  { rewrite <- Hqs. apply in_map. exact Hb. }
  apply in_map_iff in Hin as (q & Hq & Hqin).
  exists q. split; [symmetry; exact Hq|].
  rewrite Forall_forall in Hlo, Hhi. split; [apply Hlo|apply Hhi]; exact Hqin.
Qed.

Lemma findActiveBin_member (bins : list BinDistribution.t) :
  bins <> [] ->
  exists b, In b bins
            /\ SarosApiService.findActiveBin (Some (map Some bins))
               = JS.Normal (BinDistribution.binId b).
Proof.
  intro Hne. rewrite findActiveBin_well_formed.
  destruct bins as [|first rest]; [contradiction|].
  destruct (filter straddled (first :: rest)) as [|b actives] eqn:E.
  - eexists. split; [|reflexivity].
    apply nth_In. cbn [List.length]. apply Nat.div_lt; lia.
  - exists b. split; [|reflexivity].
    assert (H : In b (filter straddled (first :: rest))) by (rewrite E; left; reflexivity).
    apply filter_In in H. tauto.
Qed.

End ConversionFacts.
Import ConversionFacts.

(** X13.  A pool position converted with bins of finite ids gets a bin range
    with [lowerBinId <= upperBinId] that contains the id of every bin of its
    distribution. *)
Theorem converted_range_covers_bins
  (poolPos : WalletSarosApiService.SarosPoolPosition)
  (binPositions : option (list WalletSarosApiService.SarosBinPosition)) :
  let p := WalletSarosApiService.convertPoolPosition poolPos binPositions in
  Position.binDistribution p <> [] ->
  Forall finite (map BinDistribution.binId (Position.binDistribution p)) ->
  JS.gt (Position.lowerBinId p) (Position.upperBinId p) = false
  /\ forall b, In b (Position.binDistribution p) ->
       JS.lt (BinDistribution.binId b) (Position.lowerBinId p) = false
       /\ JS.gt (BinDistribution.binId b) (Position.upperBinId p) = false.
Proof.
  intros p Hne Hfin.
  destruct (converted_range poolPos binPositions Hne Hfin) as (lo & hi & Elo & Ehi & H).
  fold p in Elo, Ehi, H. rewrite Elo, Ehi. split.
  - destruct (Position.binDistribution p) as [|b l] eqn:E; [contradiction|].
    destruct (H b (or_introl eq_refl)) as (q & _ & Hq).
    cbn [JS.gt JS.lt]. apply Qltb_false. lra.
  - intros b Hb. destruct (H b Hb) as (q & -> & Hq).
    cbn [JS.gt JS.lt]. split; apply Qltb_false; lra.
Qed.

Lemma converted_range_covers_bins_witness :
  let p := WalletSarosApiService.convertPoolPosition emptied
             (Some [heldBin 99; heldBin 101]) in
  JS.gt (Position.lowerBinId p) (Position.upperBinId p) = false
  /\ forall b, In b (Position.binDistribution p) ->
       JS.lt (BinDistribution.binId b) (Position.lowerBinId p) = false
       /\ JS.gt (BinDistribution.binId b) (Position.upperBinId p) = false.
Proof.
  apply (@converted_range_covers_bins emptied (Some [heldBin 99; heldBin 101])).
  - discriminate.
  - repeat constructor; eexists; reflexivity.
Defined.

Module ConversionFacts2.
Import WalletSarosApiService.

Lemma Api_step_in_range (position : RawPosition.t) (w : JS.World) :
  in_range position ->
  Forall (fun r => RebalanceRecommendation.type r <> RebalanceRecommendation.rebalance)
         (pushed (at_object SarosApiService.analyzePosition position (w, []))).
Proof.
  intros (a & Ha & Hlo & Hhi).
  unfold at_object, SarosApiService.analyzePosition, JS.object_of, pushed.
  unfold JS.try_catch, JS.bind, JS.lift, JS.when, in_world, push, JS.ret,
    JS.Date_now, JS.console_error, JS.toFixed.
  rewrite Ha, Hlo, Hhi. cbn [orb].
  destruct (RawPosition.unclaimedFees position) as [fees|fees];
  destruct (RawPosition.pnlPercentage position) as [pnl|pnl];
  cbn [JS.ToNumber];
  destruct (JS.gt fees (JS.of_Z 50));
  destruct (JS.lt pnl (JS.of_Z (-10)));
  cbn; repeat constructor; cbn; discriminate.
Qed.

Lemma converted_in_range (poolPos : SarosPoolPosition)
  (binPositions : option (list SarosBinPosition)) :
  let p := convertPoolPosition poolPos binPositions in
  Position.binDistribution p <> [] ->
  Forall finite (map BinDistribution.binId (Position.binDistribution p)) ->
  in_range (RawPosition.of_position p).
Proof.
  intros p Hne Hfin.
  destruct (converted_range poolPos binPositions Hne Hfin) as (lo & hi & Elo & Ehi & H).
  fold p in Elo, Ehi, H.
  destruct (findActiveBin_member Hne) as (b & Hb & Eb).
  destruct (H b Hb) as (q & Eq & Hq).
  exists (BinDistribution.binId b).
  cbn [RawPosition.of_position RawPosition.binDistribution RawPosition.lowerBinId
       RawPosition.upperBinId].
  split; [exact Eb|]. rewrite Eq, Elo, Ehi. cbn [JS.lt JS.gt].
  split; apply Qltb_false; lra.
Qed.

End ConversionFacts2.
Import ConversionFacts2.

(** X14.  Pool positions that all come with bins of finite ids never draw a
    rebalance recommendation: the active bin the engine resolves is one of their
    bins, hence inside the converted range. *)
Theorem converted_with_bins_never_rebalances
  (poolPositions : list WalletSarosApiService.SarosPoolPosition)
  (binPositions : option (list WalletSarosApiService.SarosBinPosition))
  (w : JS.World) :
  (forall poolPos, In poolPos poolPositions ->
     let p := WalletSarosApiService.convertPoolPosition poolPos binPositions in
     Position.binDistribution p <> []
     /\ Forall finite (map BinDistribution.binId (Position.binDistribution p))) ->
  exists recs w',
    WalletSarosApiService.generateRebalanceRecommendations
      (objects (map RawPosition.of_position
           (WalletSarosApiService.convertPoolPositionsToPositions
              poolPositions binPositions))) w
    = (JS.Normal recs, w')
    /\ forall r, In r recs ->
         RebalanceRecommendation.type r <> RebalanceRecommendation.rebalance.
Proof.
  intro Hbins.
  unfold WalletSarosApiService.generateRebalanceRecommendations; rewrite ?for_of_objects.
  rewrite Api_generate_normal. do 2 eexists. split; [reflexivity|].
  unfold WalletSarosApiService.convertPoolPositionsToPositions.
  destruct (for_of_concat (at_object SarosApiService.analyzePosition) Api_step_framed Api_step_normal
              (fun position l =>
                 in_range position ->
                 Forall (fun r => RebalanceRecommendation.type r
                                  <> RebalanceRecommendation.rebalance) l)
              (fun position w0 H => Api_step_in_range w0 H)
              (map RawPosition.of_position
                   (map (fun poolPos =>
                           WalletSarosApiService.convertPoolPosition poolPos binPositions)
                        poolPositions)) w) as (ls & Hls & ->).
  clear w. revert ls Hls.
  induction poolPositions as [|poolPos rest IH]; intros ls Hls r Hr.
  - inversion Hls; subst. destruct Hr.
  - cbn [map] in Hls. inversion Hls as [|x l xs ls' Hx Hrest]; subst.
    cbn [List.concat] in Hr. apply in_app_or in Hr as [Hr|Hr].
    + assert (Hin : in_range (RawPosition.of_position
                (WalletSarosApiService.convertPoolPosition poolPos binPositions))).
      { destruct (Hbins poolPos (or_introl eq_refl)) as [Hne Hfin].
        apply converted_in_range; assumption. }
      specialize (Hx Hin). rewrite Forall_forall in Hx. apply Hx, Hr.
    + apply (IH (fun pp Hpp => Hbins pp (or_intror Hpp)) ls' Hrest r Hr).
Qed.

Lemma converted_with_bins_never_rebalances_witness :
  exists recs w',
    WalletSarosApiService.generateRebalanceRecommendations
      (objects (map RawPosition.of_position
           (WalletSarosApiService.convertPoolPositionsToPositions
              [emptied] (Some [heldBin 99; heldBin 101])))) world0
    = (JS.Normal recs, w')
    /\ forall r, In r recs ->
         RebalanceRecommendation.type r <> RebalanceRecommendation.rebalance.
Proof.
  apply (@converted_with_bins_never_rebalances [emptied]
           (Some [heldBin 99; heldBin 101]) world0).
  intros poolPos [<-|[]]. split.
  - discriminate.
  - repeat constructor; eexists; reflexivity.
Defined.

(** X15.  A pool position without bins whose active bin is an integer of
    magnitude at most [2 ^ 52] is given the range of ten bins on either side of
    its active bin: 21 bins, graded Excellent. *)
Theorem converted_without_bins (poolPos : WalletSarosApiService.SarosPoolPosition)
  (binPositions : option (list WalletSarosApiService.SarosBinPosition)) (a : Z) :
  WalletSarosApiService.getBinDistributionForPosition
    (WalletSarosApiService.pair_id poolPos) binPositions = [] ->
  WalletSarosApiService.active_bin_id poolPos = JS.of_Z a ->
  JS.exact_integer a ->
  let p := WalletSarosApiService.convertPoolPosition poolPos binPositions in
  Position.lowerBinId p = JS.sub (JS.of_Z a) (JS.of_Z 10)
  /\ Position.upperBinId p = JS.add (JS.of_Z a) (JS.of_Z 10)
  /\ JS.num_eq (Position.binCount p) (JS.of_Z 21)
  /\ Position.health p = Excellent.
Proof.
  intros Hnone Ha _ p. subst p. unfold WalletSarosApiService.convertPoolPosition.
  cbn [Position.lowerBinId Position.upperBinId Position.binCount Position.health].
  rewrite Hnone, Ha. cbn [List.length Nat.ltb Nat.leb].
  split; [reflexivity|]. split; [reflexivity|]. split.
  - cbn [JS.sub JS.add JS.neg JS.of_Z JS.num_eq].
    change (inject_Z 10) with 10. change (inject_Z 1) with 1.
    change (inject_Z 21) with 21. ring.
  - apply suggested_range_is_Excellent.
Qed.

Lemma converted_without_bins_witness :
  let p := WalletSarosApiService.convertPoolPosition emptied None in
  Position.lowerBinId p = JS.sub (JS.of_Z 100) (JS.of_Z 10)
  /\ Position.upperBinId p = JS.add (JS.of_Z 100) (JS.of_Z 10)
  /\ JS.num_eq (Position.binCount p) (JS.of_Z 21)
  /\ Position.health p = Excellent.
Proof.
  apply (@converted_without_bins emptied None 100).
  - reflexivity.
  - reflexivity.
  - vm_compute. discriminate.
Defined.

(** X16.  For a pool position without bins the engine resolves the active bin 0,
    not the pool's: when the pool's active bin is further than ten bins from 0,
    the converted position draws a rebalance recommendation that suggests the
    range around 0. *)
Theorem converted_without_bins_is_flagged
  (poolPos : WalletSarosApiService.SarosPoolPosition)
  (binPositions : option (list WalletSarosApiService.SarosBinPosition)) (a : Q)
  (w : JS.World) :
  WalletSarosApiService.getBinDistributionForPosition
    (WalletSarosApiService.pair_id poolPos) binPositions = [] ->
  WalletSarosApiService.active_bin_id poolPos = JS.Fin a ->
  10 < a \/ a < -10 ->
  exists r rest w',
    WalletSarosApiService.generateRebalanceRecommendations
      (objects [RawPosition.of_position
         (WalletSarosApiService.convertPoolPosition poolPos binPositions)]) w
    = (JS.Normal (r :: rest), w')
    /\ RebalanceRecommendation.type r = RebalanceRecommendation.rebalance
    /\ RebalanceRecommendation.executionParams r = Some (centred_on (JS.of_Z 0)).
Proof.
  intros Hnone Ha Hfar.
  unfold WalletSarosApiService.generateRebalanceRecommendations; rewrite ?for_of_objects.
  rewrite Api_generate_normal.
  destruct (for_of_cons (at_object SarosApiService.analyzePosition) Api_step_framed Api_step_normal
              (RawPosition.of_position
                 (WalletSarosApiService.convertPoolPosition poolPos binPositions)) [] w)
    as [Ep Ew].
  rewrite Ep, Ew. clear Ep Ew.
  cbn [JS.for_of]. unfold JS.ret, pushed at 2. cbn [snd]. rewrite app_nil_r.
  unfold at_object, SarosApiService.analyzePosition, JS.object_of, pushed.
  unfold JS.try_catch, JS.bind, JS.lift, JS.when, in_world, push, JS.ret,
    JS.Date_now, JS.console_error, JS.toFixed.
  unfold WalletSarosApiService.convertPoolPosition.
  cbn [RawPosition.of_position RawPosition.binDistribution RawPosition.unclaimedFees
       RawPosition.pnlPercentage RawPosition.lowerBinId RawPosition.upperBinId
       RawPosition.id JS.ToNumber Position.binDistribution Position.lowerBinId
       Position.upperBinId Position.unclaimedFees Position.pnlPercentage Position.id].
  rewrite Hnone, Ha.
  cbn [map SarosApiService.findActiveBin List.length Nat.eqb Nat.ltb Nat.leb].
  assert (Hout : JS.lt (JS.of_Z 0) (JS.sub (JS.Fin a) (JS.of_Z 10))
                 || JS.gt (JS.of_Z 0) (JS.add (JS.Fin a) (JS.of_Z 10)) = true).
  { apply orb_true_iff. cbn [JS.sub JS.add JS.neg JS.of_Z JS.lt JS.gt].
    change (inject_Z 10) with 10. change (inject_Z 0) with 0.
    destruct Hfar; [left|right]; apply Qltb_true; lra. }
  rewrite Hout.
  destruct (JS.gt (WalletSarosApiService.fees_24h poolPos) (JS.of_Z 50));
  destruct (JS.lt _ (JS.of_Z (-10)));
  cbn; do 3 eexists; repeat split.
Qed.

Lemma converted_without_bins_is_flagged_witness :
  exists r rest w',
    WalletSarosApiService.generateRebalanceRecommendations
      (objects [RawPosition.of_position (WalletSarosApiService.convertPoolPosition emptied None)])
      world0
    = (JS.Normal (r :: rest), w')
    /\ RebalanceRecommendation.type r = RebalanceRecommendation.rebalance
    /\ RebalanceRecommendation.executionParams r = Some (centred_on (JS.of_Z 0)).
Proof.
  apply (@converted_without_bins_is_flagged emptied None (inject_Z 100) world0).
  - reflexivity.
  - reflexivity.
  - left. reflexivity.
Defined.

Module MockFacts.

Section OneEach.
Context {R A : Type} (step : A -> JS.Eff (JS.World * list R) unit).
Hypothesis step_framed : forall x, framed (step x).
Hypothesis step_normal : forall x s, fst (step x s) = JS.Normal tt.

(** A loop whose every step pushes one element pushes one element per turn,
    in order. *)
Lemma for_of_one_each (P : A -> R -> Prop) :
  (forall x w, exists b, pushed (step x (w, [])) = [b] /\ P x b) ->
  forall xs w, Forall2 P xs (pushed (JS.for_of xs step (w, []))).
Proof.
  intros Hstep xs. induction xs as [|x xs IH]; intro w.
  - constructor.
  - destruct (for_of_cons step step_framed step_normal x xs w) as [E _]. rewrite E.
    destruct (Hstep x w) as (b & -> & Hb). cbn [app].
    constructor; [exact Hb|apply IH].
Qed.

End OneEach.

Lemma Forall2_nth_error {A B : Type} (P : A -> B -> Prop) (xs : list A) (ys : list B) :
  Forall2 P xs ys ->
  forall k x, nth_error xs k = Some x -> exists y, nth_error ys k = Some y /\ P x y.
Proof.
  induction 1 as [|x0 y0 xs ys H0 _ IH]; intros k x Hk.
  - destruct k; discriminate.
  - destruct k as [|k].
    + injection Hk as <-. exists y0. split; [reflexivity|exact H0].
    + apply IH. exact Hk.
Qed.

Lemma Forall2_length {A B : Type} (P : A -> B -> Prop) (xs : list A) (ys : list B) :
  Forall2 P xs ys -> List.length ys = List.length xs.
Proof. induction 1; cbn; congruence. Qed.

Lemma Z_upto_length (lower upper : Z) :
  List.length (Z_upto lower upper) = Z.to_nat (upper - lower + 1).
Proof. unfold Z_upto. rewrite length_map, length_seq. reflexivity. Qed.

Lemma Z_upto_nth_error (lower upper : Z) (k : nat) :
  (k < Z.to_nat (upper - lower + 1))%nat ->
  nth_error (Z_upto lower upper) k = Some (lower + Z.of_nat k)%Z.
Proof.
  intro Hk. unfold Z_upto. rewrite nth_error_map.
  rewrite nth_error_seq. 
  destruct (Nat.ltb_spec k (Z.to_nat (upper - lower + 1))); [reflexivity|lia].
Qed.

End MockFacts.
Import MockFacts.

Module MockFacts2.

Lemma mock_step_straddles_nothing (i activeBin : Z) (liquidity : JS.number) :
  JS.gt (if JS.lt (JS.of_Z i) (JS.of_Z activeBin) then liquidity else JS.of_Z 0)
        (JS.of_Z 0)
  && JS.gt (if JS.gt (JS.of_Z i) (JS.of_Z activeBin) then liquidity
            else if JS.strict_eq (JS.of_Z i) (JS.of_Z activeBin)
                 then JS.div liquidity (JS.of_Z 2)
                 else JS.of_Z 0)
           (JS.of_Z 0)
  = false.
Proof.
  cbn [JS.lt JS.gt JS.of_Z JS.strict_eq].
  destruct (JS.Qltb (inject_Z i) (inject_Z activeBin)) eqn:E.
  - apply Qltb_true in E.
    assert (E1 : JS.Qltb (inject_Z activeBin) (inject_Z i) = false)
      by (apply Qltb_false; lra).
    assert (E2 : Qeq_bool (inject_Z i) (inject_Z activeBin) = false)
      by (apply Qeq_bool_false; lra).
    rewrite E1, E2. apply andb_false_r.
  - reflexivity.
Qed.

End MockFacts2.
Import MockFacts2.

Module CounterFacts.

Lemma round_integer_small (z : Z) : (Z.abs z < 2 ^ 53)%Z -> JS.round_integer z = z.
Proof.
  intro H. unfold JS.round_integer.
  assert (Hlog : (Z.log2 (Z.abs z) - 52 <= 0)%Z).
  { destruct (Z.eq_dec (Z.abs z) 0) as [E|N].
    - rewrite E. cbn. lia.
    - assert (Z.log2 (Z.abs z) < 53)%Z by (apply Z.log2_lt_pow2; lia). lia. }
  apply Z.leb_le in Hlog. rewrite Hlog. reflexivity.
Qed.

Lemma increment_small (i : Z) : (- 2 ^ 53 < i < 2 ^ 53)%Z -> JS.increment i = (i + 1)%Z.
Proof.
  intro H. unfold JS.increment.
  destruct (Z.eq_dec (i + 1) (2 ^ 53)) as [E|N].
  - rewrite E. reflexivity.
  - apply round_integer_small. lia.
Qed.


Lemma Z_upto_nil (lower upper : Z) : (upper < lower)%Z -> Z_upto lower upper = [].
Proof.
  intro H. unfold Z_upto. replace (Z.to_nat (upper - lower + 1)) with 0%nat by lia.
  reflexivity.
Qed.

Lemma Z_upto_cons (lower upper : Z) :
  (lower <= upper)%Z -> Z_upto lower upper = lower :: Z_upto (lower + 1) upper.
Proof.
  intro H. unfold Z_upto.
  replace (Z.to_nat (upper - lower + 1)) with (S (Z.to_nat (upper - (lower + 1) + 1)))
    by lia.
  cbn [seq map]. f_equal; [lia|].
  rewrite <- seq_shift, map_map. apply map_ext. intro k. lia.
Qed.

(** Below [2 ^ 53] the counter takes every integer from [i] to [upper]. *)
Lemma count_up_small (turns : nat) (i upper : Z) :
  (- 2 ^ 53 < i)%Z -> (upper < 2 ^ 53)%Z ->
  (Z.to_nat (upper - i + 1) <= turns)%nat ->
  JS.count_up turns i upper = Some (Z_upto i upper).
Proof.
  revert i. induction turns as [|turns IH]; intros i Hi Hupper Hturns.
  - cbn [JS.count_up].
    assert (H : (upper < i)%Z) by lia.
    rewrite Z_upto_nil by exact H. apply Z.ltb_lt in H. rewrite H. reflexivity.
  - cbn [JS.count_up]. destruct (Z.ltb_spec upper i) as [H|H].
    + rewrite Z_upto_nil by exact H. reflexivity.
    + rewrite increment_small by lia.
      replace (i + 1 <=? i)%Z with false by (symmetry; apply Z.leb_gt; lia).
      rewrite IH by lia. rewrite (Z_upto_cons H). reflexivity.
Qed.


(** The bound on the turns does not decide the answer: any two bounds of at
    least [upper - i + 1] give the same one. *)
Lemma count_up_enough (turns1 turns2 : nat) (i upper : Z) :
  (Z.to_nat (upper - i + 1) <= turns1)%nat ->
  (Z.to_nat (upper - i + 1) <= turns2)%nat ->
  JS.count_up turns1 i upper = JS.count_up turns2 i upper.
Proof.
  revert turns2 i. induction turns1 as [|turns1 IH]; intros turns2 i H1 H2.
  - assert (H : (upper <? i)%Z = true) by (apply Z.ltb_lt; lia).
    destruct turns2; cbn [JS.count_up]; rewrite H; reflexivity.
  - destruct turns2 as [|turns2].
    + assert (H : (upper <? i)%Z = true) by (apply Z.ltb_lt; lia).
      cbn [JS.count_up]. rewrite H. reflexivity.
    + cbn [JS.count_up]. destruct (Z.ltb_spec upper i) as [H|H]; [reflexivity|].
      destruct (Z.leb_spec (JS.increment i) i) as [Hs|Hs]; [reflexivity|].
      rewrite (IH turns2) by lia. reflexivity.
Qed.

Lemma exact_integer_small (z : Z) : JS.exact_integer z -> (- 2 ^ 53 < z < 2 ^ 53)%Z.
Proof. unfold JS.exact_integer. intro H. change (2 ^ 53)%Z with (2 * 2 ^ 52)%Z. lia. Qed.

Lemma counter_values_exact (lower upper : Z) :
  JS.exact_integer lower -> JS.exact_integer upper ->
  JS.counter_values lower upper = Some (Z_upto lower upper).
Proof.
  intros Hl Hu. apply exact_integer_small in Hl, Hu.
  unfold JS.counter_values. apply count_up_small; lia.
Qed.

End CounterFacts.
Import CounterFacts.

Lemma mock_shape (lowerBin upperBin activeBin : Z) (w : JS.World) :
  JS.exact_integer lowerBin -> JS.exact_integer upperBin ->
  exists run bins w',
    SarosApiService.generateMockBinDistribution lowerBin upperBin activeBin = Some run
    /\ run w = (JS.Normal bins, w')
    /\ Forall2 mock_bin (Z_upto lowerBin upperBin) bins
    /\ map BinDistribution.binId bins = map JS.of_Z (Z_upto lowerBin upperBin)
    /\ List.length bins = Z.to_nat (upperBin - lowerBin + 1).
Proof.
  intros Hl Hu.
  unfold SarosApiService.generateMockBinDistribution.
  rewrite (counter_values_exact Hl Hu).
  match goal with
  | |- context [JS.for_of _ ?f] => set (step := f)
  end.
  assert (Hframed : forall i, framed (step i)) by (intro i; unfold step; framed).
  assert (Hnormal : forall i s, fst (step i s) = JS.Normal tt).
  { intros i s. unfold step, JS.bind, in_world, JS.Math_random, push. reflexivity. }
  eexists. rewrite (returning_array_normal step Hnormal).
  do 2 eexists. split; [reflexivity|]. split; [reflexivity|].
  assert (H : Forall2 mock_bin (Z_upto lowerBin upperBin)
                (pushed (JS.for_of (Z_upto lowerBin upperBin) step (w, [])))).
  { apply (for_of_one_each step Hframed Hnormal). intros i w0.
    eexists. split; [reflexivity|].
    split; [reflexivity|]. unfold straddled.
    cbn [BinDistribution.liquidityX BinDistribution.liquidityY].
    apply mock_step_straddles_nothing. }
  split; [exact H|]. split.
  - clear -H. induction H as [|i b rest bs [Hb _] _ IH]; [reflexivity|].
    cbn [map]. rewrite Hb, IH. reflexivity.
  - rewrite (Forall2_length H). apply Z_upto_length.
Qed.

(** X17.  For integer bounds of magnitude at most [2 ^ 52] and at most [2 ^ 32 -
    1] bins, [generateMockBinDistribution] returns one bin per id from
    [lowerBin] to [upperBin], in order, none of which holds both tokens; the
    array is empty when [upperBin < lowerBin]. *)
Theorem mock_distribution_shape (lowerBin upperBin activeBin : Z) (w : JS.World) :
  JS.exact_integer lowerBin -> JS.exact_integer upperBin ->
  (upperBin - lowerBin < JS.max_array_length)%Z ->
  exists run bins w',
    SarosApiService.generateMockBinDistribution lowerBin upperBin activeBin = Some run
    /\ run w = (JS.Normal bins, w')
    /\ Forall2 mock_bin (Z_upto lowerBin upperBin) bins
    /\ map BinDistribution.binId bins = map JS.of_Z (Z_upto lowerBin upperBin)
    /\ List.length bins = Z.to_nat (upperBin - lowerBin + 1).
Proof. intros Hl Hu _. apply mock_shape; assumption. Qed.

Lemma mock_distribution_shape_witness :
  exists run bins w',
    SarosApiService.generateMockBinDistribution 98 118 108 = Some run
    /\ run world0 = (JS.Normal bins, w')
    /\ Forall2 mock_bin (Z_upto 98 118) bins
    /\ map BinDistribution.binId bins = map JS.of_Z (Z_upto 98 118)
    /\ List.length bins = Z.to_nat (118 - 98 + 1).
Proof.
  apply (@mock_distribution_shape 98 118 108 world0).
  - vm_compute. discriminate.
  - vm_compute. discriminate.
  - reflexivity.
Defined.

(** X18.  On such a mock distribution [findActiveBin] answers the middle bin id,
    [lowerBin + floor((upperBin - lowerBin + 1) / 2)], whatever [activeBin] the
    distribution was generated for. *)
Theorem mock_distribution_active_bin (lowerBin upperBin activeBin : Z) (w : JS.World) :
  JS.exact_integer lowerBin -> JS.exact_integer upperBin ->
  (lowerBin <= upperBin)%Z ->
  (upperBin - lowerBin < JS.max_array_length)%Z ->
  exists run bins w',
    SarosApiService.generateMockBinDistribution lowerBin upperBin activeBin = Some run
    /\ run w = (JS.Normal bins, w')
    /\ SarosApiService.findActiveBin (Some (map Some bins))
       = JS.Normal (JS.of_Z (lowerBin + (upperBin - lowerBin + 1) / 2)).
Proof.
  intros Hl Hu Hle _.
  destruct (@mock_shape lowerBin upperBin activeBin w Hl Hu)
    as (run & bins & w' & Erun & E & H & _ & Hlen).
  exists run, bins, w'. split; [exact Erun|]. split; [exact E|].
  assert (Hmid : (Nat.div (List.length bins) 2 < Z.to_nat (upperBin - lowerBin + 1))%nat).
  { rewrite Hlen. apply Nat.div_lt; lia. }
  destruct (Forall2_nth_error H _ (Z_upto_nth_error lowerBin upperBin Hmid))
    as (b & Hb & Hid & _).
  rewrite (@unstraddled_middle bins b).
  - rewrite Hid. do 3 f_equal. rewrite Hlen.
    rewrite Nat2Z.inj_div. rewrite Z2Nat.id by lia. reflexivity.
  - clear -H. induction H as [|i b rest bs [_ Hb] _ IH]; constructor; assumption.
  - exact Hb.
Qed.

Lemma mock_distribution_active_bin_witness :
  exists run bins w',
    SarosApiService.generateMockBinDistribution 98 118 108 = Some run
    /\ run world0 = (JS.Normal bins, w')
    /\ SarosApiService.findActiveBin (Some (map Some bins))
       = JS.Normal (JS.of_Z (98 + (118 - 98 + 1) / 2)).
Proof.
  apply (@mock_distribution_active_bin 98 118 108 world0).
  - vm_compute. discriminate.
  - vm_compute. discriminate.
  - discriminate.
  - reflexivity.
Defined.



Module HistoryFacts.

Lemma priceWalk_shape (countdown : list Z) (now intervalMs : Z) (basePrice : Q)
  (w : JS.World) (acc : list HistoricalPriceData.t) :
  exists items w',
    SarosApiService.priceWalk countdown now intervalMs (JS.Fin basePrice) (w, acc)
    = (JS.Normal tt, (w', (acc ++ items)%list))
    /\ Forall (fun h => exists q, HistoricalPriceData.price h = JS.Fin q /\ 1 <= q) items
    /\ map HistoricalPriceData.timestamp items
       = map (fun i => JS.of_Z (now - i * intervalMs)) countdown
    /\ JS.ticks w' = JS.ticks w
    /\ JS.draws w' = (JS.draws w + 3 * List.length countdown)%nat.
Proof.
  revert basePrice w acc. induction countdown as [|i rest IH]; intros basePrice w acc.
  - exists [], w. cbn. rewrite app_nil_r. repeat split; try constructor; lia.
  - cbn [SarosApiService.priceWalk].
    unfold JS.bind, in_world, JS.Math_random, push, JS.sub, JS.of_Z.
    cbn beta iota zeta delta [fst snd JS.add JS.neg JS.mul
                              JS.now JS.ticks JS.random JS.draws JS.console].
    rewrite Math_max_Fin.
    set (price := if JS.Qltb _ (inject_Z 1) then inject_Z 1 else _).
    match goal with
    | |- context [SarosApiService.priceWalk rest now intervalMs (JS.Fin price) (?w1, ?acc1)] =>
        destruct (IH price w1 acc1) as (items & w' & E & Hprice & Hts & Hticks & Hdraws)
    end.
    rewrite E. eexists (_ :: items), w'. split.
    + rewrite <- app_assoc. reflexivity.
    + split; [|split; [|split]].
      * constructor; [|exact Hprice]. exists price. split; [reflexivity|].
        unfold price. change (inject_Z 1) with 1.
        match goal with |- 1 <= (if JS.Qltb ?x 1 then _ else _) =>
          destruct (JS.Qltb x 1) eqn:Ex end.
        -- apply Qle_refl.
        -- apply Qltb_false in Ex. exact Ex.
      * cbn [map HistoricalPriceData.timestamp]. rewrite Hts. reflexivity.
      * rewrite Hticks. reflexivity.
      * rewrite Hdraws. cbn [JS.draws List.length]. lia.
Qed.

End HistoryFacts.
Import HistoryFacts.

(** X19.  [getHistoricalData] returns [intervals + 1] points (25, 31 or 91),
    oldest first, one interval apart and ending at the time of the call; every
    price is finite and at least 1; the clock is read once and three random
    numbers are drawn per point. *)
Theorem price_history_shape (pair timeframe : string) (w : JS.World) :
  exists data w',
    SarosApiService.getHistoricalData pair timeframe w = (JS.Normal data, w')
    /\ List.length data = Z.to_nat (SarosApiService.intervals timeframe + 1)
    /\ Forall (fun h => exists q, HistoricalPriceData.price h = JS.Fin q /\ 1 <= q) data
    /\ map HistoricalPriceData.timestamp data
       = map (fun i => JS.of_Z (JS.now w (JS.ticks w)
                                - i * SarosApiService.intervalMs timeframe))
             (rev (Z_upto 0 (SarosApiService.intervals timeframe)))
    /\ JS.ticks w' = S (JS.ticks w)
    /\ JS.draws w' = (JS.draws w + 3 * List.length data)%nat.
Proof.
  unfold SarosApiService.getHistoricalData, JS.bind, JS.Date_now, returning_array.
  match goal with
  | |- context [SarosApiService.priceWalk ?cd ?n ?ms (JS.of_Z 100) (?w1, [])] =>
      destruct (@priceWalk_shape cd n ms 100 w1 [])
        as (items & w' & E & Hprice & Hts & Hticks & Hdraws)
  end.
  change (JS.of_Z 100) with (JS.Fin 100). rewrite E. cbn [app].
  exists items, w'. split; [reflexivity|].
  assert (Hlen : List.length items
                 = List.length (rev (Z_upto 0 (SarosApiService.intervals timeframe)))).
  { rewrite <- (length_map HistoricalPriceData.timestamp), Hts, length_map. reflexivity. }
  rewrite length_rev, Z_upto_length in Hlen.
  split; [rewrite Hlen; f_equal; lia|].
  split; [exact Hprice|]. split; [exact Hts|]. split; [exact Hticks|].
  rewrite Hdraws, length_rev, Z_upto_length, Hlen. reflexivity.
Qed.

(** X20.  [calculateValueChange] never throws: it is the value of the last point
    minus the value of the one before, and 0 for fewer than two points. *)
Theorem calculateValueChange_last_two (performanceData : list PerformanceDataPoint.t) :
  RealSarosService.calculateValueChange performanceData
  = JS.Normal
      match rev performanceData with
      | latest :: previous :: _ =>
          JS.sub (PerformanceDataPoint.value latest) (PerformanceDataPoint.value previous)
      | _ => JS.of_Z 0
      end.
Proof.
  unfold RealSarosService.calculateValueChange.
  destruct (rev performanceData) as [|latest [|previous earlier]] eqn:E.
  - apply (f_equal (@rev _)) in E. rewrite rev_involutive in E. subst. reflexivity.
  - apply (f_equal (@rev _)) in E. rewrite rev_involutive in E. subst. reflexivity.
  - apply (f_equal (@rev _)) in E. rewrite rev_involutive in E. subst.
    cbn [rev]. rewrite <- app_assoc. cbn [app].
    rewrite !length_app. cbn [List.length].
    replace (Nat.ltb (List.length (rev earlier) + 2) 2) with false
      by (symmetry; apply Nat.ltb_ge; lia).
    replace (List.length (rev earlier) + 2 - 1)%nat
      with (List.length (rev earlier) + 1)%nat by lia.
    replace (List.length (rev earlier) + 2 - 2)%nat
      with (List.length (rev earlier) + 0)%nat by lia.
    rewrite !nth_error_app2 by lia.
    replace (List.length (rev earlier) + 1 - List.length (rev earlier))%nat with 1%nat by lia.
    replace (List.length (rev earlier) + 0 - List.length (rev earlier))%nat with 0%nat by lia.
    reflexivity.
Qed.

Module DashboardFacts.

Lemma healthScores_scoreQ (h : Health) : Dashboard.healthScores h = JS.Fin (scoreQ h).
Proof. destruct h; reflexivity. Qed.

Lemma score_sum (lo hi : Q) (positions : list Position.t) (a : Q) :
  Forall (fun p => lo <= scoreQ (Position.health p) <= hi) positions ->
  exists s,
    fold_left (fun sum pos => JS.add sum (Dashboard.healthScores (Position.health pos)))
              positions (JS.Fin a) = JS.Fin s
    /\ a + lo * inject_Z (Z.of_nat (List.length positions)) <= s
    /\ s <= a + hi * inject_Z (Z.of_nat (List.length positions)).
Proof.
  intro H. revert a. induction H as [|p ps [Hlo Hhi] _ IH]; intro a.
  - exists a. cbn [fold_left List.length]. change (inject_Z (Z.of_nat 0)) with 0.
    split; [reflexivity|]. split; lra.
  - cbn [fold_left List.length]. rewrite healthScores_scoreQ. cbn [JS.add].
    destruct (IH (a + scoreQ (Position.health p))) as (t & Et & Htlo & Hthi).
    exists t. split; [exact Et|].
    rewrite Nat2Z.inj_succ, <- Z.add_1_r, inject_Z_plus.
    change (inject_Z 1) with 1. split; lra.
Qed.

Lemma scoreQ_bounds (h : Health) : 1 <= scoreQ h <= 4.
Proof. destruct h; split; unfold Qle; cbn; lia. Qed.

Lemma scoreQ_mono (g h : Health) : (grade g <= grade h)%nat -> scoreQ g <= scoreQ h.
Proof. intro H. unfold scoreQ. rewrite <- Zle_Qle. lia. Qed.

Lemma average_score (lo hi : Q) (positions : list Position.t) :
  positions <> [] ->
  Forall (fun p => lo <= scoreQ (Position.health p) <= hi) positions ->
  exists q,
    Dashboard.avgHealthScore (Dashboard.portfolioMetrics (holding positions)) = JS.Fin q
    /\ lo <= q <= hi.
Proof.
  intros Hne H. unfold Dashboard.portfolioMetrics, holding.
  cbn [Dashboard.avgHealthScore PortfolioData.positions]. unfold reduce_sum.
  destruct (score_sum 0 H) as (s & E & Hlo & Hhi).
  change (JS.of_Z 0) with (JS.Fin 0). rewrite E.
  set (n := inject_Z (Z.of_nat (List.length positions))) in *.
  assert (Hn : 1 <= n).
  { unfold n. change 1 with (inject_Z 1). rewrite <- Zle_Qle.
    destruct positions; [congruence|cbn [List.length]; lia]. }
  unfold JS.of_nat, JS.of_Z. fold n. rewrite Math_max_Fin.
  change (inject_Z 1) with 1.
  replace (JS.Qltb n 1) with false by (symmetry; apply Qltb_false; exact Hn).
  unfold JS.div. rewrite Qeq_bool_false by lra.
  exists (s / n). split; [reflexivity|]. split.
  - apply Qle_shift_div_l; lra.
  - apply Qle_shift_div_r; lra.
Qed.

Lemma metrics_of_positions (pd : PortfolioData.t) :
  Dashboard.portfolioMetrics pd
  = Dashboard.portfolioMetrics (holding (PortfolioData.positions pd)).
Proof. reflexivity. Qed.

Lemma health_of_score (m : Dashboard.portfolioMetrics_t) (pd : PortfolioData.t) (q : Q) :
  m = Dashboard.portfolioMetrics pd ->
  Dashboard.avgHealthScore m = JS.Fin q ->
  Dashboard.portfolioHealth m
  = if JS.Qltb q 3.5 then if JS.Qltb q 2.5 then if JS.Qltb q 1.5 then Poor else Fair
                          else Good
    else Excellent.
Proof.
  intros -> E. unfold Dashboard.portfolioMetrics in *.
  cbn [Dashboard.avgHealthScore Dashboard.portfolioHealth] in *.
  rewrite E. unfold JS.ge, JS.lt.
  destruct (JS.Qltb q 3.5), (JS.Qltb q 2.5), (JS.Qltb q 1.5); reflexivity.
Qed.

Lemma active_le_total (pd : PortfolioData.t) :
  (Dashboard.activePositions (Dashboard.portfolioMetrics pd)
   <= Dashboard.totalPositions (Dashboard.portfolioMetrics pd))%nat.
Proof. cbn. apply filter_length_le. Qed.

Lemma health_between (lo hi : Health) (portfolioData : PortfolioData.t) :
  PortfolioData.positions portfolioData <> [] ->
  Forall (fun p => graded_between lo hi (Position.health p))
         (PortfolioData.positions portfolioData) ->
  graded_between lo hi (Dashboard.portfolioHealth (Dashboard.portfolioMetrics portfolioData)).
Proof.
  intros Hne H.
  assert (Hq : exists q,
             Dashboard.avgHealthScore (Dashboard.portfolioMetrics portfolioData) = JS.Fin q
             /\ scoreQ lo <= q <= scoreQ hi).
  { rewrite metrics_of_positions. apply average_score; [exact Hne|].
    eapply Forall_impl; [|exact H]. intros p [H1 H2].
    split; apply scoreQ_mono; assumption. }
  destruct Hq as (q & E & Hlo & Hhi).
  rewrite (health_of_score (pd := portfolioData) eq_refl E).
  unfold graded_between.
  destruct (JS.Qltb q 3.5) eqn:E3; [apply Qltb_true in E3|apply Qltb_false in E3];
  (destruct (JS.Qltb q 2.5) eqn:E2; [apply Qltb_true in E2|apply Qltb_false in E2]);
  (destruct (JS.Qltb q 1.5) eqn:E1; [apply Qltb_true in E1|apply Qltb_false in E1]);
  try (exfalso; lra);
  destruct lo, hi;
  try change (scoreQ Excellent) with 4 in *; try change (scoreQ Good) with 3 in *;
  try change (scoreQ Fair) with 2 in *; try change (scoreQ Poor) with 1 in *;
  cbn [grade]; try lia; exfalso; lra.
Qed.

End DashboardFacts.
Import DashboardFacts.

(** X21.  For a non-empty portfolio the average health score of the dashboard
    lies between 1 and 4, and the active positions are never more than the
    positions. *)
Theorem dashboard_score_range (portfolioData : PortfolioData.t) :
  PortfolioData.positions portfolioData <> [] ->
  let m := Dashboard.portfolioMetrics portfolioData in
  (Dashboard.activePositions m <= Dashboard.totalPositions m)%nat
  /\ exists q, Dashboard.avgHealthScore m = JS.Fin q /\ 1 <= q <= 4.
Proof.
  intros Hne m. split; [apply active_le_total|].
  unfold m. rewrite metrics_of_positions.
  apply average_score; [exact Hne|].
  apply Forall_forall. intros p _. apply scoreQ_bounds.
Qed.

Lemma dashboard_score_range_witness :
  let m := Dashboard.portfolioMetrics
             (holding [SarosSdkService.convertSdkPosition None]) in
  (Dashboard.activePositions m <= Dashboard.totalPositions m)%nat
  /\ exists q, Dashboard.avgHealthScore m = JS.Fin q /\ 1 <= q <= 4.
Proof.
  apply (@dashboard_score_range (holding [SarosSdkService.convertSdkPosition None])).
  discriminate.
Defined.

(** X22.  The portfolio health of the dashboard is never better than the best
    position and never worse than the worst. *)
Theorem dashboard_health_between (lo hi : Health) (portfolioData : PortfolioData.t) :
  PortfolioData.positions portfolioData <> [] ->
  Forall (fun p => graded_between lo hi (Position.health p))
         (PortfolioData.positions portfolioData) ->
  graded_between lo hi (Dashboard.portfolioHealth (Dashboard.portfolioMetrics portfolioData)).
Proof. apply health_between. Qed.

Lemma dashboard_health_between_witness :
  graded_between Good Good
    (Dashboard.portfolioHealth
       (Dashboard.portfolioMetrics
          (holding [SarosSdkService.convertSdkPosition None;
                    SarosSdkService.convertSdkPosition (Some "key"%string)]))).
Proof.
  apply (@dashboard_health_between Good Good
           (holding [SarosSdkService.convertSdkPosition None;
                     SarosSdkService.convertSdkPosition (Some "key"%string)])).
  - discriminate.
  - repeat constructor.
Defined.

(** X23.  With no position better than Poor the portfolio health is Poor; that
    includes the empty portfolio, whose score is 0. *)
Theorem dashboard_no_active_is_Poor (portfolioData : PortfolioData.t) :
  Dashboard.activePositions (Dashboard.portfolioMetrics portfolioData) = 0%nat ->
  Dashboard.portfolioHealth (Dashboard.portfolioMetrics portfolioData) = Poor.
Proof.
  intro H0.
  destruct (PortfolioData.positions portfolioData) as [|p ps] eqn:Eps.
  - unfold Dashboard.portfolioMetrics. rewrite Eps. reflexivity.
  - assert (Hall : Forall (fun p => graded_between Poor Poor (Position.health p))
                          (PortfolioData.positions portfolioData)).
    { apply Forall_forall. intros x Hx.
      cbn in H0. 
      destruct (Position.health x) eqn:Ex; unfold graded_between; cbn; try lia;
      exfalso;
      assert (Hin : In x (filter (fun p => match Position.health p with
                                           | Poor => false | _ => true end)
                                 (PortfolioData.positions portfolioData)))
        by (apply filter_In; split; [exact Hx|rewrite Ex; reflexivity]);
      apply length_zero_iff_nil in H0; rewrite H0 in Hin; exact Hin. }
    assert (Hne : PortfolioData.positions portfolioData <> []) by (rewrite Eps; discriminate).
    pose proof (@health_between Poor Poor portfolioData Hne Hall) as [H1 H2].
    destruct (Dashboard.portfolioHealth (Dashboard.portfolioMetrics portfolioData));
      cbn in *; try lia; reflexivity.
Qed.

Lemma dashboard_no_active_is_Poor_witness :
  Dashboard.portfolioHealth (Dashboard.portfolioMetrics (holding [])) = Poor.
Proof. apply (@dashboard_no_active_is_Poor (holding [])). reflexivity. Defined.

Module HealthFacts2.

Lemma unguarded_nonzero_range (a l u : Q) :
  ~ u == l ->
  SarosApiService.calculateHealth (JS.Fin a) (JS.Fin l) (JS.Fin u)
  = gradeOfRatio (minDistance a l u / (u - l) * 100).
Proof.
  intro H. unfold SarosApiService.calculateHealth.
  rewrite !sub_Fin, Math_min_Fin.
  unfold JS.div. rewrite Qeq_bool_false by (intro E; apply H; lra).
  reflexivity.
Qed.

Lemma minQ_Qeq (x y x' y' : Q) : x == x' -> y == y' -> minQ x y == minQ x' y'.
Proof.
  intros Hx Hy. unfold minQ. rewrite (Qltb_Qeq Hy Hx).
  destruct (JS.Qltb y' x'); assumption.
Qed.

Lemma minQ_comm (x y : Q) : minQ x y == minQ y x.
Proof.
  unfold minQ.
  destruct (JS.Qltb y x) eqn:E1; destruct (JS.Qltb x y) eqn:E2;
    try apply Qltb_true in E1; try apply Qltb_false in E1;
    try apply Qltb_true in E2; try apply Qltb_false in E2; lra.
Qed.

Lemma minQ_scale (k x y : Q) : 0 < k -> minQ (k * x) (k * y) == k * minQ x y.
Proof.
  intro Hk. unfold minQ.
  destruct (JS.Qltb (k * y) (k * x)) eqn:E1; destruct (JS.Qltb y x) eqn:E2;
    try reflexivity;
    try apply Qltb_true in E1; try apply Qltb_false in E1;
    try apply Qltb_true in E2; try apply Qltb_false in E2.
  - exfalso. nra.
  - exfalso. nra.
Qed.

Lemma health_of_Qeq_ratio (a l u a' l' u' : Q) :
  ~ u == l -> ~ u' == l' ->
  minDistance a l u / (u - l) == minDistance a' l' u' / (u' - l') ->
  SarosApiService.calculateHealth (JS.Fin a) (JS.Fin l) (JS.Fin u)
  = SarosApiService.calculateHealth (JS.Fin a') (JS.Fin l') (JS.Fin u').
Proof.
  intros H H' E. rewrite !unguarded_nonzero_range by assumption.
  apply gradeOfRatio_Qeq. rewrite E. reflexivity.
Qed.

Lemma calculateHealth_Qeq (a a' l l' u u' : Q) :
  a == a' -> l == l' -> u == u' ->
  SarosApiService.calculateHealth (JS.Fin a) (JS.Fin l) (JS.Fin u)
  = SarosApiService.calculateHealth (JS.Fin a') (JS.Fin l') (JS.Fin u').
Proof.
  intros Ha Hl Hu. destruct (Qeq_dec u l) as [E|N].
  - rewrite !unguarded_zero_range; [reflexivity| |exact E].
    rewrite <- Hu, <- Hl. exact E.
  - apply health_of_Qeq_ratio; [exact N| |].
    + intro E. apply N. rewrite Hu, Hl. exact E.
    + unfold minDistance.
      rewrite (@minQ_Qeq (a - l) (u - a) (a' - l') (u' - a'))
        by (rewrite ?Ha, ?Hl, ?Hu; reflexivity).
      rewrite Hu, Hl. reflexivity.
Qed.

Lemma affine_invariant (k c a l u : Q) :
  0 < k ->
  SarosApiService.calculateHealth
    (JS.Fin (k * a + c)) (JS.Fin (k * l + c)) (JS.Fin (k * u + c))
  = SarosApiService.calculateHealth (JS.Fin a) (JS.Fin l) (JS.Fin u).
Proof.
  intro Hk. destruct (Qeq_dec u l) as [E|N].
  - rewrite !unguarded_zero_range; [reflexivity|exact E|rewrite E; reflexivity].
  - assert (N' : ~ k * u + c == k * l + c).
    { intro E. apply N. apply (Qmult_inj_l u l k); lra. }
    apply health_of_Qeq_ratio; [exact N'|exact N|].
    unfold minDistance.
    rewrite (@minQ_Qeq (k * a + c - (k * l + c)) (k * u + c - (k * a + c))
                       (k * (a - l)) (k * (u - a))) by ring.
    rewrite minQ_scale by exact Hk.
    field. split; [intro E; apply N; lra|lra].
Qed.

Lemma mirror_symmetric (a l u : Q) :
  SarosApiService.calculateHealth (JS.Fin (l + u - a)) (JS.Fin l) (JS.Fin u)
  = SarosApiService.calculateHealth (JS.Fin a) (JS.Fin l) (JS.Fin u).
Proof.
  destruct (Qeq_dec u l) as [E|N].
  - rewrite !unguarded_zero_range; [reflexivity|exact E|exact E].
  - apply health_of_Qeq_ratio; [exact N|exact N|].
    unfold minDistance.
    rewrite (@minQ_Qeq (l + u - a - l) (u - (l + u - a)) (u - a) (a - l)) by ring.
    rewrite minQ_comm. reflexivity.
Qed.

End HealthFacts2.
Import HealthFacts2.

(** X24.  For integer bin ids of magnitude at most [2 ^ 52], the grade depends
    only on where the active bin lies relative to the range: moving the three
    bin ids by the same integer offset and stretching them by the same positive
    integer factor leaves it unchanged. *)
Theorem health_affine_invariant (k c a l u : Z) :
  (0 < k)%Z ->
  JS.exact_integer a -> JS.exact_integer l -> JS.exact_integer u ->
  JS.exact_integer (k * a + c) -> JS.exact_integer (k * l + c) ->
  JS.exact_integer (k * u + c) ->
  SarosApiService.calculateHealth
    (JS.of_Z (k * a + c)) (JS.of_Z (k * l + c)) (JS.of_Z (k * u + c))
  = SarosApiService.calculateHealth (JS.of_Z a) (JS.of_Z l) (JS.of_Z u).
Proof.
  intros Hk _ _ _ _ _ _. unfold JS.of_Z.
  rewrite <- (@affine_invariant (inject_Z k) (inject_Z c)
                (inject_Z a) (inject_Z l) (inject_Z u)).
  - apply calculateHealth_Qeq; rewrite inject_Z_plus, inject_Z_mult; reflexivity.
  - change 0 with (inject_Z 0). rewrite <- Zlt_Qlt. exact Hk.
Qed.

Lemma health_affine_invariant_witness :
  SarosApiService.calculateHealth
    (JS.of_Z (2 * 110 + 5)) (JS.of_Z (2 * 100 + 5)) (JS.of_Z (2 * 120 + 5))
  = SarosApiService.calculateHealth (JS.of_Z 110) (JS.of_Z 100) (JS.of_Z 120).
Proof.
  apply (@health_affine_invariant 2 5 110 100 120);
    first [reflexivity | vm_compute; discriminate].
Defined.

(** X25.  For integer bin ids of magnitude at most [2 ^ 52], the grade is the
    same for an active bin and for its mirror image in the range. *)
Theorem health_mirror_symmetric (a l u : Z) :
  JS.exact_integer a -> JS.exact_integer l -> JS.exact_integer u ->
  JS.exact_integer (l + u - a) ->
  SarosApiService.calculateHealth (JS.of_Z (l + u - a)) (JS.of_Z l) (JS.of_Z u)
  = SarosApiService.calculateHealth (JS.of_Z a) (JS.of_Z l) (JS.of_Z u).
Proof.
  intros _ _ _ _. unfold JS.of_Z.
  rewrite <- (@mirror_symmetric (inject_Z a) (inject_Z l) (inject_Z u)).
  apply calculateHealth_Qeq; try reflexivity.
  unfold Zminus. rewrite !inject_Z_plus, inject_Z_opp. reflexivity.
Qed.

Lemma health_mirror_symmetric_witness :
  SarosApiService.calculateHealth (JS.of_Z (100 + 120 - 103)) (JS.of_Z 100) (JS.of_Z 120)
  = SarosApiService.calculateHealth (JS.of_Z 103) (JS.of_Z 100) (JS.of_Z 120).
Proof.
  apply (@health_mirror_symmetric 103 100 120); vm_compute; discriminate.
Defined.

(** X27.  The roll-up guards its percentage with [totalValue > 0] but divides by
    [totalValue - totalPnL]: a portfolio whose value is all profit gets the
    percentage Infinity. *)
Theorem rollup_percentage_all_profit (positions : list Position.t) (v p : Q) :
  reduce_sum Position.currentValue positions = JS.Fin v ->
  reduce_sum Position.pnl positions = JS.Fin p ->
  0 < v -> p == v ->
  PortfolioData.totalPnLPercentage (SarosSdkService.calculatePortfolioData positions)
  = Some JS.PosInf
  /\ PortfolioData.totalPnLPercentage
       (WalletSarosApiService.calculatePortfolioData positions)
     = Some JS.PosInf.
Proof.
  intros Ev Ep Hv Hpv.
  assert (H : PortfolioData.totalPnLPercentage
                (SarosSdkService.calculatePortfolioData positions) = Some JS.PosInf).
  { unfold SarosSdkService.calculatePortfolioData.
    cbn [PortfolioData.totalPnLPercentage]. rewrite Ev, Ep.
    unfold JS.gt, JS.lt, JS.of_Z. change (inject_Z 0) with 0.
    replace (JS.Qltb 0 v) with true by (symmetry; apply Qltb_true; exact Hv).
    rewrite sub_Fin. unfold JS.div. rewrite Qeq_bool_true by lra.
    assert (Hp : 0 < p) by lra. apply Qgt_alt in Hp. rewrite Hp. reflexivity. }
  split; exact H.
Qed.

Lemma rollup_percentage_all_profit_witness :
  PortfolioData.totalPnLPercentage
    (SarosSdkService.calculatePortfolioData
       [WalletSarosApiService.convertPoolPosition emptied None])
  = Some JS.PosInf
  /\ PortfolioData.totalPnLPercentage
       (WalletSarosApiService.calculatePortfolioData
          [WalletSarosApiService.convertPoolPosition emptied None])
     = Some JS.PosInf.
Proof.
  apply (@rollup_percentage_all_profit
           [WalletSarosApiService.convertPoolPosition emptied None]
           (0 + (1 + 0)) (0 + (1 + 0 + - 0))).
  - reflexivity.
  - reflexivity.
  - reflexivity.
  - reflexivity.
Defined.

